(** * MLPs_ensemble: the model-ensembling and result-unification layer

    A shallow embedding of the Python sources

      - [src/utils/energy_correction.py]  ([apply_mp2020_correction])
      - [src/model/mace_model.py], [eqv2_model.py], [matter_sim.py],
        [chgnet_model.py]                 (the four [predict] methods)
      - [src/model/ensembled_output.py]   ([ModelManager])

    Python values are dynamically typed, so result dictionaries are values of
    one universal type [PyValue]; exceptions are an explicit error monad;
    dictionaries are insertion-ordered association lists updated by
    [dict_set], which is what [d[k] = v] does.  The third-party calculators
    (ASE, pymatgen, CHGNet, MACE, fairchem, MatterSim) are not part of the
    repository: they appear as oracle functions. *)

From Stdlib Require Import String Ascii List ZArith Bool Lia.
From Stdlib Require Import Floats.SpecFloat.
Import ListNotations.
Local Open Scope string_scope.

(* ================================================================== *)
(** ** Python runtime: exceptions, values, dictionaries                *)
(* ================================================================== *)

Module Py.

(** An exception object: its class name and the text [str(e)] returns.
    Only subclasses of [Exception] are modelled (every handler in the
    sources is [except Exception]). *)
Record PyExc : Type := mkExc { exc_type : string; exc_msg : string }.

Definition str (e : PyExc) : string := exc_msg e.

Definition ValueError (msg : string) : PyExc := mkExc "ValueError" msg.
Definition RuntimeError (msg : string) : PyExc := mkExc "RuntimeError" msg.
Definition AttributeError (msg : string) : PyExc := mkExc "AttributeError" msg.
(** [str(KeyError(k))] is the [repr] of the key. *)
Definition KeyError (key : string) : PyExc :=
  mkExc "KeyError" ("'" ++ key ++ "'").

(** Outcome of running a piece of Python code. *)
Inductive Result (A : Type) : Type :=
| Ok (a : A)
| Raise (e : PyExc).
Arguments Ok {A} a.
Arguments Raise {A} e.

Definition ret {A} (a : A) : Result A := Ok a.

Definition bind {A B} (c : Result A) (k : A -> Result B) : Result B :=
  match c with
  | Ok a => k a
  | Raise e => Raise e
  end.

(** [try: body  except Exception as e: handler(e)] *)
Definition try_except {A} (body : Result A) (handler : PyExc -> Result A)
  : Result A :=
  match body with
  | Ok a => Ok a
  | Raise e => handler e
  end.

(** Python floats are IEEE binary64 values; numpy's [float32] values embed
    exactly, so a float payload is the IEEE value it denotes. *)
Definition pyfloat : Type := spec_float.

Unset Elimination Schemes.

(** The contents of a numeric [numpy.ndarray]: a scalar (zero-dimensional
    array) or a sequence of sub-arrays along the first axis. *)
Inductive NdArray : Type :=
| NdFloat (x : pyfloat)
| NdInt (n : Z)
| NdAxis (items : list NdArray).

(** The values that occur in prediction results. *)
Inductive PyValue : Type :=
| VNone
| VBool (b : bool)
| VInt (n : Z)
| VFloat (x : pyfloat)
| VStr (s : string)
| VList (l : list PyValue)
| VDict (d : list (string * PyValue))
| VNdarray (a : NdArray)
| VNpFloat32 (x : pyfloat)
| VNpFloat64 (x : pyfloat)
| VNpInt32 (n : Z)
| VNpInt64 (n : Z)
| VObject (type_name : string).   (* any other object, opaque *)

Set Elimination Schemes.

Definition PyDict : Type := list (string * PyValue).

(** [ndarray.tolist()]: nested lists of plain Python numbers; a
    zero-dimensional array gives the bare number. *)
Fixpoint tolist (a : NdArray) : PyValue :=
  match a with
  | NdFloat x => VFloat x
  | NdInt n => VInt n
  | NdAxis items => VList (map tolist items)
  end.

Section Dict.
Context {V : Type}.

(** [d[k]] on a present key / [k in d]. *)
Fixpoint dict_get (d : list (string * V)) (k : string) : option V :=
  match d with
  | [] => None
  | (k', v) :: rest => if String.eqb k' k then Some v else dict_get rest k
  end.

(** [d[k] = v]: overwrite in place, or append a new key at the end. *)
Fixpoint dict_set (d : list (string * V)) (k : string) (v : V)
  : list (string * V) :=
  match d with
  | [] => [(k, v)]
  | (k', v') :: rest =>
      if String.eqb k' k then (k, v) :: rest
      else (k', v') :: dict_set rest k v
  end.

Definition keys (d : list (string * V)) : list string := map fst d.
End Dict.

(** [needle in haystack] on two strings: substring containment. *)
Fixpoint str_contains (haystack needle : string) : bool :=
  String.prefix needle haystack
  || match haystack with
     | EmptyString => false
     | String _ rest => str_contains rest needle
     end.

(** Truth value of an optional string argument: [None] and [""] are falsy. *)
Definition truthy (s : option string) : bool :=
  match s with
  | None => false
  | Some EmptyString => false
  | Some _ => true
  end.

End Py.
Import Py.

Declare Scope py_scope.
Delimit Scope py_scope with py.
Notation "x <- c ;; k" := (bind c (fun x => k))
  (at level 61, c at next level, right associativity) : py_scope.
Notation "c ;;; k" := (bind c (fun _ => k))
  (at level 61, right associativity) : py_scope.
Local Open Scope py_scope.

(* ================================================================== *)
(** ** Result Serializer: [ModelManager.serialize_results]             *)
(* ================================================================== *)

Module Serializer.

(** The [isinstance] chain applied to one value of a record.  The mapping
    case is the recursive call [serialize_results([value])[0]]: a fresh
    dictionary filled key by key in iteration order. *)
Fixpoint serialize_value (value : PyValue) : PyValue :=
  match value with
  | VNdarray a => tolist a
  | VNpFloat32 x | VNpFloat64 x => VFloat x
  | VNpInt32 n | VNpInt64 n => VInt n
  | VDict d =>
      VDict ((fix items (l : PyDict) (serialized_result : PyDict) : PyDict :=
                match l with
                | [] => serialized_result
                | (key, v) :: rest =>
                    items rest (dict_set serialized_result key (serialize_value v))
                end) d [])
  | _ => value
  end.

(** The body of the outer loop for one [result]. *)
Definition serialize_result (result : PyDict) : PyDict :=
  fold_left (fun serialized_result kv =>
               dict_set serialized_result (fst kv) (serialize_value (snd kv)))
            result [].

Definition serialize_results (results : list PyDict) : list PyDict :=
  map serialize_result results.

(** What a generic JSON encoder can write: null, booleans, plain numbers,
    strings, and lists and string-keyed mappings of such. *)
Fixpoint json_plain (v : PyValue) : bool :=
  match v with
  | VNone | VBool _ | VInt _ | VFloat _ | VStr _ => true
  | VList l => forallb json_plain l
  | VDict d => forallb (fun kv => json_plain (snd kv)) d
  | _ => false
  end.

(** The values the serializer rewrites, as opposed to those it passes on. *)
Definition converted (v : PyValue) : bool :=
  match v with
  | VNdarray _ | VNpFloat32 _ | VNpFloat64 _ | VNpInt32 _ | VNpInt64 _
  | VDict _ => true
  | _ => false
  end.

(** Normal forms of the serializer: nothing left to convert directly under
    a mapping key, at any depth of mappings. *)
#[local] Unset Elimination Schemes.
Inductive serialized : PyValue -> Prop :=
| serialized_other v : converted v = false -> serialized v
| serialized_dict d :
    NoDup (keys d) ->
    Forall (fun kv => serialized (snd kv)) d ->
    serialized (VDict d).
#[local] Set Elimination Schemes.

(** Every value the serializer would pass through untouched (at any depth
    of mapping nesting) is already plain JSON. *)
Fixpoint passthrough_plain (v : PyValue) : bool :=
  match v with
  | VNdarray _ | VNpFloat32 _ | VNpFloat64 _ | VNpInt32 _ | VNpInt64 _ => true
  | VDict d => forallb (fun kv => passthrough_plain (snd kv)) d
  | _ => json_plain v
  end.

(** A Python dictionary has pairwise distinct keys; so has every mapping
    nested inside it. *)
Fixpoint wf_value (v : PyValue) : Prop :=
  match v with
  | VDict d =>
      NoDup (keys d) /\
      (fix all (l : PyDict) : Prop :=
         match l with
         | [] => True
         | (_, x) :: rest => wf_value x /\ all rest
         end) d
  | _ => True
  end.

Definition wf_dict (d : PyDict) : Prop := wf_value (VDict d).

(** Lookup along a path of keys through nested mappings. *)
Fixpoint get_path (d : PyDict) (path : list string) : option PyValue :=
  match path with
  | [] => Some (VDict d)
  | k :: rest =>
      match dict_get d k with
      | None => None
      | Some v =>
          match rest, v with
          | [], _ => Some v
          | _ :: _, VDict d' => get_path d' rest
          | _ :: _, _ => None
          end
      end
  end.

End Serializer.

(* ================================================================== *)
(** ** Structures and the third-party collaborators                    *)
(* ================================================================== *)

Module Structures.

Definition Vec3 : Type := (pyfloat * pyfloat * pyfloat)%type.

(** [ase.Atoms] as far as the sources read it: [.cell],
    [.get_chemical_symbols()], [.get_positions()]. *)
Record Atoms : Type := mkAtoms {
  cell : list Vec3;
  symbols : list string;
  positions : list Vec3
}.

(** [pymatgen.core.Structure] built with [coords_are_cartesian=True]. *)
Record PmgStructure : Type := mkPmgStructure {
  lattice : list Vec3;
  species : list string;
  coords : list Vec3
}.

(** One key of a structure dictionary: absent, bound to [None], or bound to
    an object. *)
Inductive Slot (A : Type) : Type :=
| Missing
| IsNone
| Present (a : A).
Arguments Missing {A}.
Arguments IsNone {A}.
Arguments Present {A} a.

(** The dictionary the loaders produce for one structure (the keys the
    manager reads; ground-truth keys play no role in prediction). *)
Record StructureData : Type := mkStructureData {
  ase_atoms : Slot Atoms;
  pymatgen_structure : Slot PmgStructure
}.

(** What a Python variable named [structure] may be bound to. *)
Inductive PyStructure : Type :=
| SData (d : StructureData)
| SAtoms (a : Atoms)
| SPymatgen (s : PmgStructure).

(** The entry handed to the compatibility scheme. *)
Record ComputedStructureEntry : Type := mkEntry {
  entry_structure : PmgStructure;
  entry_energy : PyValue;
  is_hubbard : bool;
  run_type : string
}.

(** An ASE calculator handle, owned by one adapter.  Attaching it to an
    [Atoms] object ([structure.calc = self.calc]) and then calling
    [structure.get_total_energy()] / [structure.get_forces()] asks this
    calculator; it may raise. *)
Record AseCalculator : Type := mkCalc {
  get_total_energy : Atoms -> Result PyValue;
  get_forces : Atoms -> Result NdArray
}.

(** What [CHGNet.predict_structure] returns: the keys the adapter reads. *)
Record ChgnetPrediction : Type := mkPrediction {
  site_energies : NdArray;   (* prediction["site_energies"] *)
  chg_f : NdArray            (* prediction["f"] *)
}.

Record CHGNet : Type := mkCHGNet {
  predict_structure :
    PmgStructure -> forall (return_site_energies return_crystal_feas : bool),
    Result ChgnetPrediction
}.

(** Library functions the sources call, outside the repository. *)
Class ThirdParty : Type := {
  (** Argument validation of the [Structure(...)] constructor: [Some e]
      when it raises [e]. *)
  Structure_rejects : list Vec3 -> list string -> list Vec3 -> option PyExc;
  (** [Atoms.get_chemical_formula('reduce')] *)
  get_chemical_formula : Atoms -> string;
  (** [MaterialsProject2020Compatibility(check_potcar=False).process_entry]:
      raises, returns [None], or returns a processed entry, of which the
      caller reads [.energy]. *)
  process_entry : ComputedStructureEntry -> Result (option PyValue);
  (** The builtin [sum] over an array of site energies. *)
  py_sum : NdArray -> PyValue
}.

End Structures.
Import Structures.

Section Potentials.
Context {tp : ThirdParty}.

(* ================================================================== *)
(** ** Energy Correction: [apply_mp2020_correction]                    *)
(* ================================================================== *)

Definition apply_mp2020_correction (energy : PyValue) (structure : PmgStructure)
  : Result PyValue :=
  let entry := {| entry_structure := structure;
                  entry_energy := energy;
                  is_hubbard := false;
                  run_type := "GGA" |} in
  try_except
    (corrected_entry <- process_entry entry ;;
     match corrected_entry with
     | Some corrected_energy => ret corrected_energy
     | None => Raise (ValueError "Failed to apply energy correction.")
     end)
    (fun e => (* print(f"Error during energy correction: {e}") *)
              ret energy).

(* ================================================================== *)
(** ** Model adapters                                                  *)
(* ================================================================== *)

(** [not prediction_type or what in prediction_type] *)
Definition wants (what : string) (prediction_type : option string) : bool :=
  negb (truthy prediction_type)
  || match prediction_type with
     | Some s => str_contains s what
     | None => false
     end.

Definition no_attribute (type_name attr : string) : PyExc :=
  AttributeError ("'" ++ type_name ++ "' object has no attribute '" ++ attr ++ "'").

Definition type_name_of (structure : PyStructure) : string :=
  match structure with
  | SData _ => "dict"
  | SAtoms _ => "Atoms"
  | SPymatgen _ => "Structure"
  end.

(** [structure.calc = self.calc]: a dictionary has no settable attributes. *)
Definition set_calc (structure : PyStructure) : Result unit :=
  match structure with
  | SData _ => Raise (no_attribute "dict" "calc")
  | _ => Ok tt
  end.

(** [structure.get_total_energy()] with [calc] attached. *)
Definition structure_get_total_energy (calc : AseCalculator)
  (structure : PyStructure) : Result PyValue :=
  match structure with
  | SAtoms atoms => get_total_energy calc atoms
  | _ => Raise (no_attribute (type_name_of structure) "get_total_energy")
  end.

(** [structure.get_forces()] with [calc] attached. *)
Definition structure_get_forces (calc : AseCalculator)
  (structure : PyStructure) : Result NdArray :=
  match structure with
  | SAtoms atoms => get_forces calc atoms
  | _ => Raise (no_attribute (type_name_of structure) "get_forces")
  end.

(** [Structure(lattice=, species=, coords=, coords_are_cartesian=True)] *)
Definition Structure_new (lat : list Vec3) (sp : list string) (xyz : list Vec3)
  : Result PmgStructure :=
  match Structure_rejects lat sp xyz with
  | Some e => Raise e
  | None => Ok (mkPmgStructure lat sp xyz)
  end.

(** [Structure(lattice=structure.cell,
               species=structure.get_chemical_symbols(),
               coords=structure.get_positions(), ...)] *)
Definition lattice_view (structure : PyStructure) : Result PmgStructure :=
  match structure with
  | SAtoms atoms => Structure_new (cell atoms) (symbols atoms) (positions atoms)
  | _ => Raise (no_attribute (type_name_of structure) "cell")
  end.

(** The statements shared word for word by [MACEModel.predict],
    [EqV2Model.predict] and [MatterSimModel.predict]. *)
Definition ase_predict_body (calc : AseCalculator) (structure : PyStructure)
  (prediction_type : option string) : Result PyDict :=
  set_calc structure ;;;
  let result : PyDict := [] in
  result <- (if wants "energy" prediction_type then
               raw_energy <- structure_get_total_energy calc structure ;;
               pmg_structure <- lattice_view structure ;;
               corrected_energy <- apply_mp2020_correction raw_energy pmg_structure ;;
               ret (dict_set result "energy" corrected_energy)
             else ret result) ;;
  if wants "force" prediction_type then
    forces <- structure_get_forces calc structure ;;
    ret (dict_set result "forces" (tolist forces))
  else ret result.

Definition MACEModel_predict (calc : AseCalculator) (structure : PyStructure)
  (prediction_type : option string) : Result PyDict :=
  try_except (ase_predict_body calc structure prediction_type)
    (fun e => Raise (RuntimeError ("MACE prediction failed: " ++ str e))).

(** No [try] in this one. *)
Definition EqV2Model_predict (calc : AseCalculator) (structure : PyStructure)
  (prediction_type : option string) : Result PyDict :=
  ase_predict_body calc structure prediction_type.

Definition MatterSimModel_predict (calc : AseCalculator) (structure : PyStructure)
  (prediction_type : option string) : Result PyDict :=
  try_except (ase_predict_body calc structure prediction_type)
    (fun e => Raise (RuntimeError ("MatterSim prediction failed: " ++ str e))).

(** [self.model.predict_structure(structure, ...)]; CHGNet reads a pymatgen
    structure and fails on anything else. *)
Definition chgnet_predict_structure (model : CHGNet) (structure : PyStructure)
  (return_site_energies return_crystal_feas : bool) : Result ChgnetPrediction :=
  match structure with
  | SPymatgen s => predict_structure model s return_site_energies return_crystal_feas
  | _ => Raise (no_attribute (type_name_of structure) "lattice")
  end.

Definition CHGNETModel_predict (model : CHGNet) (structure : PyStructure)
  (prediction_type : option string)
  (return_site_energies return_crystal_feas : bool) : Result PyDict :=
  try_except
    (prediction <- chgnet_predict_structure model structure
                     return_site_energies return_crystal_feas ;;
     let result : PyDict := [] in
     let result :=
       if wants "energy" prediction_type
       then dict_set result "energy" (py_sum (site_energies prediction))
       else result in
     let result :=
       if wants "force" prediction_type
       then dict_set result "forces" (tolist (chg_f prediction))
       else result in
     ret result)
    (fun e => Raise (RuntimeError ("CHGNET prediction failed: " ++ str e))).

(** The adapters [ModelManager._initialize_models] can construct. *)
Inductive Model : Type :=
| EqV2Model (calc : AseCalculator)
| CHGNETModel (model : CHGNet)
| MACEModel (calc : AseCalculator)
| MatterSimModel (calc : AseCalculator).

Definition model_name (model : Model) : string :=
  match model with
  | EqV2Model _ => "EqV2"
  | CHGNETModel _ => "CHGNET"
  | MACEModel _ => "MACE"
  | MatterSimModel _ => "MatterSim"
  end.

Definition required_input_format (model : Model) : string :=
  match model with
  | CHGNETModel _ => "pymatgen"
  | EqV2Model _ | MACEModel _ | MatterSimModel _ => "ase"
  end.

(** [model.predict(structure, prediction_type)] by dynamic dispatch. *)
Definition model_predict (model : Model) (structure : PyStructure)
  (prediction_type : option string) : Result PyDict :=
  match model with
  | EqV2Model calc => EqV2Model_predict calc structure prediction_type
  | CHGNETModel m => CHGNETModel_predict m structure prediction_type true true
  | MACEModel calc => MACEModel_predict calc structure prediction_type
  | MatterSimModel calc => MatterSimModel_predict calc structure prediction_type
  end.

(* ================================================================== *)
(** ** Ensemble Manager: [ModelManager]                                *)
(* ================================================================== *)

(** [structure_data["ase_atoms"]] guarded by ["ase_atoms" in structure_data].
    On an [Atoms] or [Structure] object the membership test compares the
    key with the object's atoms (sites) and is false. *)
Definition lookup_ase_atoms (structure_data : PyStructure) : Slot Atoms :=
  match structure_data with
  | SData d => ase_atoms d
  | _ => Missing
  end.

Definition lookup_pymatgen_structure (structure_data : PyStructure)
  : Slot PmgStructure :=
  match structure_data with
  | SData d => pymatgen_structure d
  | _ => Missing
  end.

Definition _get_structure_for_model (structure_data : PyStructure)
  (model : Model) : Result PyStructure :=
  let required_format := required_input_format model in
  if String.eqb required_format "ase" then
    match lookup_ase_atoms structure_data with
    | Missing | IsNone =>
        Raise (ValueError ("ASE Atoms not available for model "
                           ++ model_name model ++ "."))
    | Present atoms => Ok (SAtoms atoms)
    end
  else if String.eqb required_format "pymatgen" then
    match lookup_pymatgen_structure structure_data with
    | Missing | IsNone =>
        Raise (ValueError ("Pymatgen Structure not available for model "
                           ++ model_name model ++ "."))
    | Present s => Ok (SPymatgen s)
    end
  else
    Raise (ValueError ("Unsupported input format for model "
                       ++ model_name model ++ ": " ++ required_format)).

(** [{"error": str(e)}] *)
Definition error_entry (e : PyExc) : PyValue := VDict [("error", VStr (str e))].

(** One iteration of the loop of [ModelManager.predict].  The assignment
    [structure = self._get_structure_for_model(structure, model)] rebinds
    the loop-carried variable [structure]; when the call raises, the
    variable keeps its value. *)
Definition predict_step (prediction_type : option string)
  (state : PyStructure * PyDict) (model : Model) : PyStructure * PyDict :=
  let '(structure, results) := state in
  match _get_structure_for_model structure model with
  | Raise e => (structure, dict_set results (model_name model) (error_entry e))
  | Ok structure' =>
      match model_predict model structure' prediction_type with
      | Ok r => (structure', dict_set results (model_name model) (VDict r))
      | Raise e => (structure', dict_set results (model_name model) (error_entry e))
      end
  end.

Definition predict (models : list Model) (structure : PyStructure)
  (prediction_type : option string) : PyDict :=
  snd (fold_left (predict_step prediction_type) models (structure, [])).

(** [structure["ase_atoms"].get_chemical_formula('reduce')] *)
Definition structure_label (structure : StructureData) : Result string :=
  match ase_atoms structure with
  | Missing => Raise (KeyError "ase_atoms")
  | IsNone => Raise (no_attribute "NoneType" "get_chemical_formula")
  | Present atoms => Ok (get_chemical_formula atoms)
  end.

(** The [try]/[except] inside the inner loop of [predict_batch]. *)
Definition batch_entry (prediction_type : option string)
  (structure : StructureData) (model : Model) : PyValue :=
  match
    (sub_structure <- _get_structure_for_model (SData structure) model ;;
     r <- model_predict model sub_structure prediction_type ;;
     ret (VDict r))
  with
  | Ok v => v
  | Raise e => error_entry e
  end.

(** The body of the outer loop of [predict_batch] for one structure. *)
Definition batch_record (models : list Model) (prediction_type : option string)
  (idx : Z) (structure : StructureData) : Result PyDict :=
  formula <- structure_label structure ;;
  let result : PyDict := [("index", VInt idx); ("structure", VStr formula)] in
  ret (fold_left
         (fun result model =>
            dict_set result (model_name model)
                     (batch_entry prediction_type structure model))
         models result).

(** [for idx, structure in enumerate(structures)], counting from [idx]. *)
Fixpoint predict_batch_from (idx : Z) (models : list Model)
  (structures : list StructureData) (prediction_type : option string)
  : Result (list PyDict) :=
  match structures with
  | [] => Ok []
  | structure :: rest =>
      result <- batch_record models prediction_type idx structure ;;
      unified_results <- predict_batch_from (idx + 1) models rest prediction_type ;;
      ret (result :: unified_results)
  end.

Definition predict_batch (models : list Model)
  (structures : list StructureData) (prediction_type : option string)
  : Result (list PyDict) :=
  predict_batch_from 0 models structures prediction_type.

End Potentials.

(* ================================================================== *)
(** ** Vocabulary for statements about results                         *)
(* ================================================================== *)

Module Entries.

(** [{"error": message}] *)
Definition is_error_entry (v : PyValue) : Prop :=
  exists message, v = VDict [("error", VStr message)].

(** A mapping returned by an adapter's [predict]: it has no ["error"] key. *)
Definition is_success_entry (v : PyValue) : Prop :=
  exists r, v = VDict r /\ dict_get r "error" = None.

Definition is_model_entry (v : PyValue) : Prop :=
  is_error_entry v \/ is_success_entry v.

(** [name] is a key of [result], bound to a model entry. *)
Definition bound_to_entry (result : PyDict) (name : string) : Prop :=
  exists v, dict_get result name = Some v /\ is_model_entry v.

(** The calculator handle of the adapters built on ASE. *)
Definition model_calc (model : Model) : option AseCalculator :=
  match model with
  | EqV2Model calc | MACEModel calc | MatterSimModel calc => Some calc
  | CHGNETModel _ => None
  end.

(** Everything an adapter's [predict] executes before it looks at
    [prediction_type] succeeds: attaching the calculator for the ASE
    adapters, the forward pass of the network for CHGNet. *)
Definition adapter_ready (model : Model) (structure : PyStructure) : Prop :=
  match model with
  | CHGNETModel m =>
      exists prediction,
        chgnet_predict_structure m structure true true = Ok prediction
  | EqV2Model _ | MACEModel _ | MatterSimModel _ =>
      set_calc structure = Ok tt
  end.

(** The structure dictionary carries an [Atoms] object. *)
Definition has_atoms (structure : StructureData) : Prop :=
  exists atoms, ase_atoms structure = Present atoms.

End Entries.
Import Entries.

(* ================================================================== *)
(** ** Concrete collaborators used in the examples                     *)
(* ================================================================== *)

Module Demo.

Definition one : pyfloat := S754_finite false 1 0.
Definition two : pyfloat := S754_finite false 1 1.
Definition three : pyfloat := S754_finite false 3 0.
Definition zero : pyfloat := S754_zero false.

Definition origin : Vec3 := (zero, zero, zero).
Definition cubic : list Vec3 :=
  [(three, zero, zero); (zero, three, zero); (zero, zero, three)].

(** A one-atom silicon cell, in both representations. *)
Definition si_atoms : Atoms := mkAtoms cubic ["Si"] [origin].
Definition si_structure : PmgStructure := mkPmgStructure cubic ["Si"] [origin].

Definition xx_structure : PmgStructure := mkPmgStructure cubic ["Xx"] [origin].

Definition both_forms : StructureData :=
  mkStructureData (Present si_atoms) (Present si_structure).
Definition lattice_only : StructureData :=
  mkStructureData Missing (Present si_structure).
Definition atoms_none : StructureData :=
  mkStructureData IsNone (Present si_structure).

(** Third-party behaviour for the examples: [Structure(...)] accepts its
    arguments when there is one species per coordinate, the formula is the
    concatenation of the symbols, the compatibility scheme returns an entry
    of energy 2.0 for silicon, raises on the unknown element [Xx] and
    returns [None] otherwise, and the sum of an array of site energies is
    its first entry. *)
Definition demo_sum (a : NdArray) : PyValue :=
  match a with
  | NdAxis (NdFloat x :: _) => VNpFloat32 x
  | _ => VInt 0
  end.

#[export] Instance demo_tp : ThirdParty := {|
  Structure_rejects := fun _ sp xyz =>
    if Nat.eqb (List.length sp) (List.length xyz) then None
    else Some (mkExc "StructureError" "species and coords differ in length");
  get_chemical_formula := fun a => String.concat "" (symbols a);
  process_entry := fun entry =>
    match species (entry_structure entry) with
    | ["Si"] => Ok (Some (VFloat two))
    | ["Xx"] => Raise (mkExc "CompatibilityError" "no reference data for Xx")
    | _ => Ok None
    end;
  py_sum := demo_sum
|}.

(** A calculator that answers 1.0 eV and a single zero force. *)
Definition good_calc : AseCalculator :=
  mkCalc (fun _ => Ok (VFloat one))
         (fun _ => Ok (NdAxis [NdAxis [NdFloat zero; NdFloat zero; NdFloat zero]])).

(** A calculator whose energy evaluation fails. *)
Definition failing_calc : AseCalculator :=
  mkCalc (fun _ => Raise (ValueError "element not supported"))
         (fun _ => Raise (ValueError "element not supported")).

Definition good_chgnet : CHGNet :=
  mkCHGNet (fun _ _ _ =>
    Ok (mkPrediction (NdAxis [NdFloat one])
                     (NdAxis [NdAxis [NdFloat zero; NdFloat zero; NdFloat zero]]))).

Definition failing_chgnet : CHGNet :=
  mkCHGNet (fun _ _ _ => Raise (ValueError "graph construction failed")).

(** Two ensembles: one whose models answer, one whose models all fail. *)
Definition demo_models : list Model :=
  [MACEModel good_calc; CHGNETModel good_chgnet].

Definition failing_models : list Model :=
  [MACEModel failing_calc; CHGNETModel failing_chgnet].

(** A record whose ["forces"] value is a Python list holding an array. *)
Definition array_in_list : PyDict :=
  [("forces", VList [VNdarray (NdAxis [NdFloat one; NdFloat two])])].

(** A record as [predict_batch] produces it, before serialization. *)
Definition raw_record : PyDict :=
  [("index", VInt 0); ("structure", VStr "Si");
   ("CHGNET", VDict [("energy", VNpFloat32 one);
                     ("forces", VNdarray (NdAxis [NdAxis [NdFloat zero]]))])].

End Demo.

(* ================================================================== *)
(** ** More vocabulary                                                 *)
(* ================================================================== *)

Module Messages.

(** The text of the [ValueError] that [_get_structure_for_model] raises for
    a model whose representation is missing. *)
Definition not_available_message (model : Model) : string :=
  (if String.eqb (required_input_format model) "ase"
   then "ASE Atoms" else "Pymatgen Structure")
  ++ " not available for model " ++ model_name model ++ ".".

(** Python and numpy numbers: what the serializer turns into, or leaves
    as, a plain number. *)
Definition is_number (v : PyValue) : bool :=
  match v with
  | VInt _ | VFloat _ | VNpFloat32 _ | VNpFloat64 _ | VNpInt32 _ | VNpInt64 _
      => true
  | _ => false
  end.

Section Numeric.
Context {tp : ThirdParty}.

(** The compatibility scheme returns entries whose energy is a number. *)
Definition numeric_scheme : Prop :=
  forall entry e, process_entry entry = Ok (Some e) -> is_number e = true.

(** What stands behind a model returns a number where an energy is
    expected: the calculator's total energy, or the sum of CHGNet's site
    energies. *)
Definition numeric_calculator (model : Model) : Prop :=
  match model with
  | CHGNETModel _ => forall a, is_number (py_sum a) = true
  | EqV2Model calc | MACEModel calc | MatterSimModel calc =>
      forall atoms v, get_total_energy calc atoms = Ok v -> is_number v = true
  end.

End Numeric.

End Messages.
Import Messages.

(* ================================================================== *)
(** ** Batch methods of the adapters: [predict_batch]                  *)
(* ================================================================== *)

Module AdapterBatch.

Definition NameError (name : string) : PyExc :=
  mkExc "NameError" ("name '" ++ name ++ "' is not defined").

(** Reading a name that no scope defines. *)
Definition undefined_name {A : Type} (name : string) : Result A :=
  Raise (NameError name).

(** [d[k]] *)
Definition dict_item (d : PyDict) (k : string) : Result PyValue :=
  match dict_get d k with
  | Some v => Ok v
  | None => Raise (KeyError k)
  end.

(** [{"index": idx, **result}] *)
Definition with_index (idx : Z) (result : PyDict) : PyDict :=
  fold_left (fun d kv => dict_set d (fst kv) (snd kv)) result
            [("index", VInt idx)].

(** [{"index": idx, "error": str(e)}] *)
Definition index_error (idx : Z) (e : PyExc) : PyDict :=
  [("index", VInt idx); ("error", VStr (str e))].

(** An item that is the index followed by the outcome of a prediction:
    its keys, or the text of the exception. *)
Definition indexed (i : nat) (outcome : Result PyDict) : PyDict :=
  match outcome with
  | Ok result => ("index", VInt (Z.of_nat i)) :: result
  | Raise e => index_error (Z.of_nat i) e
  end.

(** [results = []; for idx, structure in enumerate(structures):
     try: results.append(...) except Exception as e: results.append(...)],
    counting from [idx]. *)
Fixpoint enumerate_append {A : Type} (body : Z -> A -> Result PyDict)
  (idx : Z) (structures : list A) : list PyDict :=
  match structures with
  | [] => []
  | structure :: rest =>
      (match body idx structure with
       | Ok entry => entry
       | Raise e => index_error idx e
       end) :: enumerate_append body (idx + 1) rest
  end.

Section AdapterBatch.
Context {tp : ThirdParty}.

Definition MACEModel_predict_batch (calc : AseCalculator)
  (structures : list PyStructure) : list PyDict :=
  enumerate_append
    (fun idx structure =>
       result <- MACEModel_predict calc structure None ;;
       ret (with_index idx result))
    0 structures.

Definition MatterSimModel_predict_batch (calc : AseCalculator)
  (structures : list PyStructure) : list PyDict :=
  enumerate_append
    (fun idx structure =>
       result <- MatterSimModel_predict calc structure None ;;
       ret (with_index idx result))
    0 structures.

Definition EqV2Model_predict_batch (calc : AseCalculator)
  (structures : list PyStructure) : list PyDict :=
  enumerate_append
    (fun idx structure =>
       result <- EqV2Model_predict calc structure None ;;
       energy <- dict_item result "energy" ;;
       forces <- dict_item result "forces" ;;
       ret [("index", VInt idx); ("energy", energy); ("forces", forces)])
    0 structures.

(** The definition of [CHGNETModel.predict_batch] in force, the second of
    the two in the class body.  Its [try] block reads
    [return_site_energies], [return_crystal_feas] and [result], which are
    neither parameters nor globals. *)
Definition CHGNETModel_predict_batch (model : CHGNet)
  (structures : list PyStructure) : list PyDict :=
  enumerate_append
    (fun idx structure =>
       return_site_energies <- undefined_name "return_site_energies" ;;
       return_crystal_feas <- undefined_name "return_crystal_feas" ;;
       prediction <- chgnet_predict_structure model structure
                       return_site_energies return_crystal_feas ;;
       result <- undefined_name "result" ;;
       ret (with_index idx result))
    0 structures.

End AdapterBatch.
End AdapterBatch.
Import AdapterBatch.

(* ================================================================== *)
(** ** Building the ensemble: constructors and [_initialize_models]    *)
(* ================================================================== *)

Module Construction.

Definition TypeError (msg : string) : PyExc := mkExc "TypeError" msg.

(** The two process-wide output streams, by the name of what they write
    to. *)
Definition Stream : Type := string.

Record Streams : Type := mkStreams {
  sys_stdout : Stream;
  sys_stderr : Stream
}.

(** Code that may raise and may rebind the output streams. *)
Definition IO (A : Type) : Type := Streams -> Result A * Streams.

Definition io_ret {A} (a : A) : IO A := fun io => (Ok a, io).

Definition io_raise {A} (e : PyExc) : IO A := fun io => (Raise e, io).

Definition io_bind {A B} (c : IO A) (k : A -> IO B) : IO B :=
  fun io =>
    match c io with
    | (Ok a, io') => k a io'
    | (Raise e, io') => (Raise e, io')
    end.

(** The third-party loaders behind the four constructors. *)
Class Loaders : Type := {
  (** [open(os.devnull, 'w')] *)
  open_devnull : Result Stream;
  (** [mace_mp(model=, dispersion=, default_dtype=, device=)] *)
  mace_mp : PyValue -> PyValue -> PyValue -> PyValue -> IO AseCalculator;
  (** [OCPCalculator(checkpoint_path=, cpu=, seed=)] *)
  OCPCalculator : string -> bool -> Z -> IO AseCalculator;
  (** [CHGNet.load()] *)
  CHGNet_load : IO CHGNet;
  (** [MatterSimCalculator(load_path=, device=)] *)
  MatterSimCalculator : PyValue -> PyValue -> IO AseCalculator;
  (** [torch.cuda.is_available()] *)
  cuda_is_available : bool
}.

(** One entry of [model_configs]: [config.get("name")] and
    [config.get("params")], [None] standing for an absent key. *)
Record Config : Type := mkConfig {
  config_name : option string;
  config_params : option PyDict
}.

(** Binding [**params] to a signature with the given required and
    defaulted parameter names. *)
Definition bind_kwargs (cls : string) (required defaulted : list string)
  (params : PyDict) : Result unit :=
  match find (fun k => negb (existsb (String.eqb k) (required ++ defaulted)%list))
             (keys params) with
  | Some k =>
      Raise (TypeError (cls ++ ".__init__() got an unexpected keyword argument '"
                        ++ k ++ "'"))
  | None =>
      match find (fun k => negb (existsb (String.eqb k) (keys params)))
                 required with
      | Some k =>
          Raise (TypeError (cls ++ ".__init__() missing 1 required positional argument: '"
                            ++ k ++ "'"))
      | None => Ok tt
      end
  end.

(** The value of a parameter, or its default. *)
Definition kwarg (params : PyDict) (k : string) (default : PyValue) : PyValue :=
  match dict_get params k with
  | Some v => v
  | None => default
  end.

Section Construction.
Context {ld : Loaders}.

(** [with self._suppress_output(): body]: both streams point at the null
    device while [body] runs; the [finally] clause puts the saved streams
    back however [body] ends. *)
Definition _suppress_output {A} (body : IO A) : IO A :=
  fun io =>
    match open_devnull with
    | Raise e => (Raise e, io)
    | Ok devnull =>
        let old_stdout := sys_stdout io in
        let old_stderr := sys_stderr io in
        let '(outcome, _) := body (mkStreams devnull devnull) in
        (outcome, mkStreams old_stdout old_stderr)
    end.

Definition MACEModel_init (params : PyDict) : IO Model :=
  fun io =>
    match bind_kwargs "MACEModel" []
            ["model"; "dispersion"; "default_dtype"; "device"] params with
    | Raise e => (Raise e, io)
    | Ok _ =>
        io_bind
          (_suppress_output
             (mace_mp (kwarg params "model" (VStr "small"))
                      (kwarg params "dispersion" (VBool false))
                      (kwarg params "default_dtype" (VStr "float32"))
                      (kwarg params "device" (VStr "cuda"))))
          (fun calc => io_ret (MACEModel calc)) io
    end.

(** Every argument is accepted and none is used: the checkpoint, the
    device flag and the seed are written in the source. *)
Definition EqV2Model_init (params : PyDict) : IO Model :=
  fun io =>
    match bind_kwargs "EqV2Model" ["pretrained_path"]
            ["model_version"; "use_cpu"; "seed"] params with
    | Raise e => (Raise e, io)
    | Ok _ =>
        io_bind
          (_suppress_output
             (OCPCalculator
                "/home/lee/mlps/pretrained_models/eqV2_153M_omat_mp_salex.pt"
                false 42))
          (fun calc => io_ret (EqV2Model calc)) io
    end.

Definition CHGNETModel_init (params : PyDict) : IO Model :=
  fun io =>
    match bind_kwargs "CHGNETModel" [] [] params with
    | Raise e => (Raise e, io)
    | Ok _ =>
        io_bind (_suppress_output CHGNet_load)
                (fun model => io_ret (CHGNETModel model)) io
    end.

(** This constructor does not silence the loader. *)
Definition MatterSimModel_init (params : PyDict) : IO Model :=
  fun io =>
    match bind_kwargs "MatterSimModel" [] ["load_path"; "device"] params with
    | Raise e => (Raise e, io)
    | Ok _ =>
        let load_path := kwarg params "load_path" (VStr "MatterSim-v1.0.0-5M.pth") in
        let device := kwarg params "device" (VStr "cuda") in
        let device :=
          match device with
          | VNone => if cuda_is_available then VStr "cuda" else VStr "cpu"
          | _ => device
          end in
        io_bind (MatterSimCalculator load_path device)
                (fun calc => io_ret (MatterSimModel calc)) io
    end.

(** [config.get("params", {})] *)
Definition params_of (config : Config) : PyDict :=
  match config_params config with
  | Some params => params
  | None => []
  end.

(** [model_name == literal], and [model_name] as an f-string prints it. *)
Definition name_is (model_name : option string) (literal : string) : bool :=
  match model_name with
  | Some s => String.eqb s literal
  | None => false
  end.

Definition show_name (model_name : option string) : string :=
  match model_name with
  | Some s => s
  | None => "None"
  end.

(** The [if]/[elif] chain on [config.get("name")]. *)
Definition construct (config : Config) : IO Model :=
  let model_name := config_name config in
  if name_is model_name "EqV2" then EqV2Model_init (params_of config)
  else if name_is model_name "CHGNET" then CHGNETModel_init (params_of config)
  else if name_is model_name "MACE" then MACEModel_init (params_of config)
  else if name_is model_name "MatterSim"
       then MatterSimModel_init (params_of config)
  else io_raise (ValueError ("Unsupported model name: " ++ show_name model_name)).

(** The parameter names of the constructor behind a model name. *)
Definition signature_of (model_name : string) : list string :=
  if String.eqb model_name "EqV2"
  then ["pretrained_path"; "model_version"; "use_cpu"; "seed"]
  else if String.eqb model_name "CHGNET" then []
  else if String.eqb model_name "MACE"
       then ["model"; "dispersion"; "default_dtype"; "device"]
  else if String.eqb model_name "MatterSim" then ["load_path"; "device"]
  else [].

Definition supported_names : list string :=
  ["EqV2"; "CHGNET"; "MACE"; "MatterSim"].

(** [models = []; for config in model_configs: models.append(...)] *)
Fixpoint _initialize_models (model_configs : list Config) : IO (list Model) :=
  match model_configs with
  | [] => io_ret []
  | config :: rest =>
      io_bind (construct config)
              (fun model =>
                 io_bind (_initialize_models rest)
                         (fun models => io_ret (model :: models)))
  end.

End Construction.
End Construction.
Import Construction.

(* ================================================================== *)
(** ** Dataset entries                                                 *)
(* ================================================================== *)

Module Datasets.

(** What a dataset dictionary can hold under a key: an [Atoms] object, a
    pymatgen structure, or a plain value (a number, an array, [None], a
    path). *)
Inductive DataValue : Type :=
| DAtoms (a : Atoms)
| DStructure (s : PmgStructure)
| DValue (v : PyValue).

Definition DataEntry : Type := list (string * DataValue).

(** [entry[key]] *)
Definition entry_item (entry : DataEntry) (key : string) : Result DataValue :=
  match dict_get entry key with
  | Some v => Ok v
  | None => Raise (KeyError key)
  end.

(** The two keys the Ensemble Manager reads, as slots; undefined when a
    key is bound to an object of another kind. *)
Definition atoms_slot (entry : DataEntry) : option (Slot Atoms) :=
  match dict_get entry "ase_atoms" with
  | None => Some Missing
  | Some (DValue VNone) => Some IsNone
  | Some (DAtoms a) => Some (Present a)
  | Some _ => None
  end.

Definition structure_slot (entry : DataEntry) : option (Slot PmgStructure) :=
  match dict_get entry "pymatgen_structure" with
  | None => Some Missing
  | Some (DValue VNone) => Some IsNone
  | Some (DStructure s) => Some (Present s)
  | Some _ => None
  end.

Definition structure_data_of (entry : DataEntry) : option StructureData :=
  match atoms_slot entry, structure_slot entry with
  | Some a, Some s => Some (mkStructureData a s)
  | _, _ => None
  end.

(** The manager's view of a list of entries, when each has one. *)
Fixpoint structure_data_list (entries : list DataEntry)
  : option (list StructureData) :=
  match entries with
  | [] => Some []
  | entry :: rest =>
      match structure_data_of entry, structure_data_list rest with
      | Some d, Some ds => Some (d :: ds)
      | _, _ => None
      end
  end.

(** [type(v).__name__] as it appears in error messages. *)
Definition type_name_of_value (v : PyValue) : string :=
  match v with
  | VNone => "NoneType"
  | VBool _ => "bool"
  | VInt _ => "int"
  | VFloat _ => "float"
  | VStr _ => "str"
  | VList _ => "list"
  | VDict _ => "dict"
  | VNdarray _ => "numpy.ndarray"
  | VNpFloat32 _ => "numpy.float32"
  | VNpFloat64 _ => "numpy.float64"
  | VNpInt32 _ => "numpy.int32"
  | VNpInt64 _ => "numpy.int64"
  | VObject t => t
  end.

End Datasets.
Import Datasets.

(* ================================================================== *)
(** ** [utils/conversion.py] and the formation energies of
       [utils/energy_correction.py]                                    *)
(* ================================================================== *)

Module Conversion.
Section Conversion.
Context {tp : ThirdParty}.

(** [symbols = [atom.symbol for atom in ase_atoms]], then the pymatgen
    constructor; any failure is re-raised as a [ValueError]. *)
Definition ase_to_pymatgen (ase_atoms : Atoms) : Result PmgStructure :=
  try_except
    (let symbols_ := symbols ase_atoms in
     let positions_ := positions ase_atoms in
     let cell_ := cell ase_atoms in
     Structure_new cell_ symbols_ positions_)
    (fun e => Raise (ValueError
                       ("Failed to convert ASE Atoms to pymatgen Structure: "
                        ++ str e))).

End Conversion.
End Conversion.
Import Conversion.

Module FormationEnergy.

(** Python arithmetic, which raises on operands it does not support, and
    the order in which a [set] of strings is iterated. *)
Class Builtins : Type := {
  py_add : PyValue -> PyValue -> Result PyValue;
  py_mul : PyValue -> PyValue -> Result PyValue;
  py_sub : PyValue -> PyValue -> Result PyValue;
  set_iteration : list string -> list string
}.

Section FormationEnergy.
Context {bi : Builtins}.

(** [sum(chemical_composition[element] * chemical_potentials[element]
         for element in chemical_composition)], with the running total
    [acc]: the generator is consumed one element at a time. *)
Fixpoint sum_chemical_terms (acc : PyValue) (elements : list string)
  (chemical_composition chemical_potentials : PyDict) : Result PyValue :=
  match elements with
  | [] => Ok acc
  | element :: rest =>
      count <- dict_item chemical_composition element ;;
      potential <- dict_item chemical_potentials element ;;
      term <- py_mul count potential ;;
      acc' <- py_add acc term ;;
      sum_chemical_terms acc' rest chemical_composition chemical_potentials
  end.

Definition calculate_formation_energy (total_energy : PyValue)
  (chemical_composition chemical_potentials : PyDict) : Result PyValue :=
  chemical_energy <- sum_chemical_terms (VInt 0) (keys chemical_composition)
                       chemical_composition chemical_potentials ;;
  formation_energy <- py_sub total_energy chemical_energy ;;
  ret formation_energy.

(** [atoms.get_chemical_symbols()] on whatever the entry holds. *)
Definition entry_chemical_symbols (v : DataValue) : Result (list string) :=
  match v with
  | DAtoms atoms => Ok (symbols atoms)
  | DStructure _ => Raise (no_attribute "Structure" "get_chemical_symbols")
  | DValue x => Raise (no_attribute (type_name_of_value x) "get_chemical_symbols")
  end.

(** [chemical_composition.count(element)] *)
Definition count_symbol (element : string) (chemical_composition : list string)
  : Z :=
  Z.of_nat (List.length (filter (String.eqb element) chemical_composition)).

(** [{element: chemical_composition.count(element)
      for element in set(chemical_composition)}] *)
Definition composition_dict (chemical_composition : list string) : PyDict :=
  fold_left (fun d element =>
               dict_set d element
                        (VInt (count_symbol element chemical_composition)))
            (set_iteration chemical_composition) [].

(** An entry's value as an operand of arithmetic: objects that are not
    plain values are opaque to it. *)
Definition as_operand (v : DataValue) : PyValue :=
  match v with
  | DValue x => x
  | DAtoms _ => VObject "Atoms"
  | DStructure _ => VObject "Structure"
  end.

(** The body of the loop of [correct_dataset_to_formation_energy];
    [entry.copy()] is the entry itself, values being immutable here. *)
Definition correct_entry (chemical_potentials : PyDict) (entry : DataEntry)
  : Result DataEntry :=
  atoms <- entry_item entry "ase_atoms" ;;
  total_energy <- entry_item entry "true_energy" ;;
  chemical_composition <- entry_chemical_symbols atoms ;;
  let composition := composition_dict chemical_composition in
  formation_energy <- calculate_formation_energy (as_operand total_energy)
                        composition chemical_potentials ;;
  let corrected_entry := entry in
  ret (dict_set corrected_entry "formation_energy" (DValue formation_energy)).

Fixpoint correct_dataset_to_formation_energy (dataset : list DataEntry)
  (chemical_potentials : PyDict) : Result (list DataEntry) :=
  match dataset with
  | [] => Ok []
  | entry :: rest =>
      corrected_entry <- correct_entry chemical_potentials entry ;;
      corrected_data <-
        correct_dataset_to_formation_energy rest chemical_potentials ;;
      ret (corrected_entry :: corrected_data)
  end.

End FormationEnergy.
End FormationEnergy.
Import FormationEnergy.

(* ================================================================== *)
(** ** [utils/input_parser.py]                                         *)
(* ================================================================== *)

Module Parser.

(** [s.split(sep)] for a one-character separator. *)
Fixpoint split_on (sep : ascii) (s : string) : list string :=
  match s with
  | EmptyString => [EmptyString]
  | String c rest =>
      if Ascii.eqb c sep then EmptyString :: split_on sep rest
      else match split_on sep rest with
           | part :: parts => String c part :: parts
           | [] => [String c EmptyString]
           end
  end.

(** [s.lower()] on the ASCII letters; other bytes stay. *)
Definition lower_ascii (c : ascii) : ascii :=
  let n := nat_of_ascii c in
  if (Nat.leb 65 n && Nat.leb n 90)%bool then ascii_of_nat (n + 32) else c.

Fixpoint lower (s : string) : string :=
  match s with
  | EmptyString => EmptyString
  | String c rest => String (lower_ascii c) (lower rest)
  end.

(** [path.split('.')[-1].lower()] *)
Definition file_extension_of (path : string) : string :=
  lower (last (split_on "."%char path) EmptyString).


(** [self.supported_formats] *)
Definition supported_formats : list string := ["cif"; "xyz"; "poscar"; "vasp"].

(** [x in l] for strings. *)
Definition str_in (x : string) (l : list string) : bool :=
  existsb (String.eqb x) l.

Definition FileNotFoundError (msg : string) : PyExc :=
  mkExc "FileNotFoundError" msg.

(** One image of a trajectory: the [Atoms] object and what its stored
    calculator answers. *)
Record Frame : Type := mkFrame {
  frame_atoms : Atoms;
  get_potential_energy : Result PyValue;
  frame_get_forces : Result NdArray;
  get_stress : Result NdArray
}.

(** The file system and the libraries that read from it. *)
Class FileSystem : Type := {
  (** [os.path.exists] *)
  path_exists : string -> bool;
  (** [os.walk]: the [(root, files)] of each directory visited *)
  os_walk : string -> list (string * list string);
  (** [os.path.join] *)
  path_join : string -> string -> string;
  (** [os.makedirs] *)
  makedirs : string -> Result unit;
  (** [ase.io.read] *)
  ase_read : string -> Result Atoms;
  (** [AseAtomsAdaptor.get_structure] and [AseAtomsAdaptor.get_atoms] *)
  get_structure : Atoms -> Result PmgStructure;
  get_atoms : PmgStructure -> Result Atoms;
  (** [Xdatcar(path).structures] *)
  Xdatcar_structures : string -> Result (list PmgStructure);
  (** [Trajectory(path)]: opening may fail, and so may reading an image *)
  Trajectory : string -> Result (list (Result Frame));
  (** [sklearn.model_selection.train_test_split] *)
  train_test_split :
    forall A : Type, list A -> PyValue -> PyValue -> Result (list A * list A)
}.

(** What [parse_input] may be given. *)
Inductive ParserInput : Type :=
| InPath (file_path : string)
| InAtoms (a : Atoms)
| InStructure (s : PmgStructure)
| InOther.

(** [range(0, stop, step)] as the loop it unfolds to, for a positive step;
    [fuel] bounds the number of values. *)
Fixpoint range_loop (fuel : nat) (i stop step : Z) : list Z :=
  match fuel with
  | O => []
  | S fuel' =>
      if (i <? stop)%Z then i :: range_loop fuel' (i + step)%Z stop step
      else []
  end.

Definition py_range (stop step : Z) : Result (list Z) :=
  if (step =? 0)%Z then Raise (ValueError "range() arg 3 must not be zero")
  else if (step <? 0)%Z then Ok []
  else Ok (range_loop (Z.to_nat stop) 0 stop step).

(** [l[i]] for a non-negative index. *)
Definition list_item {A : Type} (l : list A) (i : Z) : Result A :=
  match nth_error l (Z.to_nat i) with
  | Some x => Ok x
  | None => Raise (mkExc "IndexError" "list index out of range")
  end.

(** [[f(x) for x in l]], stopping at the first failure. *)
Fixpoint map_result {A B : Type} (f : A -> Result B) (l : list A)
  : Result (list B) :=
  match l with
  | [] => Ok []
  | x :: rest =>
      y <- f x ;;
      ys <- map_result f rest ;;
      ret (y :: ys)
  end.

(** One element of the list [parse_xdatcar] returns. *)
Record XdatcarSample : Type := mkSample {
  sample_file : string;
  sampled_structures : list PmgStructure;
  sampled_atoms : list Atoms
}.

(** What [load_and_split_traj] returns. *)
Record SplitDataset : Type := mkSplit {
  split_train : list DataEntry;
  split_test : list DataEntry
}.

Section Parser.
Context {tp : ThirdParty} {fs : FileSystem}.

Definition _parse_file (file_path : string) : Result (PmgStructure * Atoms) :=
  if negb (path_exists file_path) then
    Raise (FileNotFoundError ("File " ++ file_path ++ " does not exist."))
  else
    let file_extension := file_extension_of file_path in
    if negb (str_in file_extension supported_formats) then
      Raise (ValueError ("Unsupported file format: " ++ file_extension))
    else
      ase_atoms <- ase_read file_path ;;
      pymatgen_structure <- get_structure ase_atoms ;;
      ret (pymatgen_structure, ase_atoms).

Definition parse_input (input_data : ParserInput)
  : Result (PmgStructure * Atoms) :=
  match input_data with
  | InPath file_path => _parse_file file_path
  | InAtoms a =>
      pymatgen_structure <- get_structure a ;;
      ret (pymatgen_structure, a)
  | InStructure s =>
      ase_atoms <- get_atoms s ;;
      ret (s, ase_atoms)
  | InOther =>
      Raise (mkExc "TypeError"
               "Input must be a file path, ASE Atoms, or pymatgen Structure.")
  end.

Definition get_model_input (pymatgen_structure : PmgStructure)
  (ase_atoms : Atoms) (model_name : string) : Result PyStructure :=
  let model_input_map :=
    [("m3gnet", SPymatgen pymatgen_structure);
     ("mattersim", SAtoms ase_atoms);
     ("eqv2", SAtoms ase_atoms);
     ("mace", SAtoms ase_atoms)] in
  match dict_get model_input_map model_name with
  | None => Raise (ValueError ("Unsupported model: " ++ model_name))
  | Some model_input => Ok model_input
  end.

(** The files collected by the walk of [batch_parse]. *)
Definition matching_files (directory_path : string)
  (file_extensions : list string) : list string :=
  flat_map
    (fun root_files =>
       map (path_join (fst root_files))
           (filter (fun file_name =>
                      str_in (file_extension_of file_name) file_extensions)
                   (snd root_files)))
    (os_walk directory_path).

(** The dictionary appended for a file that parses. *)
Definition parsed_entry (file_path : string) (pymatgen_structure : PmgStructure)
  (ase_atoms : Atoms) : DataEntry :=
  [("file", DValue (VStr file_path));
   ("pymatgen_structure", DStructure pymatgen_structure);
   ("ase_atoms", DAtoms ase_atoms)].

(** An entry that stands for a file of [all_files] which exists, has a
    supported extension and was read and converted. *)
Definition well_parsed (all_files : list string) (entry : DataEntry) : Prop :=
  exists file_path s a,
    entry = parsed_entry file_path s a /\
    In file_path all_files /\
    path_exists file_path = true /\
    str_in (file_extension_of file_path) supported_formats = true /\
    ase_read file_path = Ok a /\
    get_structure a = Ok s.

(** The second loop of [batch_parse]: a file that fails to parse is
    reported and left out. *)
Fixpoint parse_files (all_files : list string) : list DataEntry :=
  match all_files with
  | [] => []
  | file_path :: rest =>
      match parse_input (InPath file_path) with
      | Ok (pymatgen_structure, ase_atoms) =>
          parsed_entry file_path pymatgen_structure ase_atoms
          :: parse_files rest
      | Raise _ => parse_files rest
      end
  end.

Definition batch_parse (directory_path : string)
  (file_extensions : option (list string)) : Result (list DataEntry) :=
  if negb (path_exists directory_path) then
    Raise (FileNotFoundError
             ("Directory " ++ directory_path ++ " does not exist."))
  else
    let file_extensions :=
      match file_extensions with
      | None => supported_formats
      | Some l => l
      end in
    Ok (parse_files (matching_files directory_path file_extensions)).

(** The [XDATCAR] files found by the walk of [parse_xdatcar]. *)
Definition xdatcar_files (directory_path : string) : list string :=
  flat_map
    (fun root_files =>
       map (path_join (fst root_files))
           (filter (String.eqb "XDATCAR") (snd root_files)))
    (os_walk directory_path).

(** The [try] block of [parse_xdatcar] for one file. *)
Definition sample_xdatcar (file_path : string) (step_interval : Z)
  : Result XdatcarSample :=
  all_structures <- Xdatcar_structures file_path ;;
  indices <- py_range (Z.of_nat (List.length all_structures)) step_interval ;;
  sampled_structures <- map_result (list_item all_structures) indices ;;
  sampled_atoms <- map_result get_atoms sampled_structures ;;
  ret (mkSample file_path sampled_structures sampled_atoms).

Fixpoint sample_files (all_xdatcar_files : list string) (step_interval : Z)
  : list XdatcarSample :=
  match all_xdatcar_files with
  | [] => []
  | file_path :: rest =>
      match sample_xdatcar file_path step_interval with
      | Ok sample => sample :: sample_files rest step_interval
      | Raise _ => sample_files rest step_interval
      end
  end.

Definition parse_xdatcar (directory_path : string) (step_interval : Z)
  : Result (list XdatcarSample) :=
  if negb (path_exists directory_path) then
    Raise (FileNotFoundError
             ("Directory " ++ directory_path ++ " does not exist."))
  else Ok (sample_files (xdatcar_files directory_path) step_interval).

(** The body of the loop of [load_and_split_traj] for one image: the
    conversion is guarded, the three calculator queries are not. *)
Definition traj_entry (frame : Frame) : Result DataEntry :=
  let atoms := frame_atoms frame in
  let pmg_structure :=
    match Structure_new (cell atoms) (symbols atoms) (positions atoms) with
    | Ok s => DStructure s
    | Raise _ => DValue VNone
    end in
  total_energy <- get_potential_energy frame ;;
  force <- frame_get_forces frame ;;
  stress <- get_stress frame ;;
  ret [("ase_atoms", DAtoms atoms);
       ("pymatgen_structure", pmg_structure);
       ("total_energy", DValue total_energy);
       ("force", DValue (VNdarray force));
       ("stress", DValue (VNdarray stress))].

(** What an entry of the loader looks like for the image [image]: the
    five keys in order, the frame's [Atoms] object, and the pymatgen
    structure of [ase_to_pymatgen], or [None] when that conversion fails;
    no key ["true_energy"]. *)
Definition loaded_from (image : Result Frame) (entry : DataEntry) : Prop :=
  exists frame,
    image = Ok frame /\
    keys entry = ["ase_atoms"; "pymatgen_structure"; "total_energy";
                  "force"; "stress"] /\
    atoms_slot entry = Some (Present (frame_atoms frame)) /\
    structure_slot entry
    = Some (match ase_to_pymatgen (frame_atoms frame) with
            | Ok s => Present s
            | Raise _ => IsNone
            end) /\
    get_potential_energy frame
    = match dict_get entry "total_energy" with
      | Some (DValue e) => Ok e
      | _ => Raise (KeyError "total_energy")
      end /\
    dict_get entry "true_energy" = None.

(** [for atoms in traj: ... data.append(...)]: images are read one by
    one. *)
Fixpoint traj_data (traj : list (Result Frame)) : Result (list DataEntry) :=
  match traj with
  | [] => Ok []
  | image :: rest =>
      frame <- image ;;
      entry <- traj_entry frame ;;
      data <- traj_data rest ;;
      ret (entry :: data)
  end.

Definition load_and_split_traj (traj_file output_dir : string)
  (test_size random_state : PyValue) : Result SplitDataset :=
  (if negb (path_exists output_dir) then makedirs output_dir else Ok tt) ;;;
  traj <- Trajectory traj_file ;;
  data <- traj_data traj ;;
  train_test <- train_test_split DataEntry data test_size random_state ;;
  store <- train_test_split (Result Frame) traj test_size random_state ;;
  ret (mkSplit (fst train_test) data).

End Parser.
End Parser.
Import Parser.

(* ================================================================== *)
(** ** [main.py]                                                       *)
(* ================================================================== *)

Module MainScript.

(** The pandas calls of step 5. *)
Class Pandas : Type := {
  (** [pd.DataFrame(results)] *)
  DataFrame_new : list PyDict -> Result unit;
  (** the column assignment, [to_csv] and [head] that follow *)
  save_report : list PyDict -> list DataValue -> Result unit
}.

Definition traj_file : string :=
  "/home/lee/mlps/internship/Dataset-selected/dataset-6k-selected_20241209.traj".

Definition output_dir : string := "/home/lee/mlps/internship/Dataset-selected".

Definition model_configs : list Config :=
  [mkConfig (Some "MACE")
            (Some [("model", VStr "large"); ("device", VStr "cpu")]);
   mkConfig (Some "EqV2") (Some [("pretrained_path", VStr "pretrained_models")]);
   mkConfig (Some "CHGNET") (Some []);
   mkConfig (Some "MatterSim")
            (Some [("load_path", VStr "MatterSim-v1.0.0-5M.pth")])].

(** A computation that does not touch the streams. *)
Definition io_lift {A} (c : Result A) : IO A := fun io => (c, io).

Section MainScript.
Context {tp : ThirdParty} {fs : FileSystem} {ld : Loaders} {pd : Pandas}.

(** [manager.predict_batch(test_data, prediction_type='energy')] on the
    dictionaries of the dataset.  The second branch stands for entries
    that bind ["ase_atoms"] or ["pymatgen_structure"] to an object of
    another kind, which the loader never builds. *)
Definition predict_test_data (models : list Model) (test_data : list DataEntry)
  : Result (list PyDict) :=
  match structure_data_list test_data with
  | Some structures => predict_batch models structures (Some "energy")
  | None => Raise (mkExc "TypeError" "structure slot of an unexpected type")
  end.

(** The statements of the script, in order. *)
Definition main : IO unit :=
  io_bind (io_lift (load_and_split_traj traj_file output_dir (VInt 1) (VInt 42)))
    (fun dataset =>
  let test_data := split_test dataset in
  io_bind (_initialize_models model_configs)
    (fun models =>
  io_bind (io_lift (predict_test_data models test_data))
    (fun results =>
  io_bind (io_lift (DataFrame_new results))
    (fun _ =>
  io_bind (io_lift (map_result (fun data => entry_item data "true_energy")
                               test_data))
    (fun true_energies =>
  io_lift (save_report results true_energies)))))).

End MainScript.
End MainScript.
Import MainScript.

(* ================================================================== *)
(** ** More concrete collaborators for the examples                    *)
(* ================================================================== *)

Module Demo2.
Import Demo.

(** Loaders that succeed with the demo calculators; the MACE loader
    rebinds the error stream while it runs. *)
#[export] Instance demo_ld : Loaders := {|
  open_devnull := Ok "/dev/null";
  mace_mp := fun _ _ _ _ io => (Ok good_calc, mkStreams (sys_stdout io) "mace.log");
  OCPCalculator := fun _ _ _ io => (Ok good_calc, io);
  CHGNet_load := fun io => (Ok good_chgnet, io);
  MatterSimCalculator := fun _ _ io => (Ok good_calc, io);
  cuda_is_available := false
|}.

Definition terminal : Streams := mkStreams "tty" "tty".

Definition three_models : list Model :=
  [MACEModel good_calc; CHGNETModel good_chgnet; MatterSimModel good_calc].

(** Third-party behaviour with a scheme that lowers the energy of oxides
    to 2.0 and leaves the rest to the fallback. *)
Definition plain_tp : ThirdParty := {|
  Structure_rejects := fun _ _ _ => None;
  get_chemical_formula := fun a => String.concat "" (symbols a);
  process_entry := fun entry =>
    if str_in "O" (species (entry_structure entry))
    then Ok (Some (VFloat two)) else Ok None;
  py_sum := fun _ => VFloat one
|}.

(** Integer arithmetic is enough for the examples; anything else is
    refused. *)
Definition int_op (op : Z -> Z -> Z) (x y : PyValue) : Result PyValue :=
  match x, y with
  | VInt a, VInt b => Ok (VInt (op a b))
  | _, _ => Raise (mkExc "TypeError" "unsupported operand type(s)")
  end.

#[export] Instance demo_bi : Builtins := {|
  py_add := int_op Z.add;
  py_mul := int_op Z.mul;
  py_sub := int_op Z.sub;
  set_iteration := fun l => nodup string_dec l
|}.

(** Arithmetic that never fails: operands that are not integers count
    as zero. *)
Definition as_int (v : PyValue) : Z :=
  match v with
  | VInt n => n
  | _ => 0%Z
  end.

Definition total_bi : Builtins := {|
  py_add := fun x y => Ok (VInt (as_int x + as_int y));
  py_mul := fun x y => Ok (VInt (as_int x * as_int y));
  py_sub := fun x y => Ok (VInt (as_int x - as_int y));
  set_iteration := fun l => nodup string_dec l
|}.

Definition water : Atoms :=
  mkAtoms cubic ["H"; "O"; "H"] [origin; origin; origin].

Definition good_frame : Frame :=
  mkFrame si_atoms (Ok (VFloat one))
          (Ok (NdAxis [NdAxis [NdFloat zero; NdFloat zero; NdFloat zero]]))
          (Ok (NdAxis [NdFloat zero])).

(** A frame whose atoms the pymatgen constructor refuses (two species,
    one position). *)
Definition odd_atoms : Atoms := mkAtoms cubic ["Si"; "Si"] [origin].

Definition odd_frame : Frame :=
  mkFrame odd_atoms (Ok (VFloat one))
          (Ok (NdAxis [NdAxis [NdFloat zero; NdFloat zero; NdFloat zero]]))
          (Ok (NdAxis [NdFloat zero])).

(** A small directory tree: one structure file per format, a text file,
    an [xyz] file that cannot be read, and an [XDATCAR] of five steps. *)
#[export] Instance demo_fs : FileSystem := {|
  path_exists := fun p =>
    str_in p ["/data"; "/data/a.cif"; "/data/notes.txt"; "/data/bad.xyz";
              "/data/POSCAR"; "/data/XDATCAR"; traj_file; output_dir];
  os_walk := fun p =>
    if String.eqb p "/data"
    then [("/data", ["a.cif"; "notes.txt"; "bad.xyz"; "POSCAR"; "XDATCAR"])]
    else [];
  path_join := fun root name => root ++ "/" ++ name;
  makedirs := fun _ => Ok tt;
  ase_read := fun p =>
    if String.eqb p "/data/bad.xyz"
    then Raise (ValueError "could not parse")
    else Ok si_atoms;
  get_structure := fun a => Ok (mkPmgStructure (cell a) (symbols a) (positions a));
  get_atoms := fun s => Ok (mkAtoms (lattice s) (species s) (coords s));
  Xdatcar_structures := fun _ =>
    Ok [si_structure; xx_structure; si_structure; xx_structure; si_structure];
  Trajectory := fun p =>
    if String.eqb p traj_file then Ok [Ok good_frame; Ok odd_frame]
    else Raise (FileNotFoundError p);
  train_test_split := fun A data _ _ => Ok (data, [])
|}.

(** The entries the loader makes of the two frames. *)
Definition good_entry : DataEntry :=
  [("ase_atoms", DAtoms si_atoms);
   ("pymatgen_structure", DStructure si_structure);
   ("total_energy", DValue (VFloat one));
   ("force", DValue (VNdarray
      (NdAxis [NdAxis [NdFloat zero; NdFloat zero; NdFloat zero]])));
   ("stress", DValue (VNdarray (NdAxis [NdFloat zero])))].

Definition odd_entry : DataEntry :=
  [("ase_atoms", DAtoms odd_atoms);
   ("pymatgen_structure", DValue VNone);
   ("total_energy", DValue (VFloat one));
   ("force", DValue (VNdarray
      (NdAxis [NdAxis [NdFloat zero; NdFloat zero; NdFloat zero]])));
   ("stress", DValue (VNdarray (NdAxis [NdFloat zero])))].

Definition demo_dataset : SplitDataset :=
  mkSplit [good_entry; odd_entry] [good_entry; odd_entry].

#[export] Instance demo_pd : Pandas := {|
  DataFrame_new := fun _ => Ok tt;
  save_report := fun _ _ => Ok tt
|}.

End Demo2.

(* ================================================================== *)
(** ** Facts about dictionaries                                        *)
(* ================================================================== *)

Module DictFacts.
Section DictFacts.
Context {V : Type}.
Implicit Types (d : list (string * V)) (k : string) (v : V).

Lemma dict_set_fresh d k v :
  ~ In k (keys d) -> dict_set d k v = (d ++ [(k, v)])%list.
Proof.
  induction d as [|[k' v'] d IH]; simpl; intros Hk; [reflexivity|].
  destruct (String.eqb_spec k' k) as [->|Hne].
  - exfalso. apply Hk. now left.
  - rewrite IH; [reflexivity|]. intros Hin. apply Hk. now right.
Qed.

Lemma keys_dict_set d k v k' :
  In k' (keys (dict_set d k v)) <-> k' = k \/ In k' (keys d).
Proof.
  induction d as [|[k0 v0] d IH]; simpl.
  - intuition congruence.
  - destruct (String.eqb_spec k0 k) as [->|Hne]; simpl.
    + intuition congruence.
    + rewrite IH. intuition congruence.
Qed.

Lemma NoDup_dict_set d k v :
  NoDup (keys d) -> NoDup (keys (dict_set d k v)).
Proof.
  induction d as [|[k0 v0] d IH]; simpl; intros Hnd.
  - constructor; [intros []|constructor].
  - inversion Hnd as [|? ? Hnotin Hnd']; subst.
    destruct (String.eqb_spec k0 k) as [->|Hne]; simpl.
    + now constructor.
    + constructor; [|now apply IH].
      rewrite keys_dict_set. intros [->|Hin]; [now apply Hne|now apply Hnotin].
Qed.

Lemma Forall_dict_set (Q : string * V -> Prop) d k v :
  Forall Q d -> Q (k, v) -> Forall Q (dict_set d k v).
Proof.
  induction d as [|[k0 v0] d IH]; simpl; intros Hd Hq.
  - now constructor.
  - inversion Hd; subst.
    destruct (String.eqb k0 k); constructor; auto.
Qed.

Lemma dict_get_dict_set d k v k' :
  dict_get (dict_set d k v) k' =
  if String.eqb k k' then Some v else dict_get d k'.
Proof.
  induction d as [|[k0 v0] d IH]; simpl.
  - destruct (String.eqb k k'); reflexivity.
  - destruct (String.eqb_spec k0 k) as [->|Hne]; simpl.
    + destruct (String.eqb k k'); reflexivity.
    + rewrite IH. destruct (String.eqb_spec k0 k') as [->|Hne'].
      * destruct (String.eqb_spec k k') as [->|]; [now elim Hne|reflexivity].
      * reflexivity.
Qed.

Lemma dict_get_Some_in d k v :
  dict_get d k = Some v -> In (k, v) d.
Proof.
  induction d as [|[k0 v0] d IH]; simpl; [discriminate|].
  destruct (String.eqb_spec k0 k) as [->|Hne].
  - intros [= ->]. now left.
  - intros H. right. now apply IH.
Qed.

Lemma dict_get_in_keys d k :
  In k (keys d) <-> exists v, dict_get d k = Some v.
Proof.
  induction d as [|[k0 v0] d IH]; simpl.
  - split; [intros []|intros [v [=]]].
  - destruct (String.eqb_spec k0 k) as [->|Hne].
    + split; [intros _; now exists v0|intros _; now left].
    + rewrite <- IH. intuition congruence.
Qed.

Lemma dict_get_map {W : Type} (g : V -> W) d k :
  dict_get (map (fun kv => (fst kv, g (snd kv))) d) k
  = option_map g (dict_get d k).
Proof.
  induction d as [|[k0 v0] d IH]; simpl; [reflexivity|].
  destruct (String.eqb k0 k); [reflexivity|exact IH].
Qed.

End DictFacts.
End DictFacts.
Import DictFacts.

(* ================================================================== *)
(** ** Result Serializer: proofs                                       *)
(* ================================================================== *)

Module SerializerFacts.
Import Serializer.

(** Structural induction through the lists nested in arrays and values. *)
Lemma NdArray_nested_ind (P : NdArray -> Prop) :
  (forall x, P (NdFloat x)) ->
  (forall n, P (NdInt n)) ->
  (forall items, Forall P items -> P (NdAxis items)) ->
  forall a, P a.
Proof.
  intros Hf Hi Hax.
  fix IH 1. intros [x|n|items].
  - apply Hf.
  - apply Hi.
  - apply Hax. induction items as [|a items IHitems]; constructor.
    + apply IH.
    + exact IHitems.
Qed.

Lemma PyValue_nested_ind (P : PyValue -> Prop) :
  (forall v, (forall l, v <> VList l) -> (forall d, v <> VDict d) -> P v) ->
  (forall l, Forall P l -> P (VList l)) ->
  (forall d, Forall (fun kv => P (snd kv)) d -> P (VDict d)) ->
  forall v, P v.
Proof.
  intros Hleaf Hlist Hdict.
  fix IH 1. intros v.
  destruct v as [ | | | | |l|d| | | | | | ];
    try (apply Hleaf; intros; discriminate).
  - apply Hlist. induction l as [|x l IHl]; constructor.
    + apply IH.
    + exact IHl.
  - apply Hdict. induction d as [|[k x] d IHd]; constructor.
    + apply IH.
    + exact IHd.
Qed.

(** The recursive call on a nested mapping is the loop body itself. *)
Lemma serialize_value_dict d :
  serialize_value (VDict d) = VDict (serialize_result d).
Proof.
  unfold serialize_result. simpl. f_equal.
  generalize (@nil (string * PyValue)) as acc.
  induction d as [|[k v] d IH]; intros acc; simpl; [reflexivity|].
  apply IH.
Qed.

Lemma serialize_result_cons_acc (l acc : PyDict) :
  fold_left (fun serialized_result kv =>
               dict_set serialized_result (fst kv) (serialize_value (snd kv)))
            l acc
  = fold_left (fun serialized_result kv =>
               dict_set serialized_result (fst kv) (snd kv))
            (map (fun kv => (fst kv, serialize_value (snd kv))) l) acc.
Proof.
  revert acc. induction l as [|[k v] l IH]; intros acc; simpl; [reflexivity|].
  apply IH.
Qed.

(** Filling a dictionary from items with distinct fresh keys appends them. *)
Lemma fold_dict_set_fresh (l acc : PyDict) :
  NoDup (keys (acc ++ l)) ->
  fold_left (fun r kv => dict_set r (fst kv) (snd kv)) l acc = (acc ++ l)%list.
Proof.
  revert acc. induction l as [|[k v] l IH]; intros acc Hnd; simpl.
  - now rewrite app_nil_r.
  - assert (Hfresh : ~ In k (keys acc)).
    { unfold keys in *. rewrite map_app in Hnd. simpl in Hnd.
      apply NoDup_remove_2 in Hnd. intros Hin. apply Hnd.
      apply in_or_app. now left. }
    rewrite (dict_set_fresh acc k v Hfresh).
    rewrite IH; rewrite <- app_assoc; simpl; [reflexivity|exact Hnd].
Qed.

Lemma keys_map_values (g : PyValue -> PyValue) (d : PyDict) :
  keys (map (fun kv => (fst kv, g (snd kv))) d) = keys d.
Proof.
  unfold keys. rewrite map_map. simpl. reflexivity.
Qed.

(** On a well-formed dictionary the serializer is a map over the values. *)
Lemma serialize_result_map (d : PyDict) :
  NoDup (keys d) ->
  serialize_result d = map (fun kv => (fst kv, serialize_value (snd kv))) d.
Proof.
  intros Hnd. unfold serialize_result.
  rewrite serialize_result_cons_acc.
  rewrite fold_dict_set_fresh; [reflexivity|].
  simpl. now rewrite keys_map_values.
Qed.

(** Invariants of the loop, whatever the input. *)
Lemma serialize_result_invariant (Q : string * PyValue -> Prop) (l acc : PyDict) :
  NoDup (keys acc) -> Forall Q acc ->
  Forall (fun kv => Q (fst kv, serialize_value (snd kv))) l ->
  let out := fold_left (fun r kv => dict_set r (fst kv) (serialize_value (snd kv)))
                       l acc in
  NoDup (keys out) /\ Forall Q out.
Proof.
  revert acc. induction l as [|[k v] l IH]; intros acc Hnd Hacc Hl; simpl.
  - now split.
  - inversion Hl; subst. apply IH.
    + now apply NoDup_dict_set.
    + now apply Forall_dict_set.
    + assumption.
Qed.

Lemma serialize_result_keys (d : PyDict) (k : string) :
  In k (keys (serialize_result d)) <-> In k (keys d).
Proof.
  unfold serialize_result.
  assert (H : forall l acc,
             In k (keys (fold_left (fun r kv =>
                    dict_set r (fst kv) (serialize_value (snd kv))) l acc))
             <-> In k (keys acc) \/ In k (keys l)).
  { induction l as [|[k0 v0] l IH]; intros acc; simpl.
    - tauto.
    - rewrite IH, keys_dict_set. intuition congruence. }
  rewrite H. simpl. tauto.
Qed.

Lemma tolist_not_converted a : converted (tolist a) = false.
Proof. destruct a; reflexivity. Qed.

Lemma serialize_value_serialized v : serialized (serialize_value v).
Proof.
  induction v as [v Hl Hd|l _|d IH] using PyValue_nested_ind.
  - destruct v;
      try (exfalso; eapply Hl; reflexivity);
      try (exfalso; eapply Hd; reflexivity);
      simpl; apply serialized_other;
      reflexivity || apply tolist_not_converted.
  - apply serialized_other. reflexivity.
  - rewrite serialize_value_dict.
    destruct (serialize_result_invariant
                (fun kv => serialized (snd kv)) d []) as [Hnd Hall].
    + constructor.
    + constructor.
    + exact IH.
    + now apply serialized_dict.
Qed.

Lemma serialized_fixed v : serialized v -> serialize_value v = v.
Proof.
  induction v as [v Hl Hd|l _|d IH] using PyValue_nested_ind; intros Hser.
  - inversion Hser as [v' Hconv|d' ? ?]; subst.
    + destruct v; simpl in *; reflexivity || discriminate.
    + exfalso. eapply Hd. reflexivity.
  - reflexivity.
  - inversion Hser as [v' Hconv|d' Hnd Hall]; subst; [discriminate|].
    rewrite serialize_value_dict, (serialize_result_map d Hnd). f_equal.
    clear Hnd Hser.
    induction d as [|[k x] d IHd]; simpl; [reflexivity|].
    inversion IH; inversion Hall; subst. simpl in *.
    f_equal; [f_equal; auto|auto].
Qed.

Lemma serialize_value_idempotent v :
  serialize_value (serialize_value v) = serialize_value v.
Proof. apply serialized_fixed, serialize_value_serialized. Qed.

Lemma serialize_result_idempotent d :
  serialize_result (serialize_result d) = serialize_result d.
Proof.
  pose proof (serialize_value_idempotent (VDict d)) as H.
  rewrite !serialize_value_dict in H. now injection H.
Qed.

(** *** Plain-JSON output *)

Lemma tolist_json_plain a : json_plain (tolist a) = true.
Proof.
  induction a as [x|n|items IH] using NdArray_nested_ind; simpl; try reflexivity.
  induction items as [|a items IHitems]; simpl; [reflexivity|].
  inversion IH; subst. apply andb_true_intro. split; auto.
Qed.

Lemma forallb_snd_Forall (p : PyValue -> bool) (d : PyDict) :
  forallb (fun kv => p (snd kv)) d = true <->
  Forall (fun kv => p (snd kv) = true) d.
Proof.
  rewrite forallb_forall, Forall_forall. reflexivity.
Qed.

Lemma serialize_value_json_plain v :
  passthrough_plain v = true -> json_plain (serialize_value v) = true.
Proof.
  induction v as [v Hl Hd|l _|d IH] using PyValue_nested_ind; intros Hp.
  - destruct v;
      try (exfalso; eapply Hl; reflexivity);
      try (exfalso; eapply Hd; reflexivity);
      simpl in *; try reflexivity; try discriminate.
    apply tolist_json_plain.
  - exact Hp.
  - rewrite serialize_value_dict. simpl in Hp |- *.
    apply forallb_snd_Forall. apply forallb_snd_Forall in Hp.
    apply (serialize_result_invariant
             (fun kv => json_plain (snd kv) = true) d []).
    + constructor.
    + constructor.
    + rewrite Forall_forall in *. intros kv Hin. simpl. auto.
Qed.

(** *** Shape preservation *)

Lemma wf_value_dict d :
  wf_value (VDict d) <->
  NoDup (keys d) /\ Forall (fun kv => wf_value (snd kv)) d.
Proof.
  simpl. apply and_iff_compat_l.
  induction d as [|[k x] d IH]; simpl.
  - split; [constructor|trivial].
  - rewrite IH. split.
    + intros [Hx Hd]. now constructor.
    + intros H. inversion H; subst. now split.
Qed.

Lemma wf_value_lookup d k v :
  wf_value (VDict d) -> dict_get d k = Some v -> wf_value v.
Proof.
  rewrite wf_value_dict. intros [_ Hall] Hget.
  apply dict_get_Some_in in Hget.
  rewrite Forall_forall in Hall. exact (Hall _ Hget).
Qed.

Lemma serialize_value_is_dict v d :
  serialize_value v = VDict d -> exists d0, v = VDict d0.
Proof.
  destruct v as [ | | | | |l|d0|a| | | | | ]; simpl; try discriminate.
  - intros _. now exists d0.
  - destruct a; discriminate.
Qed.

Lemma get_path_serialize (path : list string) :
  forall d, wf_dict d -> path <> [] ->
  get_path (serialize_result d) path
  = option_map serialize_value (get_path d path).
Proof.
  induction path as [|k rest IH]; intros d Hwf Hne; [now elim Hne|].
  pose proof Hwf as Hwf'. apply wf_value_dict in Hwf' as [Hnd _].
  simpl. rewrite (serialize_result_map d Hnd), dict_get_map.
  destruct (dict_get d k) as [v|] eqn:Hget; simpl; [|reflexivity].
  destruct rest as [|k' rest']; [reflexivity|].
  destruct v as [ | | | | |l|d0|a| | | | | ]; try reflexivity.
  - rewrite serialize_value_dict.
    apply IH; [|discriminate].
    exact (wf_value_lookup d k (VDict d0) Hwf Hget).
  - destruct a; reflexivity.
Qed.

End SerializerFacts.

(* ================================================================== *)
(** ** Energy Correction and the adapters: proofs                      *)
(* ================================================================== *)

Module AdapterFacts.
Section AdapterFacts.
Context {tp : ThirdParty}.

Lemma apply_mp2020_correction_cases energy structure :
  match process_entry (mkEntry structure energy false "GGA") with
  | Ok (Some corrected) =>
      apply_mp2020_correction energy structure = Ok corrected
  | Ok None | Raise _ =>
      apply_mp2020_correction energy structure = Ok energy
  end.
Proof.
  unfold apply_mp2020_correction.
  destruct (process_entry _) as [[c|]|e]; reflexivity.
Qed.

Lemma apply_mp2020_correction_total energy structure :
  exists corrected, apply_mp2020_correction energy structure = Ok corrected.
Proof.
  pose proof (apply_mp2020_correction_cases energy structure) as H.
  destruct (process_entry _) as [[c|]|e]; eauto.
Qed.

Lemma wants_energy_exact : wants "energy" (Some "energy") = true.
Proof. reflexivity. Qed.

Lemma wants_force_energy : wants "force" (Some "energy") = false.
Proof. reflexivity. Qed.

Lemma wants_unknown (what s : string) :
  s <> "" -> str_contains s what = false -> wants what (Some s) = false.
Proof.
  intros Hne Hc. unfold wants. rewrite Hc.
  destruct s; [now elim Hne|reflexivity].
Qed.

(** The shared body, with only the energy requested. *)
Lemma ase_predict_body_energy calc atoms result :
  ase_predict_body calc (SAtoms atoms) (Some "energy") = Ok result <->
  exists raw_energy pmg_structure corrected_energy,
    get_total_energy calc atoms = Ok raw_energy /\
    Structure_new (cell atoms) (symbols atoms) (positions atoms)
      = Ok pmg_structure /\
    apply_mp2020_correction raw_energy pmg_structure = Ok corrected_energy /\
    result = [("energy", corrected_energy)].
Proof.
  unfold ase_predict_body.
  rewrite wants_energy_exact, wants_force_energy. simpl.
  destruct (get_total_energy calc atoms) as [raw|e]; simpl.
  2:{ split; [discriminate|]. intros (r & p & c & H & _). discriminate. }
  destruct (Structure_new _ _ _) as [pmg|e]; simpl.
  2:{ split; [discriminate|]. intros (r & p & c & _ & H & _). discriminate. }
  destruct (apply_mp2020_correction raw pmg) as [c|e] eqn:Hc; simpl.
  2:{ split; [discriminate|].
      intros (r & p & c & [= <-] & [= <-] & H & _).
      rewrite Hc in H. discriminate. }
  split.
  - intros [= <-]. now exists raw, pmg, c.
  - intros (r & p & c' & [= <-] & [= <-] & H & ->).
    rewrite Hc in H. now injection H as ->.
Qed.

Lemma try_except_Ok {A} (body : Result A) handler (a : A) :
  (forall e, handler e <> Ok a) ->
  try_except body handler = Ok a <-> body = Ok a.
Proof.
  intros Hh. destruct body as [x|e]; simpl; [tauto|].
  split; [intros H; now elim (Hh e)|discriminate].
Qed.

Lemma model_predict_ase model calc structure prediction_type result :
  model_calc model = Some calc ->
  model_predict model structure prediction_type = Ok result <->
  ase_predict_body calc structure prediction_type = Ok result.
Proof.
  destruct model; simpl; intros [= <-];
    try (apply try_except_Ok; intros; discriminate).
  reflexivity.
Qed.

(** The three wrapping adapters never let a bare exception out. *)
Lemma wrapped_failure model structure prediction_type e :
  (forall calc, model <> EqV2Model calc) ->
  model_predict model structure prediction_type = Raise e ->
  exists cause,
    e = RuntimeError (model_name model ++ " prediction failed: " ++ str cause).
Proof.
  intros Hne. destruct model as [calc|m|calc|calc]; simpl.
  - now elim (Hne calc).
  - unfold CHGNETModel_predict.
    destruct (chgnet_predict_structure m structure true true) as [p|c]; simpl;
      [discriminate|]. intros [= <-]. now exists c.
  - unfold MACEModel_predict.
    destruct (ase_predict_body _ _ _) as [r|c]; simpl; [discriminate|].
    intros [= <-]. now exists c.
  - unfold MatterSimModel_predict.
    destruct (ase_predict_body _ _ _) as [r|c]; simpl; [discriminate|].
    intros [= <-]. now exists c.
Qed.

(** The keys an adapter can put in its result. *)
Lemma ase_predict_body_no_error calc structure prediction_type result :
  ase_predict_body calc structure prediction_type = Ok result ->
  dict_get result "error" = None.
Proof.
  unfold ase_predict_body.
  destruct (set_calc structure); simpl; [|discriminate].
  destruct (wants "energy" prediction_type); simpl.
  - destruct (structure_get_total_energy _ _); simpl; [|discriminate].
    destruct (lattice_view _); simpl; [|discriminate].
    destruct (apply_mp2020_correction _ _); simpl; [|discriminate].
    destruct (wants "force" prediction_type); simpl.
    + destruct (structure_get_forces _ _); simpl; [|discriminate].
      now intros [= <-].
    + now intros [= <-].
  - destruct (wants "force" prediction_type); simpl.
    + destruct (structure_get_forces _ _); simpl; [|discriminate].
      now intros [= <-].
    + now intros [= <-].
Qed.

Lemma model_predict_no_error model structure prediction_type result :
  model_predict model structure prediction_type = Ok result ->
  dict_get result "error" = None.
Proof.
  destruct model as [calc|m|calc|calc]; simpl.
  - apply ase_predict_body_no_error.
  - unfold CHGNETModel_predict.
    destruct (chgnet_predict_structure _ _ _ _); simpl; [|discriminate].
    destruct (wants "energy" _), (wants "force" _); now intros [= <-].
  - unfold MACEModel_predict.
    destruct (ase_predict_body _ _ _) eqn:H; simpl; [|discriminate].
    intros [= <-]. now apply ase_predict_body_no_error in H.
  - unfold MatterSimModel_predict.
    destruct (ase_predict_body _ _ _) eqn:H; simpl; [|discriminate].
    intros [= <-]. now apply ase_predict_body_no_error in H.
Qed.

End AdapterFacts.
End AdapterFacts.

(* ================================================================== *)
(** ** Energy path and prediction-type filter of the adapters          *)
(* ================================================================== *)

Module AdapterClaims.
Import AdapterFacts.

Section AdapterClaims.
Context {tp : ThirdParty}.

(** C1, as amended.  For the adapters built on an ASE calculator (MACE,
    EqV2, MatterSim), [predict] with prediction type ["energy"] returns a
    result exactly when the calculator yields a raw total energy and a
    pymatgen structure can be built from the cell, symbols and positions of
    the very [Atoms] object being predicted; the result is then the single
    key ["energy"] bound to the output of [apply_mp2020_correction] on that
    raw energy and that structure.  The correction function returns the
    processed entry's energy when the scheme produces one and the raw
    energy only when the scheme raises or returns nothing.  The CHGNet
    adapter does not call the correction: its ["energy"] is the sum of the
    site energies of the network's prediction. *)
Theorem energy_path_of_the_adapters
  (model : Model) (calc : AseCalculator) (atoms : Atoms) (result : PyDict)
  (Hase : model_calc model = Some calc) :
  (model_predict model (SAtoms atoms) (Some "energy") = Ok result <->
   exists raw_energy pmg_structure corrected_energy,
     get_total_energy calc atoms = Ok raw_energy /\
     Structure_new (cell atoms) (symbols atoms) (positions atoms)
       = Ok pmg_structure /\
     apply_mp2020_correction raw_energy pmg_structure = Ok corrected_energy /\
     result = [("energy", corrected_energy)])
  /\
  (forall energy structure,
     match process_entry (mkEntry structure energy false "GGA") with
     | Ok (Some corrected) =>
         apply_mp2020_correction energy structure = Ok corrected
     | Ok None | Raise _ =>
         apply_mp2020_correction energy structure = Ok energy
     end)
  /\
  (forall (m : CHGNet) (s : PmgStructure) (chg_result : PyDict),
     model_predict (CHGNETModel m) (SPymatgen s) (Some "energy") = Ok chg_result
     <->
     exists prediction,
       predict_structure m s true true = Ok prediction /\
       chg_result = [("energy", py_sum (site_energies prediction))]).
Proof.
  split; [|split].
  - rewrite (model_predict_ase model calc _ _ _ Hase).
    apply ase_predict_body_energy.
  - apply apply_mp2020_correction_cases.
  - intros m s chg_result. simpl. unfold CHGNETModel_predict. simpl.
    destruct (predict_structure m s true true) as [p|e]; simpl.
    + split.
      * intros [= <-]. now exists p.
      * now intros (p' & [= <-] & ->).
    + split; [discriminate|]. intros (p' & H & _). discriminate.
Qed.

(** C5.  When the compatibility scheme cannot process the entry built from
    the structure (it raises, or it returns no entry), the correction
    function returns normally, and what it returns is the raw energy it was
    given. *)
Theorem correction_failure_returns_raw_energy
  (energy : PyValue) (structure : PmgStructure)
  (Hfail : process_entry (mkEntry structure energy false "GGA") = Ok None \/
           exists e,
             process_entry (mkEntry structure energy false "GGA") = Raise e) :
  apply_mp2020_correction energy structure = Ok energy.
Proof.
  pose proof (apply_mp2020_correction_cases energy structure) as H.
  destruct Hfail as [Hnone|[e He]].
  - now rewrite Hnone in H.
  - now rewrite He in H.
Qed.

(** C10, as amended.  For a non-empty prediction type that contains neither
    ["energy"] nor ["force"], every adapter returns the empty mapping,
    provided the statements it runs before the filter succeed (attaching
    the calculator; for CHGNet, the network's forward pass). *)
Theorem unknown_prediction_type_gives_empty_result
  (model : Model) (structure : PyStructure) (prediction_type : string)
  (Hnonempty : prediction_type <> "")
  (Hno_energy : str_contains prediction_type "energy" = false)
  (Hno_force : str_contains prediction_type "force" = false)
  (Hready : adapter_ready model structure) :
  model_predict model structure (Some prediction_type) = Ok [].
Proof.
  pose proof (wants_unknown "energy" _ Hnonempty Hno_energy) as He.
  pose proof (wants_unknown "force" _ Hnonempty Hno_force) as Hf.
  destruct model as [calc|m|calc|calc]; simpl in *.
  - unfold EqV2Model_predict, ase_predict_body.
    rewrite Hready, He, Hf. reflexivity.
  - unfold CHGNETModel_predict. destruct Hready as [p ->]. simpl.
    rewrite He, Hf. reflexivity.
  - unfold MACEModel_predict, ase_predict_body.
    rewrite Hready, He, Hf. reflexivity.
  - unfold MatterSimModel_predict, ase_predict_body.
    rewrite Hready, He, Hf. reflexivity.
Qed.

End AdapterClaims.

Import Demo.

Lemma energy_path_of_the_adapters_witness :
  model_calc (MACEModel good_calc) = Some good_calc /\
  model_predict (MACEModel good_calc) (SAtoms si_atoms) (Some "energy")
  = Ok [("energy", VFloat two)].
Proof.
  split; [reflexivity|].
  apply (proj2 (proj1 (energy_path_of_the_adapters
                         (MACEModel good_calc) good_calc si_atoms
                         [("energy", VFloat two)] eq_refl))).
  exists (VFloat one), si_structure, (VFloat two).
  repeat split; reflexivity.
Defined.

(** C1, as stated, fails for the CHGNet adapter: the scheme corrects the
    raw energy of the silicon cell to 2.0, yet the adapter returns the raw
    sum of the site energies. *)
Lemma chgnet_energy_is_not_corrected :
  model_predict (CHGNETModel good_chgnet) (SPymatgen si_structure)
                (Some "energy")
  = Ok [("energy", VNpFloat32 one)] /\
  process_entry (mkEntry si_structure (VNpFloat32 one) false "GGA")
  = Ok (Some (VFloat two)) /\
  apply_mp2020_correction (VNpFloat32 one) si_structure = Ok (VFloat two) /\
  VFloat two <> VNpFloat32 one.
Proof.
  split; [reflexivity|]. split; [reflexivity|]. split; [reflexivity|].
  discriminate.
Qed.

Lemma correction_failure_returns_raw_energy_witness :
  (process_entry (mkEntry xx_structure (VFloat one) false "GGA") = Ok None \/
   exists e,
     process_entry (mkEntry xx_structure (VFloat one) false "GGA") = Raise e)
  /\ apply_mp2020_correction (VFloat one) xx_structure = Ok (VFloat one).
Proof.
  assert (H : process_entry (mkEntry xx_structure (VFloat one) false "GGA")
              = Ok None \/
              exists e,
                process_entry (mkEntry xx_structure (VFloat one) false "GGA")
                = Raise e).
  { right. eexists. reflexivity. }
  split; [exact H|].
  exact (correction_failure_returns_raw_energy (VFloat one) xx_structure H).
Defined.

(** C9 at the EqV2 adapter: a calculator failure leaves [predict] as it
    is, without the adapter's name; the MACE adapter wraps the same
    failure. *)
Theorem eqv2_failure_is_not_wrapped :
  model_predict (EqV2Model failing_calc) (SAtoms si_atoms) (Some "energy")
  = Raise (ValueError "element not supported") /\
  model_predict (MACEModel failing_calc) (SAtoms si_atoms) (Some "energy")
  = Raise (RuntimeError "MACE prediction failed: element not supported").
Proof. split; reflexivity. Qed.

(** C10, as stated, fails at the empty string, which contains neither
    word but counts as "no filter", and for CHGNet when the forward pass,
    run before the filter, fails. *)
Lemma empty_prediction_type_requests_everything :
  str_contains "" "energy" = false /\
  str_contains "" "force" = false /\
  model_predict (MACEModel good_calc) (SAtoms si_atoms) (Some "")
  = Ok [("energy", VFloat two);
        ("forces", VList [VList [VFloat zero; VFloat zero; VFloat zero]])] /\
  str_contains "stress" "energy" = false /\
  str_contains "stress" "force" = false /\
  model_predict (CHGNETModel failing_chgnet) (SPymatgen si_structure)
                (Some "stress")
  = Raise (RuntimeError "CHGNET prediction failed: graph construction failed").
Proof. repeat split; reflexivity. Qed.

Lemma unknown_prediction_type_gives_empty_result_witness :
  "stress" <> "" /\
  str_contains "stress" "energy" = false /\
  str_contains "stress" "force" = false /\
  adapter_ready (CHGNETModel good_chgnet) (SPymatgen si_structure) /\
  model_predict (CHGNETModel good_chgnet) (SPymatgen si_structure)
                (Some "stress") = Ok [].
Proof.
  assert (Hne : "stress" <> "") by discriminate.
  assert (Hready : adapter_ready (CHGNETModel good_chgnet)
                                 (SPymatgen si_structure)).
  { simpl. eexists. reflexivity. }
  split; [exact Hne|]. split; [reflexivity|]. split; [reflexivity|].
  split; [exact Hready|].
  exact (unknown_prediction_type_gives_empty_result
           (CHGNETModel good_chgnet) (SPymatgen si_structure) "stress"
           Hne eq_refl eq_refl Hready).
Defined.

End AdapterClaims.

(* ================================================================== *)
(** ** Ensemble Manager: proofs                                        *)
(* ================================================================== *)

Module ManagerFacts.
Import AdapterFacts.

Section ManagerFacts.
Context {tp : ThirdParty}.

Lemma error_entry_is_model_entry e : is_model_entry (error_entry e).
Proof. left. now exists (str e). Qed.

Lemma success_is_model_entry model structure prediction_type r :
  model_predict model structure prediction_type = Ok r ->
  is_model_entry (VDict r).
Proof.
  intros H. right. exists r. split; [reflexivity|].
  exact (model_predict_no_error _ _ _ _ H).
Qed.

(** What a lookup answers once [structure] no longer names the dictionary. *)
Lemma get_structure_of_rebound structure model :
  (forall d, structure <> SData d) ->
  exists message,
    _get_structure_for_model structure model = Raise (ValueError message).
Proof.
  intros Hnd. unfold _get_structure_for_model.
  destruct structure as [d|a|s]; [now elim (Hnd d)| |];
    destruct model; simpl; eauto.
Qed.

Lemma get_structure_returns_object structure model structure' :
  _get_structure_for_model structure model = Ok structure' ->
  forall d, structure' <> SData d.
Proof.
  unfold _get_structure_for_model.
  destruct model; simpl;
    try (destruct (lookup_ase_atoms structure); try discriminate;
         intros [= <-]; discriminate);
    destruct (lookup_pymatgen_structure structure); try discriminate;
    intros [= <-]; discriminate.
Qed.

(** Each iteration of [predict] binds the model's name to an entry. *)
Lemma predict_step_spec prediction_type structure results model :
  exists structure' v,
    predict_step prediction_type (structure, results) model
    = (structure', dict_set results (model_name model) v)
    /\ is_model_entry v.
Proof.
  unfold predict_step.
  destruct (_get_structure_for_model structure model) as [s'|e].
  - destruct (model_predict model s' prediction_type) as [r|e] eqn:Hp.
    + exists s', (VDict r). split; [reflexivity|].
      exact (success_is_model_entry _ _ _ _ Hp).
    + exists s', (error_entry e). split; [reflexivity|].
      apply error_entry_is_model_entry.
  - exists structure, (error_entry e). split; [reflexivity|].
    apply error_entry_is_model_entry.
Qed.

Lemma predict_loop_invariant prediction_type models :
  forall (structure : PyStructure) (results : PyDict),
    NoDup (keys results) ->
    Forall (fun kv => is_model_entry (snd kv)) results ->
    let out := snd (fold_left (predict_step prediction_type) models
                              (structure, results)) in
    NoDup (keys out) /\
    Forall (fun kv => is_model_entry (snd kv)) out /\
    (forall name, In name (keys out) <->
                  In name (keys results) \/ In name (map model_name models)).
Proof.
  induction models as [|model models IH]; intros structure results Hnd Hall;
    cbn [fold_left map].
  - simpl. repeat split; auto. tauto.
  - destruct (predict_step_spec prediction_type structure results model)
      as (s' & v & -> & Hv).
    destruct (IH s' (dict_set results (model_name model) v)) as (H1 & H2 & H3).
    + now apply NoDup_dict_set.
    + now apply Forall_dict_set.
    + repeat split; auto.
      * intros Hin. apply H3 in Hin. rewrite keys_dict_set in Hin. simpl.
        destruct Hin as [[->|Hin]|Hin]; auto.
      * intros Hin. apply H3. rewrite keys_dict_set. simpl in Hin.
        destruct Hin as [Hin|[<-|Hin]]; auto.
Qed.

Lemma batch_entry_is_model_entry prediction_type structure model :
  is_model_entry (batch_entry prediction_type structure model).
Proof.
  unfold batch_entry.
  destruct (_get_structure_for_model (SData structure) model) as [s|e]; simpl.
  - destruct (model_predict model s prediction_type) as [r|e] eqn:Hp; simpl.
    + exact (success_is_model_entry _ _ _ _ Hp).
    + apply error_entry_is_model_entry.
  - apply error_entry_is_model_entry.
Qed.

Lemma batch_loop_invariant prediction_type structure models :
  forall result : PyDict,
    NoDup (keys result) ->
    let out :=
      fold_left (fun result model =>
                   dict_set result (model_name model)
                            (batch_entry prediction_type structure model))
                models result in
    NoDup (keys out) /\
    (forall name, In name (keys out) <->
                  In name (keys result) \/ In name (map model_name models)) /\
    (forall name, bound_to_entry result name \/ In name (map model_name models) ->
                  bound_to_entry out name).
Proof.
  induction models as [|model models IH]; intros result Hnd;
    cbn [fold_left map].
  - simpl. repeat split; auto; tauto.
  - set (v := batch_entry prediction_type structure model).
    destruct (IH (dict_set result (model_name model) v)) as (H1 & H2 & H3).
    { now apply NoDup_dict_set. }
    repeat split; auto.
    + intros Hin. apply H2 in Hin. rewrite keys_dict_set in Hin. simpl.
      destruct Hin as [[->|Hin]|Hin]; auto.
    + intros Hin. apply H2. rewrite keys_dict_set. simpl in Hin.
      destruct Hin as [Hin|[<-|Hin]]; auto.
    + intros name Hname. apply H3.
      destruct (String.eqb_spec (model_name model) name) as [Heq|Hne].
      * left. exists v. split.
        -- rewrite dict_get_dict_set, Heq, String.eqb_refl. reflexivity.
        -- apply batch_entry_is_model_entry.
      * destruct Hname as [(w & Hget & Hw)|[Heq|Hin]].
        -- left. exists w. split; [|exact Hw].
           rewrite dict_get_dict_set.
           destruct (String.eqb_spec (model_name model) name); [contradiction|].
           exact Hget.
        -- contradiction.
        -- now right.
Qed.

Lemma model_name_not_reserved model :
  model_name model <> "index" /\ model_name model <> "structure".
Proof. destruct model; split; discriminate. Qed.

(** The record built for one structure of a batch. *)
Lemma batch_record_spec models prediction_type idx structure result :
  batch_record models prediction_type idx structure = Ok result ->
  has_atoms structure /\
  NoDup (keys result) /\
  (forall name, In name (keys result) <->
                name = "index" \/ name = "structure"
                \/ In name (map model_name models)) /\
  (forall name, In name (map model_name models) -> bound_to_entry result name) /\
  dict_get result "index" = Some (VInt idx).
Proof.
  unfold batch_record, structure_label.
  destruct (ase_atoms structure) as [| |atoms] eqn:Hatoms; simpl; try discriminate.
  intros [= <-].
  set (start := [("index", VInt idx);
                 ("structure", VStr (get_chemical_formula atoms))]).
  destruct (batch_loop_invariant prediction_type structure models start)
    as (H1 & H2 & H3).
  { repeat constructor; simpl; intuition discriminate. }
  split; [now exists atoms|]. split; [exact H1|]. split; [|split].
  - intros name. rewrite H2. simpl. intuition auto.
  - intros name Hin. apply H3. now right.
  - assert (Hkeep : forall ms acc,
               dict_get acc "index" = Some (VInt idx) ->
               dict_get (fold_left (fun result model =>
                   dict_set result (model_name model)
                            (batch_entry prediction_type structure model))
                 ms acc) "index" = Some (VInt idx)).
    { induction ms as [|m ms IHms]; intros acc Hacc; simpl; [exact Hacc|].
      apply IHms. rewrite dict_get_dict_set.
      destruct (String.eqb_spec (model_name m) "index") as [Heq|_];
        [|exact Hacc].
      now destruct (model_name_not_reserved m). }
    now apply Hkeep.
Qed.

Lemma predict_batch_from_Forall (Q : Z -> PyDict -> Prop) models prediction_type :
  (forall idx structure result,
      batch_record models prediction_type idx structure = Ok result ->
      Q idx result) ->
  forall structures idx unified_results,
    predict_batch_from idx models structures prediction_type = Ok unified_results ->
    Forall (fun r => exists i, Q i r) unified_results.
Proof.
  intros HQ. induction structures as [|s structures IH];
    intros idx unified_results; simpl.
  - intros [= <-]. constructor.
  - destruct (batch_record models prediction_type idx s) as [r|e] eqn:Hr;
      simpl; [|discriminate].
    destruct (predict_batch_from (idx + 1) models structures prediction_type)
      as [rs|e] eqn:Hrs; simpl; [|discriminate].
    intros [= <-]. constructor.
    + exists idx. exact (HQ idx s r Hr).
    + exact (IH (idx + 1)%Z rs Hrs).
Qed.

(** When every structure carries an [Atoms] object, the batch loop returns
    one record per structure, in input order, numbered from [idx]. *)
Lemma predict_batch_from_total models prediction_type :
  forall structures idx,
    Forall has_atoms structures ->
    exists unified_results,
      predict_batch_from idx models structures prediction_type
      = Ok unified_results /\
      List.length unified_results = List.length structures /\
      forall i structure,
        nth_error structures i = Some structure ->
        exists result,
          nth_error unified_results i = Some result /\
          batch_record models prediction_type (idx + Z.of_nat i) structure
          = Ok result.
Proof.
  induction structures as [|s structures IH]; intros idx Hall; simpl.
  - exists []. repeat split; auto. intros [|i] ? [=].
  - inversion Hall as [|? ? [atoms Hs] Hrest]; subst.
    destruct (IH (idx + 1)%Z Hrest) as (rs & Hrs & Hlen & Hnth).
    assert (Hrec : exists r, batch_record models prediction_type idx s = Ok r).
    { unfold batch_record, structure_label. rewrite Hs. simpl. eauto. }
    destruct Hrec as [r Hr]. rewrite Hr, Hrs. simpl.
    exists (r :: rs). split; [reflexivity|]. split; [simpl; now rewrite Hlen|].
    intros [|i] structure; simpl.
    + intros [= <-]. exists r. now rewrite Z.add_0_r.
    + intros Hi. destruct (Hnth i structure Hi) as (res & Hres & Hb).
      exists res. split; [exact Hres|].
      replace (idx + Z.pos (Pos.of_succ_nat i))%Z
        with (idx + 1 + Z.of_nat i)%Z by lia.
      exact Hb.
Qed.

(** A structure without an [Atoms] object aborts the whole batch. *)
Lemma predict_batch_from_aborts models prediction_type :
  forall structures idx,
    Exists (fun s => ~ has_atoms s) structures ->
    exists e,
      predict_batch_from idx models structures prediction_type = Raise e.
Proof.
  induction structures as [|s structures IH]; intros idx Hex; simpl.
  - inversion Hex.
  - unfold batch_record at 1, structure_label.
    destruct (ase_atoms s) as [| |atoms] eqn:Hs; simpl; eauto.
    inversion Hex as [? ? Hno|? ? Hrest]; subst.
    + exfalso. apply Hno. now exists atoms.
    + destruct (IH (idx + 1)%Z Hrest) as [e ->]. simpl. eauto.
Qed.

End ManagerFacts.
End ManagerFacts.

(* ================================================================== *)
(** ** Ensemble Manager: unified records                               *)
(* ================================================================== *)

Module ManagerClaims.
Import AdapterFacts ManagerFacts.

Section ManagerClaims.
Context {tp : ThirdParty}.

(** C4.  The mapping returned by the single-structure [predict] has the
    configured model names as its keys, each once, and every one of them
    is bound to a success result or to [{"error": message}]; every record
    that [predict_batch] returns has, besides ["index"] and ["structure"],
    exactly the configured model names as keys, each once and each bound
    to such an entry.  Nothing is assumed about which models succeed. *)
Theorem one_entry_per_configured_model (models : list Model) :
  (forall structure prediction_type,
     let results := predict models structure prediction_type in
     NoDup (keys results) /\
     (forall name, In name (keys results) <-> In name (map model_name models)) /\
     (forall name, In name (map model_name models) ->
                   bound_to_entry results name))
  /\
  (forall structures prediction_type unified_results,
     predict_batch models structures prediction_type = Ok unified_results ->
     Forall (fun result =>
               NoDup (keys result) /\
               (forall name, In name (keys result) <->
                             name = "index" \/ name = "structure"
                             \/ In name (map model_name models)) /\
               (forall name, In name (map model_name models) ->
                             bound_to_entry result name))
            unified_results).
Proof.
  split.
  - intros structure prediction_type results. subst results. unfold predict.
    destruct (predict_loop_invariant prediction_type models structure [])
      as (Hnd & Hall & Hkeys); [constructor|constructor|].
    split; [exact Hnd|]. split.
    + intros name. rewrite Hkeys. simpl. tauto.
    + intros name Hin.
      assert (Hk : In name (keys (snd (fold_left (predict_step prediction_type)
                                                 models (structure, []))))).
      { apply Hkeys. now right. }
      apply dict_get_in_keys in Hk as [v Hv]. exists v. split; [exact Hv|].
      apply dict_get_Some_in in Hv. rewrite Forall_forall in Hall.
      exact (Hall _ Hv).
  - intros structures prediction_type unified_results Hbatch.
    unfold predict_batch in Hbatch.
    pose proof (predict_batch_from_Forall
      (fun _ result =>
         NoDup (keys result) /\
         (forall name, In name (keys result) <->
                       name = "index" \/ name = "structure"
                       \/ In name (map model_name models)) /\
         (forall name, In name (map model_name models) ->
                       bound_to_entry result name))
      models prediction_type) as H.
    eapply Forall_impl; [|eapply H; [|exact Hbatch]].
    + intros r [_ Hr]. exact Hr.
    + intros idx structure result Hrec.
      destruct (batch_record_spec _ _ _ _ _ Hrec) as (_ & H1 & H2 & H3 & _).
      auto.
Qed.

End ManagerClaims.

Import Demo.

Lemma one_entry_per_configured_model_witness :
  exists unified_results,
    predict_batch failing_models [both_forms] (Some "energy")
    = Ok unified_results /\
    Forall (fun result =>
              NoDup (keys result) /\
              (forall name, In name (keys result) <->
                            name = "index" \/ name = "structure"
                            \/ In name (map model_name failing_models)) /\
              (forall name, In name (map model_name failing_models) ->
                            bound_to_entry result name))
           unified_results.
Proof.
  eexists. split; [reflexivity|].
  exact (proj2 (one_entry_per_configured_model failing_models)
               [both_forms] (Some "energy") _ eq_refl).
Defined.

(** C2 on a batch whose second structure has no [Atoms] object: the label
    is computed outside the [try], so the [KeyError] (or, for a [None]
    slot, the [AttributeError]) leaves [predict_batch] and no record is
    returned, not even for the structures around it. *)
Theorem batch_is_lost_when_one_label_fails :
  predict_batch demo_models [both_forms; lattice_only; both_forms]
                (Some "energy")
  = Raise (KeyError "ase_atoms") /\
  predict_batch demo_models [both_forms; atoms_none] (Some "energy")
  = Raise (AttributeError
             "'NoneType' object has no attribute 'get_chemical_formula'").
Proof. split; reflexivity. Qed.

(** C3 on a structure that has only its pymatgen form: the single-structure
    [predict] records the missing representation for the model that needs
    [Atoms] and leaves the other model alone, but [predict_batch] raises
    before any model is asked. *)
Theorem missing_atoms_form_escapes_the_batch :
  predict demo_models (SData lattice_only) (Some "energy")
  = [("MACE", VDict [("error",
                      VStr "ASE Atoms not available for model MACE.")]);
     ("CHGNET", VDict [("energy", VNpFloat32 one)])] /\
  predict_batch demo_models [lattice_only] (Some "energy")
  = Raise (mkExc "KeyError" "'ase_atoms'").
Proof. split; reflexivity. Qed.

(** C6 on a structure with both representations: after the first model,
    the variable [structure] of [predict] names the [Atoms] object, so the
    second model's lookup fails, whatever format it needs; [predict_batch]
    keeps the dictionary in a variable of its own and serves both. *)
Theorem second_model_loses_its_representation :
  predict demo_models (SData both_forms) (Some "energy")
  = [("MACE", VDict [("energy", VFloat two)]);
     ("CHGNET",
      VDict [("error",
              VStr "Pymatgen Structure not available for model CHGNET.")])] /\
  predict [MACEModel good_calc; MatterSimModel good_calc] (SData both_forms)
          (Some "energy")
  = [("MACE", VDict [("energy", VFloat two)]);
     ("MatterSim",
      VDict [("error", VStr "ASE Atoms not available for model MatterSim.")])] /\
  predict_batch demo_models [both_forms] (Some "energy")
  = Ok [[("index", VInt 0); ("structure", VStr "Si");
         ("MACE", VDict [("energy", VFloat two)]);
         ("CHGNET", VDict [("energy", VNpFloat32 one)])]].
Proof. repeat split; reflexivity. Qed.

End ManagerClaims.

(* ================================================================== *)
(** ** Result Serializer: idempotence and JSON safety                  *)
(* ================================================================== *)

Module SerializerClaims.
Import Serializer SerializerFacts Demo.

(** C7.  Serializing the serializer's output gives that output back. *)
Theorem serialize_results_idempotent (records : list PyDict) :
  serialize_results (serialize_results records) = serialize_results records.
Proof.
  unfold serialize_results. rewrite map_map.
  apply map_ext. intros d. apply serialize_result_idempotent.
Qed.

(** C8, as stated, fails: a list is passed through as it is, with the
    array inside it, which no JSON encoder can write. *)
Lemma serialized_output_can_hold_an_array :
  serialize_results [array_in_list] = [array_in_list] /\
  forallb (fun r => json_plain (VDict r)) (serialize_results [array_in_list])
  = false.
Proof. split; reflexivity. Qed.

(** C8, as amended.  For records that are Python dictionaries (distinct
    keys at every level of mapping), the output has one record per input
    record, with the same keys in the same order; looking up any path of
    keys in the output gives the serialized value of what the same path
    gives in the input, so the nesting of mappings is unchanged; arrays
    become nested lists of plain numbers, [float32]/[float64] scalars plain
    floats, [int32]/[int64] scalars plain integers, nested mappings are
    serialized by the same rules and every other value is passed through
    unchanged.  The output is plain JSON whenever the values that are
    passed through are. *)
Theorem serialize_results_shape_and_json_safety (records : list PyDict)
  (Hwf : Forall wf_dict records) :
  Forall2 (fun record out =>
             keys out = keys record /\
             (forall path, path <> [] ->
                get_path out path
                = option_map serialize_value (get_path record path)) /\
             (passthrough_plain (VDict record) = true ->
              json_plain (VDict out) = true))
          records (serialize_results records)
  /\ (forall a, serialize_value (VNdarray a) = tolist a
                /\ json_plain (tolist a) = true)
  /\ (forall x, serialize_value (VNpFloat32 x) = VFloat x
                /\ serialize_value (VNpFloat64 x) = VFloat x)
  /\ (forall n, serialize_value (VNpInt32 n) = VInt n
                /\ serialize_value (VNpInt64 n) = VInt n)
  /\ (forall d, serialize_value (VDict d) = VDict (serialize_result d))
  /\ (forall v, converted v = false -> serialize_value v = v).
Proof.
  split; [|split; [|split; [|split; [|split]]]].
  - induction Hwf as [|record records Hrec _ IH];
      cbn [serialize_results map]; constructor; [|exact IH].
    pose proof Hrec as Hrec'. apply wf_value_dict in Hrec' as [Hnd _].
    split; [|split].
    + rewrite (serialize_result_map record Hnd). apply keys_map_values.
    + intros path Hne. now apply get_path_serialize.
    + intros Hp. rewrite <- serialize_value_dict.
      now apply serialize_value_json_plain.
  - intros a. split; [reflexivity|apply tolist_json_plain].
  - intros x. split; reflexivity.
  - intros n. split; reflexivity.
  - apply serialize_value_dict.
  - intros v Hv. destruct v; try reflexivity; discriminate.
Qed.

Lemma serialize_results_shape_and_json_safety_witness :
  Forall wf_dict [raw_record] /\
  passthrough_plain (VDict raw_record) = true /\
  keys (serialize_result raw_record) = keys raw_record /\
  get_path (serialize_result raw_record) ["CHGNET"; "energy"]
  = option_map serialize_value (get_path raw_record ["CHGNET"; "energy"]) /\
  json_plain (VDict (serialize_result raw_record)) = true.
Proof.
  assert (Hwf : Forall wf_dict [raw_record]).
  { repeat constructor; simpl; intuition discriminate. }
  pose proof (proj1 (serialize_results_shape_and_json_safety [raw_record] Hwf))
    as Hall.
  apply Forall2_cons_iff in Hall as [(Hkeys & Hpath & Hplain) _].
  split; [exact Hwf|]. split; [reflexivity|]. split; [exact Hkeys|].
  split; [apply Hpath; discriminate|].
  apply Hplain. reflexivity.
Defined.

Example raw_record_serialized :
  serialize_results [raw_record]
  = [[("index", VInt 0); ("structure", VStr "Si");
      ("CHGNET", VDict [("energy", VFloat one);
                        ("forces", VList [VList [VFloat zero]])])]].
Proof. reflexivity. Qed.

End SerializerClaims.

(* ================================================================== *)
(** ** Ensemble Manager: order, isolation and the shape of a record    *)
(* ================================================================== *)

Module ManagerExtras.
Import Serializer SerializerFacts AdapterFacts ManagerFacts.

Section ManagerExtras.
Context {tp : ThirdParty}.

Lemma fold_models_as_items (entry : Model -> PyValue) (models : list Model) :
  forall acc : PyDict,
    fold_left (fun result model => dict_set result (model_name model) (entry model))
              models acc
    = fold_left (fun r kv => dict_set r (fst kv) (snd kv))
                (map (fun model => (model_name model, entry model)) models) acc.
Proof.
  induction models as [|m models IH]; intros acc; simpl; [reflexivity|].
  apply IH.
Qed.

Lemma keys_of_entries (entry : Model -> PyValue) (models : list Model) :
  keys (map (fun model => (model_name model, entry model)) models)
  = map model_name models.
Proof. unfold keys. rewrite map_map. reflexivity. Qed.

Lemma keys_app (a b : PyDict) : keys (a ++ b) = (keys a ++ keys b)%list.
Proof. unfold keys. apply map_app. Qed.

Lemma batch_loop_keeps prediction_type structure (key : string) models :
  ~ In key (map model_name models) ->
  forall result : PyDict,
    dict_get (fold_left (fun result model =>
                 dict_set result (model_name model)
                          (batch_entry prediction_type structure model))
               models result) key
    = dict_get result key.
Proof.
  induction models as [|m models IH]; intros Hkey result; simpl; [reflexivity|].
  rewrite IH.
  - rewrite dict_get_dict_set.
    destruct (String.eqb_spec (model_name m) key) as [Heq|_]; [|reflexivity].
    exfalso. apply Hkey. now left.
  - intros Hin. apply Hkey. now right.
Qed.

Lemma reserved_not_a_model_name models :
  ~ In "index" (map model_name models) /\
  ~ In "structure" (map model_name models).
Proof.
  split; intros Hin; apply in_map_iff in Hin as (m & Hm & _);
    destruct (model_name_not_reserved m); congruence.
Qed.

Lemma batch_record_label models prediction_type idx structure atoms result :
  ase_atoms structure = Present atoms ->
  batch_record models prediction_type idx structure = Ok result ->
  dict_get result "structure" = Some (VStr (get_chemical_formula atoms)).
Proof.
  unfold batch_record, structure_label. intros ->. simpl. intros [= <-].
  rewrite batch_loop_keeps; [reflexivity|].
  apply reserved_not_a_model_name.
Qed.

(** X1.  When every structure of the batch carries an [Atoms] object,
    [predict_batch] returns, whatever the models do, exactly one record per
    structure, in input order: the record at position [i] has ["index"]
    [i], the reduced formula of the [i]-th [Atoms] as ["structure"], and an
    entry for every configured model. *)
Theorem predict_batch_one_record_per_structure
  (models : list Model) (structures : list StructureData)
  (prediction_type : option string)
  (Hatoms : Forall has_atoms structures) :
  exists unified_results,
    predict_batch models structures prediction_type = Ok unified_results /\
    List.length unified_results = List.length structures /\
    forall i structure,
      nth_error structures i = Some structure ->
      exists atoms result,
        ase_atoms structure = Present atoms /\
        nth_error unified_results i = Some result /\
        dict_get result "index" = Some (VInt (Z.of_nat i)) /\
        dict_get result "structure" = Some (VStr (get_chemical_formula atoms)) /\
        forall model, In model models ->
                      bound_to_entry result (model_name model).
Proof.
  destruct (predict_batch_from_total models prediction_type structures 0%Z Hatoms)
    as (rs & Hrs & Hlen & Hnth).
  exists rs. split; [exact Hrs|]. split; [exact Hlen|].
  intros i structure Hi.
  destruct (Hnth i structure Hi) as (result & Hres & Hrec).
  destruct (batch_record_spec _ _ _ _ _ Hrec) as ([atoms Ha] & _ & _ & Hb & Hidx).
  exists atoms, result. repeat split; auto.
  - exact (batch_record_label _ _ _ _ _ _ Ha Hrec).
  - intros model Hin. apply Hb. now apply in_map.
Qed.

(** X2.  A structure without an [Atoms] object (key absent, or bound to
    [None]) makes [predict_batch] raise the error of its label, a
    [KeyError] or an [AttributeError], as soon as the structures before it
    have been processed; nothing is returned for any structure. *)
Theorem predict_batch_aborts_at_first_missing_label
  (models : list Model) (pre post : list StructureData)
  (structure : StructureData) (prediction_type : option string)
  (Hpre : Forall has_atoms pre)
  (Hmissing : ~ has_atoms structure) :
  predict_batch models (pre ++ structure :: post)%list prediction_type
  = Raise (match ase_atoms structure with
           | Missing => KeyError "ase_atoms"
           | _ => no_attribute "NoneType" "get_chemical_formula"
           end).
Proof.
  unfold predict_batch. generalize 0%Z as idx.
  induction Hpre as [|s pre [atoms Hs] _ IH]; intros idx; simpl.
  - unfold batch_record, structure_label.
    destruct (ase_atoms structure) as [| |atoms] eqn:Ha; simpl; try reflexivity.
    exfalso. apply Hmissing. now exists atoms.
  - assert (Hrec : exists r, batch_record models prediction_type idx s = Ok r).
    { unfold batch_record, structure_label. rewrite Hs. simpl. eauto. }
    destruct Hrec as [r ->]. simpl. rewrite IH. reflexivity.
Qed.

(** X3.  For an ensemble whose model names are distinct, the record of one
    structure is ["index"], ["structure"] and then one column per model in
    configuration order; the column of a model holds what that model alone
    answers on that structure (its lookup, then its [predict], an error
    entry if either raises), independent of the other models and of the
    other structures of the batch. *)
Theorem batch_record_columns
  (models : list Model) (prediction_type : option string) (idx : Z)
  (structure : StructureData) (atoms : Atoms)
  (Hnames : NoDup (map model_name models))
  (Hatoms : ase_atoms structure = Present atoms) :
  batch_record models prediction_type idx structure
  = Ok ([("index", VInt idx);
         ("structure", VStr (get_chemical_formula atoms))]
        ++ map (fun model =>
                  (model_name model,
                   batch_entry prediction_type structure model))
               models)%list.
Proof.
  unfold batch_record, structure_label. rewrite Hatoms. simpl.
  unfold ret. apply f_equal.
  rewrite fold_models_as_items.
  rewrite fold_dict_set_fresh; [reflexivity|].
  rewrite keys_app, keys_of_entries. simpl.
  destruct (reserved_not_a_model_name models) as [Hi Hs].
  constructor.
  - intros [Heq|Hin]; [discriminate|now apply Hi].
  - constructor; [exact Hs|exact Hnames].
Qed.

(** Lookups once [structure] names an object instead of the dictionary. *)
Lemma get_structure_of_object structure model :
  (forall d, structure <> SData d) ->
  _get_structure_for_model structure model
  = Raise (ValueError (not_available_message model)).
Proof.
  intros Hnd. unfold _get_structure_for_model, not_available_message.
  destruct structure as [d|a|s]; [now elim (Hnd d)| |];
    destruct model; reflexivity.
Qed.

Lemma predict_loop_unserved prediction_type d models :
  Forall (fun model =>
            exists e, _get_structure_for_model (SData d) model = Raise e)
         models ->
  forall results : PyDict,
    fold_left (predict_step prediction_type) models (SData d, results)
    = (SData d,
       fold_left (fun r kv => dict_set r (fst kv) (snd kv))
                 (map (fun model =>
                         (model_name model, batch_entry prediction_type d model))
                      models) results).
Proof.
  induction 1 as [|m models [e He] _ IH]; intros results; [reflexivity|].
  assert (Hstep : predict_step prediction_type (SData d, results) m
                  = (SData d, dict_set results (model_name m)
                                       (batch_entry prediction_type d m))).
  { unfold predict_step, batch_entry. rewrite He. reflexivity. }
  cbn [fold_left map fst snd]. rewrite Hstep. apply IH.
Qed.

Lemma predict_loop_rebound prediction_type structure models :
  (forall d, structure <> SData d) ->
  forall results : PyDict,
    fold_left (predict_step prediction_type) models (structure, results)
    = (structure,
       fold_left (fun r kv => dict_set r (fst kv) (snd kv))
                 (map (fun model =>
                         (model_name model,
                          error_entry (ValueError (not_available_message model))))
                      models) results).
Proof.
  intros Hobj. induction models as [|m models IH]; intros results;
    [reflexivity|].
  assert (Hstep : predict_step prediction_type (structure, results) m
                  = (structure,
                     dict_set results (model_name m)
                       (error_entry (ValueError (not_available_message m))))).
  { unfold predict_step.
    rewrite (get_structure_of_object structure m Hobj). reflexivity. }
  cbn [fold_left map fst snd]. rewrite Hstep. apply IH.
Qed.

(** X4.  The single-structure [predict] serves at most one model.  For
    distinct model names: the models whose lookup fails before any lookup
    has succeeded get their own missing-representation error, the first
    model whose lookup succeeds gets its prediction, and every model
    configured after it gets a "not available" error, in configuration
    order, whatever the structure dictionary holds. *)
Theorem predict_serves_only_the_first_lookup
  (pre post : list Model) (served : Model) (d : StructureData)
  (prediction_type : option string)
  (Hnames : NoDup (map model_name (pre ++ served :: post)))
  (Hpre : Forall (fun model =>
                    exists e,
                      _get_structure_for_model (SData d) model = Raise e) pre)
  (Hserved : exists s, _get_structure_for_model (SData d) served = Ok s) :
  predict (pre ++ served :: post)%list (SData d) prediction_type
  = (map (fun model => (model_name model, batch_entry prediction_type d model))
         (pre ++ [served])
     ++ map (fun model =>
               (model_name model,
                error_entry (ValueError (not_available_message model))))
            post)%list.
Proof.
  destruct Hserved as [s Hs].
  unfold predict. rewrite fold_left_app.
  pose proof (predict_loop_unserved prediction_type d pre Hpre []) as Hloop.
  unfold PyDict in Hloop |- *. rewrite Hloop. clear Hloop.
  cbn [fold_left].
  set (acc := fold_left _ _ []).
  assert (Hstep : predict_step prediction_type (SData d, acc) served
                  = (s, dict_set acc (model_name served)
                                 (batch_entry prediction_type d served))).
  { unfold predict_step, batch_entry. rewrite Hs. simpl.
    destruct (model_predict served s prediction_type); reflexivity. }
  unfold PyDict in Hstep |- *. rewrite Hstep. clear Hstep.
  pose proof (predict_loop_rebound prediction_type s post
                (get_structure_returns_object _ _ _ Hs)
                (dict_set acc (model_name served)
                          (batch_entry prediction_type d served))) as Hloop.
  unfold PyDict in Hloop |- *. rewrite Hloop. clear Hloop.
  cbn [snd]. subst acc.
  change (dict_set ?a (model_name served) ?v)
    with (fold_left (fun r kv => dict_set r (fst kv) (snd kv))
                    [(model_name served, v)] a).
  rewrite <- !fold_left_app.
  pose proof (fold_dict_set_fresh) as Hfresh. unfold PyDict in Hfresh.
  rewrite Hfresh.
  - simpl. rewrite map_app. simpl. rewrite <- app_assoc. reflexivity.
  - rewrite app_nil_l, !keys_app, !keys_of_entries. simpl.
    rewrite map_app in Hnames. exact Hnames.
Qed.

(** *** What reaches the JSON file *)

Lemma json_plain_passthrough v :
  json_plain v = true -> passthrough_plain v = true.
Proof.
  induction v as [v Hl Hd|l _|d IH] using PyValue_nested_ind; intros Hp.
  - destruct v;
      try (exfalso; eapply Hl; reflexivity);
      try (exfalso; eapply Hd; reflexivity);
      simpl in *; try reflexivity; try discriminate.
  - exact Hp.
  - simpl in *. apply forallb_snd_Forall. apply forallb_snd_Forall in Hp.
    rewrite Forall_forall in *. intros kv Hin. apply IH; auto.
Qed.

Lemma number_passthrough v : is_number v = true -> passthrough_plain v = true.
Proof. destruct v; simpl; intros H; try reflexivity; discriminate. Qed.

Lemma tolist_passthrough a : passthrough_plain (tolist a) = true.
Proof. apply json_plain_passthrough, tolist_json_plain. Qed.

Lemma corrected_energy_is_number raw pmg corrected :
  numeric_scheme -> is_number raw = true ->
  apply_mp2020_correction raw pmg = Ok corrected ->
  is_number corrected = true.
Proof.
  intros Hscheme Hraw. unfold apply_mp2020_correction.
  destruct (process_entry _) as [[c|]|e] eqn:Hp; simpl; intros [= <-]; auto.
  exact (Hscheme _ _ Hp).
Qed.

Lemma ase_body_passthrough calc structure prediction_type result :
  numeric_scheme ->
  (forall atoms v, get_total_energy calc atoms = Ok v -> is_number v = true) ->
  ase_predict_body calc structure prediction_type = Ok result ->
  Forall (fun kv => passthrough_plain (snd kv) = true) result.
Proof.
  intros Hscheme Hcalc. unfold ase_predict_body.
  destruct (set_calc structure); simpl; [|discriminate].
  assert (Hforces : forall (r : PyDict) out,
             Forall (fun kv => passthrough_plain (snd kv) = true) r ->
             (if wants "force" prediction_type
              then forces <- structure_get_forces calc structure ;;
                   ret (dict_set r "forces" (tolist forces))
              else ret r) = Ok out ->
             Forall (fun kv => passthrough_plain (snd kv) = true) out).
  { intros r out Hr. destruct (wants "force" prediction_type); simpl.
    - destruct (structure_get_forces calc structure); simpl; [|discriminate].
      intros [= <-]. apply Forall_dict_set; [exact Hr|]. apply tolist_passthrough.
    - now intros [= <-]. }
  destruct (wants "energy" prediction_type); simpl.
  - destruct (structure_get_total_energy calc structure) as [raw|] eqn:Hraw;
      simpl; [|discriminate].
    destruct (lattice_view structure) as [pmg|]; simpl; [|discriminate].
    destruct (apply_mp2020_correction raw pmg) as [c|] eqn:Hc; simpl;
      [|discriminate].
    intros H. refine (Hforces [("energy", c)] result _ H).
    repeat constructor. simpl. apply number_passthrough.
    apply (corrected_energy_is_number raw pmg c Hscheme); [|exact Hc].
    destruct structure; simpl in Hraw; try discriminate. eauto.
  - intros H. refine (Hforces [] result _ H). constructor.
Qed.

Lemma model_predict_passthrough model structure prediction_type result :
  numeric_scheme -> numeric_calculator model ->
  model_predict model structure prediction_type = Ok result ->
  Forall (fun kv => passthrough_plain (snd kv) = true) result.
Proof.
  intros Hscheme Hcalc.
  destruct model as [calc|m|calc|calc]; simpl in *.
  - now apply ase_body_passthrough.
  - unfold CHGNETModel_predict.
    destruct (chgnet_predict_structure _ _ _ _); simpl; [|discriminate].
    destruct (wants "energy" _), (wants "force" _); intros [= <-];
      repeat constructor; simpl;
      try apply tolist_passthrough; apply number_passthrough, Hcalc.
  - unfold MACEModel_predict.
    destruct (ase_predict_body _ _ _) eqn:H; simpl; [|discriminate].
    intros [= <-]. now apply ase_body_passthrough in H.
  - unfold MatterSimModel_predict.
    destruct (ase_predict_body _ _ _) eqn:H; simpl; [|discriminate].
    intros [= <-]. now apply ase_body_passthrough in H.
Qed.

Lemma batch_entry_passthrough prediction_type structure model :
  numeric_scheme -> numeric_calculator model ->
  passthrough_plain (batch_entry prediction_type structure model) = true.
Proof.
  intros Hscheme Hcalc. unfold batch_entry.
  destruct (_get_structure_for_model (SData structure) model) as [s|e]; simpl;
    [|reflexivity].
  destruct (model_predict model s prediction_type) as [r|e] eqn:Hp; simpl;
    [|reflexivity].
  apply forallb_snd_Forall.
  exact (model_predict_passthrough _ _ _ _ Hscheme Hcalc Hp).
Qed.

Lemma batch_record_passthrough models prediction_type idx structure result :
  numeric_scheme -> Forall numeric_calculator models ->
  batch_record models prediction_type idx structure = Ok result ->
  passthrough_plain (VDict result) = true.
Proof.
  intros Hscheme Hmodels. unfold batch_record.
  destruct (structure_label structure) as [formula|]; simpl; [|discriminate].
  intros [= <-]. apply forallb_snd_Forall.
  assert (Hstart : Forall (fun kv => passthrough_plain (snd kv) = true)
                          [("index", VInt idx); ("structure", VStr formula)])
    by (repeat constructor).
  revert Hstart.
  generalize [("index", VInt idx); ("structure", VStr formula)] as acc.
  induction Hmodels as [|m models Hm _ IH]; intros acc Hacc; simpl; [exact Hacc|].
  apply IH. apply Forall_dict_set; [exact Hacc|].
  simpl. now apply batch_entry_passthrough.
Qed.

(** X5.  Provided the third-party code returns numbers where an energy is
    expected (Python floats or integers, or numpy [float32], [float64],
    [int32], [int64] scalars), every record that [predict_batch] returns
    is, once passed through [serialize_results], made of plain JSON values
    only: the data [save_results] hands to the JSON encoder is encodable. *)
Theorem serialized_batch_is_plain_json
  (models : list Model) (structures : list StructureData)
  (prediction_type : option string) (unified_results : list PyDict)
  (Hscheme : forall entry e,
      process_entry entry = Ok (Some e) -> is_number e = true)
  (Hmodels : Forall numeric_calculator models)
  (Hbatch : predict_batch models structures prediction_type
            = Ok unified_results) :
  Forall (fun record => json_plain (VDict record) = true)
         (serialize_results unified_results).
Proof.
  pose proof (predict_batch_from_Forall
                (fun _ result => passthrough_plain (VDict result) = true)
                models prediction_type
                (fun idx structure result Hrec =>
                   batch_record_passthrough _ _ _ _ _ Hscheme Hmodels Hrec)
                structures 0%Z unified_results Hbatch) as Hall.
  unfold serialize_results. apply Forall_map.
  eapply Forall_impl; [|exact Hall].
  intros record [_ Hp]. rewrite <- serialize_value_dict.
  now apply serialize_value_json_plain.
Qed.

End ManagerExtras.

Import Demo Demo2.

Lemma predict_batch_one_record_per_structure_witness :
  Forall has_atoms [both_forms; both_forms] /\
  exists unified_results,
    predict_batch failing_models [both_forms; both_forms] (Some "energy")
    = Ok unified_results /\
    List.length unified_results = 2%nat.
Proof.
  assert (H : Forall has_atoms [both_forms; both_forms]).
  { repeat constructor; eexists; reflexivity. }
  split; [exact H|].
  destruct (predict_batch_one_record_per_structure
              failing_models [both_forms; both_forms] (Some "energy") H)
    as (rs & Hrs & Hlen & _).
  exists rs. split; [exact Hrs|exact Hlen].
Defined.

Lemma predict_batch_aborts_at_first_missing_label_witness :
  Forall has_atoms [both_forms] /\
  ~ has_atoms atoms_none /\
  predict_batch demo_models [both_forms; atoms_none; both_forms] None
  = Raise (no_attribute "NoneType" "get_chemical_formula").
Proof.
  assert (Hpre : Forall has_atoms [both_forms]).
  { repeat constructor; eexists; reflexivity. }
  assert (Hmissing : ~ has_atoms atoms_none).
  { intros [a Ha]. discriminate. }
  split; [exact Hpre|]. split; [exact Hmissing|].
  exact (predict_batch_aborts_at_first_missing_label
           demo_models [both_forms] [both_forms] atoms_none None
           Hpre Hmissing).
Defined.

Lemma batch_record_columns_witness :
  NoDup (map model_name failing_models) /\
  batch_record failing_models (Some "energy") 7 both_forms
  = Ok [("index", VInt 7); ("structure", VStr "Si");
        ("MACE", batch_entry (Some "energy") both_forms
                             (MACEModel failing_calc));
        ("CHGNET", batch_entry (Some "energy") both_forms
                               (CHGNETModel failing_chgnet))].
Proof.
  assert (Hnames : NoDup (map model_name failing_models)).
  { repeat constructor; simpl; intuition discriminate. }
  split; [exact Hnames|].
  exact (batch_record_columns failing_models (Some "energy") 7 both_forms
           si_atoms Hnames eq_refl).
Defined.

Lemma predict_serves_only_the_first_lookup_witness :
  NoDup (map model_name three_models) /\
  predict three_models (SData lattice_only) (Some "energy")
  = [("MACE", VDict [("error",
                      VStr "ASE Atoms not available for model MACE.")]);
     ("CHGNET", VDict [("energy", VNpFloat32 one)]);
     ("MatterSim",
      VDict [("error",
              VStr "ASE Atoms not available for model MatterSim.")])].
Proof.
  assert (Hnames : NoDup (map model_name three_models)).
  { repeat constructor; simpl; intuition discriminate. }
  split; [exact Hnames|].
  refine (predict_serves_only_the_first_lookup
            [MACEModel good_calc] [MatterSimModel good_calc]
            (CHGNETModel good_chgnet) lattice_only (Some "energy")
            Hnames _ _).
  - repeat constructor. eexists. reflexivity.
  - eexists. reflexivity.
Defined.

Lemma serialized_batch_is_plain_json_witness :
  Forall (numeric_calculator (tp := plain_tp)) demo_models /\
  exists unified_results,
    predict_batch (tp := plain_tp) demo_models [both_forms] None
    = Ok unified_results /\
    Forall (fun record => json_plain (VDict record) = true)
           (serialize_results unified_results).
Proof.
  assert (Hscheme : forall entry e,
             process_entry (ThirdParty := plain_tp) entry = Ok (Some e) ->
             is_number e = true).
  { intros entry e. simpl.
    destruct (str_in "O" (species (entry_structure entry)));
      intros [= <-]; reflexivity. }
  assert (Hmodels : Forall (numeric_calculator (tp := plain_tp)) demo_models).
  { repeat constructor; simpl; intros atoms v [= <-]; reflexivity. }
  split; [exact Hmodels|].
  eexists. split; [reflexivity|].
  exact (serialized_batch_is_plain_json (tp := plain_tp)
           demo_models [both_forms] None _ Hscheme Hmodels eq_refl).
Defined.

End ManagerExtras.

(* ================================================================== *)
(** ** Adapters: the filter, the force path, the shape of a result     *)
(* ================================================================== *)

Module AdapterExtras.
Import AdapterFacts.

Lemma prefix_spec (needle haystack : string) :
  String.prefix needle haystack = true <->
  exists post, haystack = needle ++ post.
Proof.
  revert haystack. induction needle as [|c needle IH]; intros haystack.
  - destruct haystack; simpl; split; eauto.
  - destruct haystack as [|c' haystack]; simpl.
    + split; [discriminate|intros [post [=]]].
    + destruct (Ascii.ascii_dec c c') as [->|Hne].
      * rewrite IH. split.
        -- intros [post ->]. now exists post.
        -- intros [post [= ->]]. now exists post.
      * split; [discriminate|]. intros [post [= Hc _]]. now elim Hne.
Qed.

Lemma str_contains_spec (haystack needle : string) :
  str_contains haystack needle = true <->
  exists pre post, haystack = pre ++ needle ++ post.
Proof.
  induction haystack as [|c haystack IH].
  - cbn [str_contains]. rewrite orb_false_r, prefix_spec. split.
    + intros [post H]. now exists "", post.
    + intros (pre & post & H). destruct pre; [now exists post|discriminate].
  - cbn [str_contains]. rewrite orb_true_iff, prefix_spec, IH. split.
    + intros [[post H]|(pre & post & H)].
      * now exists "", post.
      * exists (String c pre), post. simpl. now rewrite H.
    + intros (pre & post & H). destruct pre as [|c' pre].
      * left. now exists post.
      * right. simpl in H. injection H as _ H. now exists pre, post.
Qed.

Section AdapterExtras.
Context {tp : ThirdParty}.

(** X6.  The filter of every adapter's [predict]: a property [what]
    (["energy"] or ["force"]) is computed exactly when the prediction type
    is [None], is the empty string, or contains [what] somewhere inside
    it. *)
Theorem wants_iff_unset_or_substring
  (what : string) (prediction_type : option string) :
  wants what prediction_type = true <->
  prediction_type = None \/ prediction_type = Some "" \/
  exists pre post, prediction_type = Some (pre ++ what ++ post).
Proof.
  unfold wants. destruct prediction_type as [s|]; [|simpl; split; auto].
  - destruct s as [|c s]; cbn [truthy negb orb].
    + split; auto.
    + rewrite str_contains_spec. split.
      * intros (pre & post & H). right. right. exists pre, post. now rewrite H.
      * intros [H|[H|(pre & post & H)]]; try discriminate.
        injection H as H. now exists pre, post.
Qed.

Lemma ase_predict_body_forces calc atoms prediction_type result :
  wants "energy" prediction_type = false ->
  wants "force" prediction_type = true ->
  ase_predict_body calc (SAtoms atoms) prediction_type = Ok result <->
  exists forces,
    get_forces calc atoms = Ok forces /\
    result = [("forces", tolist forces)].
Proof.
  intros He Hf. unfold ase_predict_body. rewrite He, Hf. simpl.
  destruct (get_forces calc atoms) as [f|e]; simpl.
  - split.
    + intros [= <-]. now exists f.
    + now intros (f' & [= <-] & ->).
  - split; [discriminate|]. intros (f' & H & _). discriminate.
Qed.

(** X7.  Force path.  When the prediction type asks for forces and not for
    the energy, an adapter built on an ASE calculator returns a result
    exactly when the calculator's [get_forces] succeeds, and the result is
    the single key ["forces"] bound to the array as nested lists: neither
    the total energy nor the compatibility scheme is consulted.  CHGNet
    does the same with the ["f"] array of its prediction. *)
Theorem force_path_of_the_adapters
  (model : Model) (calc : AseCalculator) (atoms : Atoms)
  (prediction_type : option string) (result : PyDict)
  (Hase : model_calc model = Some calc)
  (Hno_energy : wants "energy" prediction_type = false)
  (Hforce : wants "force" prediction_type = true) :
  (model_predict model (SAtoms atoms) prediction_type = Ok result <->
   exists forces,
     get_forces calc atoms = Ok forces /\
     result = [("forces", tolist forces)])
  /\
  (forall (m : CHGNet) (s : PmgStructure) (chg_result : PyDict),
     model_predict (CHGNETModel m) (SPymatgen s) prediction_type = Ok chg_result
     <->
     exists prediction,
       predict_structure m s true true = Ok prediction /\
       chg_result = [("forces", tolist (chg_f prediction))]).
Proof.
  split.
  - rewrite (model_predict_ase model calc _ _ _ Hase).
    now apply ase_predict_body_forces.
  - intros m s chg_result. simpl. unfold CHGNETModel_predict. simpl.
    rewrite Hno_energy, Hforce.
    destruct (predict_structure m s true true) as [p|e]; simpl.
    + split.
      * intros [= <-]. now exists p.
      * now intros (p' & [= <-] & ->).
    + split; [discriminate|]. intros (p' & H & _). discriminate.
Qed.

(** X8.  With the prediction type unset ([None]) or empty, an adapter built
    on an ASE calculator returns a result exactly when the total energy,
    the conversion of the structure and the forces all succeed; the result
    then has the corrected energy under ["energy"] followed by the forces
    under ["forces"].  A failure of the energy part alone leaves no result,
    not even the forces. *)
Theorem unset_prediction_type_gives_energy_and_forces
  (model : Model) (calc : AseCalculator) (atoms : Atoms)
  (prediction_type : option string) (result : PyDict)
  (Hase : model_calc model = Some calc)
  (Hunset : prediction_type = None \/ prediction_type = Some "") :
  model_predict model (SAtoms atoms) prediction_type = Ok result <->
  exists raw_energy pmg_structure corrected_energy forces,
    get_total_energy calc atoms = Ok raw_energy /\
    Structure_new (cell atoms) (symbols atoms) (positions atoms)
      = Ok pmg_structure /\
    apply_mp2020_correction raw_energy pmg_structure = Ok corrected_energy /\
    get_forces calc atoms = Ok forces /\
    result = [("energy", corrected_energy); ("forces", tolist forces)].
Proof.
  rewrite (model_predict_ase model calc _ _ _ Hase).
  assert (Hw : forall what, wants what prediction_type = true).
  { intros what. destruct Hunset as [->| ->]; reflexivity. }
  unfold ase_predict_body. rewrite !Hw. simpl.
  destruct (get_total_energy calc atoms) as [raw|e]; simpl.
  2:{ split; [discriminate|]. intros (r & p & c & f & H & _). discriminate. }
  destruct (Structure_new _ _ _) as [pmg|e]; simpl.
  2:{ split; [discriminate|]. intros (r & p & c & f & _ & H & _). discriminate. }
  destruct (apply_mp2020_correction raw pmg) as [c|e] eqn:Hc; simpl.
  2:{ split; [discriminate|].
      intros (r & p & c & f & [= <-] & [= <-] & H & _).
      rewrite Hc in H. discriminate. }
  destruct (get_forces calc atoms) as [f|e]; simpl.
  2:{ split; [discriminate|].
      intros (r & p & c' & f & _ & _ & _ & H & _). discriminate. }
  split.
  - intros [= <-]. now exists raw, pmg, c, f.
  - intros (r & p & c' & f' & [= <-] & [= <-] & H & [= <-] & ->).
    rewrite Hc in H. now injection H as ->.
Qed.

Lemma ase_predict_body_keys calc structure prediction_type result :
  ase_predict_body calc structure prediction_type = Ok result ->
  keys result
  = ((if wants "energy" prediction_type then ["energy"] else [])
     ++ (if wants "force" prediction_type then ["forces"] else []))%list.
Proof.
  unfold ase_predict_body.
  destruct (set_calc structure); simpl; [|discriminate].
  destruct (wants "energy" prediction_type); simpl.
  - destruct (structure_get_total_energy _ _); simpl; [|discriminate].
    destruct (lattice_view _); simpl; [|discriminate].
    destruct (apply_mp2020_correction _ _); simpl; [|discriminate].
    destruct (wants "force" prediction_type); simpl.
    + destruct (structure_get_forces _ _); simpl; [|discriminate].
      now intros [= <-].
    + now intros [= <-].
  - destruct (wants "force" prediction_type); simpl.
    + destruct (structure_get_forces _ _); simpl; [|discriminate].
      now intros [= <-].
    + now intros [= <-].
Qed.

(** X9.  Whatever the adapter and the structure, a result that [predict]
    returns has no other keys than ["energy"] and ["forces"], in this
    order, and has each of them exactly when the filter asks for it. *)
Theorem prediction_result_keys
  (model : Model) (structure : PyStructure) (prediction_type : option string)
  (result : PyDict)
  (Hok : model_predict model structure prediction_type = Ok result) :
  keys result
  = ((if wants "energy" prediction_type then ["energy"] else [])
     ++ (if wants "force" prediction_type then ["forces"] else []))%list.
Proof.
  destruct model as [calc|m|calc|calc]; simpl in Hok.
  - now apply ase_predict_body_keys in Hok.
  - unfold CHGNETModel_predict in Hok.
    destruct (chgnet_predict_structure _ _ _ _); simpl in Hok; [|discriminate].
    destruct (wants "energy" _), (wants "force" _);
      injection Hok as <-; reflexivity.
  - unfold MACEModel_predict in Hok.
    destruct (ase_predict_body _ _ _) eqn:H; simpl in Hok; [|discriminate].
    injection Hok as <-. now apply ase_predict_body_keys in H.
  - unfold MatterSimModel_predict in Hok.
    destruct (ase_predict_body _ _ _) eqn:H; simpl in Hok; [|discriminate].
    injection Hok as <-. now apply ase_predict_body_keys in H.
Qed.

(** X10.  The entry a model gets in a batch record is one of three things:
    a success result; the "not available" message of a failed lookup; or
    the message of a failed prediction, which for MACE, MatterSim and
    CHGNET is the model's name, [" prediction failed: "] and the text of
    the cause, and for EqV2 the bare text of the cause. *)
Theorem batch_entry_classification
  (prediction_type : option string) (structure : StructureData)
  (model : Model) :
  (exists result,
      batch_entry prediction_type structure model = VDict result /\
      dict_get result "error" = None)
  \/ batch_entry prediction_type structure model
     = VDict [("error", VStr (not_available_message model))]
  \/ exists cause,
       batch_entry prediction_type structure model
       = VDict [("error",
                 VStr (match model with
                       | EqV2Model _ => str cause
                       | _ => model_name model ++ " prediction failed: "
                              ++ str cause
                       end))].
Proof.
  unfold batch_entry.
  destruct (_get_structure_for_model (SData structure) model) as [s|e] eqn:Hget;
    simpl.
  - destruct (model_predict model s prediction_type) as [r|e] eqn:Hp; simpl.
    + left. exists r. split; [reflexivity|].
      exact (model_predict_no_error _ _ _ _ Hp).
    + right. right.
      destruct model as [calc|m|calc|calc].
      * exists e. reflexivity.
      * destruct (wrapped_failure (CHGNETModel m) s prediction_type e)
          as [cause ->]; [discriminate|exact Hp|]. now exists cause.
      * destruct (wrapped_failure (MACEModel calc) s prediction_type e)
          as [cause ->]; [discriminate|exact Hp|]. now exists cause.
      * destruct (wrapped_failure (MatterSimModel calc) s prediction_type e)
          as [cause ->]; [discriminate|exact Hp|]. now exists cause.
  - right. left. unfold _get_structure_for_model, not_available_message in *.
    destruct model; simpl in *;
      try (destruct (ase_atoms structure); try discriminate;
           injection Hget as <-; reflexivity);
      destruct (pymatgen_structure structure); try discriminate;
      injection Hget as <-; reflexivity.
Qed.

End AdapterExtras.

Import Demo.

Lemma force_path_of_the_adapters_witness :
  model_calc (MatterSimModel good_calc) = Some good_calc /\
  wants "energy" (Some "forces") = false /\
  wants "force" (Some "forces") = true /\
  model_predict (MatterSimModel good_calc) (SAtoms si_atoms) (Some "forces")
  = Ok [("forces", VList [VList [VFloat zero; VFloat zero; VFloat zero]])].
Proof.
  split; [reflexivity|]. split; [reflexivity|]. split; [reflexivity|].
  apply (proj2 (proj1 (force_path_of_the_adapters
                         (MatterSimModel good_calc) good_calc si_atoms
                         (Some "forces") _ eq_refl eq_refl eq_refl))).
  eexists. split; reflexivity.
Defined.

Lemma unset_prediction_type_gives_energy_and_forces_witness :
  (@None string = None \/ @None string = Some "") /\
  model_predict (EqV2Model good_calc) (SAtoms si_atoms) None
  = Ok [("energy", VFloat two);
        ("forces", VList [VList [VFloat zero; VFloat zero; VFloat zero]])].
Proof.
  split; [now left|].
  apply (proj2 (unset_prediction_type_gives_energy_and_forces
                  (EqV2Model good_calc) good_calc si_atoms None _
                  eq_refl (or_introl eq_refl))).
  exists (VFloat one), si_structure, (VFloat two).
  eexists. repeat split; reflexivity.
Defined.

Lemma prediction_result_keys_witness :
  model_predict (CHGNETModel good_chgnet) (SPymatgen si_structure)
                (Some "energy and force")
  = Ok [("energy", VNpFloat32 one);
        ("forces", VList [VList [VFloat zero; VFloat zero; VFloat zero]])] /\
  keys [("energy", VNpFloat32 one);
        ("forces", VList [VList [VFloat zero; VFloat zero; VFloat zero]])]
  = ["energy"; "forces"].
Proof.
  split; [reflexivity|].
  exact (prediction_result_keys (CHGNETModel good_chgnet)
           (SPymatgen si_structure) (Some "energy and force") _ eq_refl).
Defined.

End AdapterExtras.

(* ================================================================== *)
(** ** Batch methods of the adapters: proofs                           *)
(* ================================================================== *)

Module BatchExtras.
Import SerializerFacts AdapterFacts AdapterExtras.

Lemma enumerate_append_length {A} (body : Z -> A -> Result PyDict) structures :
  forall idx,
    List.length (enumerate_append body idx structures) = List.length structures.
Proof.
  induction structures as [|s structures IH]; intros idx; simpl; auto.
Qed.

Lemma enumerate_append_nth {A} (body : Z -> A -> Result PyDict) structures :
  forall idx i structure,
    nth_error structures i = Some structure ->
    nth_error (enumerate_append body idx structures) i
    = Some (match body (idx + Z.of_nat i)%Z structure with
            | Ok entry => entry
            | Raise e => index_error (idx + Z.of_nat i) e
            end).
Proof.
  induction structures as [|s structures IH]; intros idx [|i] structure; simpl;
    try discriminate.
  - intros [= <-]. now rewrite Z.add_0_r.
  - intros Hi. rewrite (IH (idx + 1)%Z i structure Hi).
    now replace (idx + 1 + Z.of_nat i)%Z
          with (idx + Z.pos (Pos.of_succ_nat i))%Z by lia.
Qed.

Section BatchExtras.
Context {tp : ThirdParty}.

Lemma unset_result_shape model structure result :
  model_predict model structure None = Ok result ->
  exists energy forces, result = [("energy", energy); ("forces", forces)].
Proof.
  intros H.
  assert (Hk : keys result = ["energy"; "forces"]).
  { destruct model as [calc|m|calc|calc]; simpl in H.
    - now apply ase_predict_body_keys in H.
    - unfold CHGNETModel_predict in H.
      destruct (chgnet_predict_structure _ _ _ _); simpl in H; [|discriminate].
      now injection H as <-.
    - unfold MACEModel_predict in H.
      destruct (ase_predict_body _ _ _) eqn:Hb; simpl in H; [|discriminate].
      injection H as <-. now apply ase_predict_body_keys in Hb.
    - unfold MatterSimModel_predict in H.
      destruct (ase_predict_body _ _ _) eqn:Hb; simpl in H; [|discriminate].
      injection H as <-. now apply ase_predict_body_keys in Hb. }
  destruct result as [|[k1 v1] [|[k2 v2] [|]]]; try discriminate.
  injection Hk as -> ->. now exists v1, v2.
Qed.

Lemma mace_item calc i structure :
  match (result <- MACEModel_predict calc structure None ;;
         ret (with_index (Z.of_nat i) result)) with
  | Ok entry => entry
  | Raise e => index_error (Z.of_nat i) e
  end = indexed i (MACEModel_predict calc structure None).
Proof.
  destruct (MACEModel_predict calc structure None) as [r|e] eqn:Hp; simpl;
    [|reflexivity].
  destruct (unset_result_shape (MACEModel calc) structure r Hp)
    as (en & f & ->).
  reflexivity.
Qed.

Lemma mattersim_item calc i structure :
  match (result <- MatterSimModel_predict calc structure None ;;
         ret (with_index (Z.of_nat i) result)) with
  | Ok entry => entry
  | Raise e => index_error (Z.of_nat i) e
  end = indexed i (MatterSimModel_predict calc structure None).
Proof.
  destruct (MatterSimModel_predict calc structure None) as [r|e] eqn:Hp; simpl;
    [|reflexivity].
  destruct (unset_result_shape (MatterSimModel calc) structure r Hp)
    as (en & f & ->).
  reflexivity.
Qed.

Lemma eqv2_item calc i structure :
  match (result <- EqV2Model_predict calc structure None ;;
         energy <- dict_item result "energy" ;;
         forces <- dict_item result "forces" ;;
         ret [("index", VInt (Z.of_nat i)); ("energy", energy);
              ("forces", forces)]) with
  | Ok entry => entry
  | Raise e => index_error (Z.of_nat i) e
  end = indexed i (EqV2Model_predict calc structure None).
Proof.
  destruct (EqV2Model_predict calc structure None) as [r|e] eqn:Hp; simpl;
    [|reflexivity].
  destruct (unset_result_shape (EqV2Model calc) structure r Hp)
    as (en & f & ->).
  reflexivity.
Qed.

(** X11.  The batch methods of the MACE, MatterSim and EqV2 adapters return
    one item per structure, in order, and never raise.  The item at
    position [i] depends on the [i]-th structure only: it is ["index"] [i]
    followed by the energy and the forces of the adapter's [predict] with
    no filter, or ["index"] [i] and ["error"] with the text of what
    [predict] raised.  EqV2's explicit lookups of ["energy"] and
    ["forces"] never fail. *)
Theorem adapter_batches_are_itemwise
  (calc : AseCalculator) (structures : list PyStructure) :
  List.length (MACEModel_predict_batch calc structures)
    = List.length structures /\
  List.length (MatterSimModel_predict_batch calc structures)
    = List.length structures /\
  List.length (EqV2Model_predict_batch calc structures)
    = List.length structures /\
  forall i structure,
    nth_error structures i = Some structure ->
    nth_error (MACEModel_predict_batch calc structures) i
      = Some (indexed i (MACEModel_predict calc structure None)) /\
    nth_error (MatterSimModel_predict_batch calc structures) i
      = Some (indexed i (MatterSimModel_predict calc structure None)) /\
    nth_error (EqV2Model_predict_batch calc structures) i
      = Some (indexed i (EqV2Model_predict calc structure None)).
Proof.
  unfold MACEModel_predict_batch, MatterSimModel_predict_batch,
    EqV2Model_predict_batch.
  rewrite !enumerate_append_length. repeat split; try reflexivity.
  - rewrite (enumerate_append_nth _ structures 0%Z i structure H).
    f_equal. apply mace_item.
  - rewrite (enumerate_append_nth _ structures 0%Z i structure H).
    f_equal. apply mattersim_item.
  - rewrite (enumerate_append_nth _ structures 0%Z i structure H).
    f_equal. apply eqv2_item.
Qed.

(** X12.  [CHGNETModel.predict_batch], as the class defines it last, never
    reaches the network: for every structure the item is ["index"] [i] and
    the ["error"] of a [NameError] on [return_site_energies], whatever the
    model and the structures are. *)
Theorem chgnet_batch_is_all_errors
  (model : CHGNet) (structures : list PyStructure) :
  List.length (CHGNETModel_predict_batch model structures)
    = List.length structures /\
  forall i structure,
    nth_error structures i = Some structure ->
    nth_error (CHGNETModel_predict_batch model structures) i
    = Some [("index", VInt (Z.of_nat i));
            ("error", VStr "name 'return_site_energies' is not defined")].
Proof.
  unfold CHGNETModel_predict_batch. rewrite enumerate_append_length.
  split; [reflexivity|]. intros i structure Hi.
  rewrite (enumerate_append_nth _ structures 0%Z i structure Hi). reflexivity.
Qed.

End BatchExtras.

Import Demo.

Lemma adapter_batches_are_itemwise_witness :
  nth_error [SAtoms si_atoms; SAtoms si_atoms] 1 = Some (SAtoms si_atoms) /\
  nth_error (MACEModel_predict_batch failing_calc
               [SAtoms si_atoms; SAtoms si_atoms]) 1
  = Some [("index", VInt 1);
          ("error", VStr "MACE prediction failed: element not supported")].
Proof.
  split; [reflexivity|].
  exact (proj1 (proj2 (proj2 (proj2
           (adapter_batches_are_itemwise failing_calc
              [SAtoms si_atoms; SAtoms si_atoms])))
           1%nat (SAtoms si_atoms) eq_refl)).
Defined.

Lemma chgnet_batch_is_all_errors_witness :
  nth_error [SPymatgen si_structure; SPymatgen xx_structure] 1
    = Some (SPymatgen xx_structure) /\
  nth_error (CHGNETModel_predict_batch good_chgnet
               [SPymatgen si_structure; SPymatgen xx_structure]) 1
  = Some [("index", VInt 1);
          ("error", VStr "name 'return_site_energies' is not defined")].
Proof.
  split; [reflexivity|].
  exact (proj2 (chgnet_batch_is_all_errors good_chgnet
                  [SPymatgen si_structure; SPymatgen xx_structure])
               1%nat (SPymatgen xx_structure) eq_refl).
Defined.

End BatchExtras.

(* ================================================================== *)
(** ** Building the ensemble: proofs                                   *)
(* ================================================================== *)

Module ConstructionExtras.

Lemma streams_eta (io : Streams) :
  mkStreams (sys_stdout io) (sys_stderr io) = io.
Proof. now destruct io. Qed.

Lemma bind_kwargs_unexpected cls required defaulted params key :
  In key (keys params) ->
  ~ In key (required ++ defaulted)%list ->
  exists e,
    bind_kwargs cls required defaulted params = Raise e /\
    exc_type e = "TypeError".
Proof.
  intros Hin Hout. unfold bind_kwargs.
  destruct (find _ (keys params)) as [k|] eqn:Hfind.
  - eexists. split; reflexivity.
  - exfalso. pose proof (find_none _ _ Hfind key Hin) as Hk. simpl in Hk.
    apply negb_false_iff, existsb_exists in Hk as (x & Hx & Heq).
    apply String.eqb_eq in Heq. subst x. now apply Hout.
Qed.

Section ConstructionExtras.
Context {ld : Loaders}.

Lemma suppress_output_restores {A} (body : IO A) (io : Streams) :
  snd (_suppress_output body io) = io.
Proof.
  unfold _suppress_output. destruct open_devnull as [devnull|e]; [|reflexivity].
  destruct (body (mkStreams devnull devnull)) as [outcome io']. simpl.
  apply streams_eta.
Qed.

Lemma io_bind_ret_snd {A B} (c : IO A) (f : A -> B) (io : Streams) :
  snd (io_bind c (fun a => io_ret (f a)) io) = snd (c io).
Proof.
  unfold io_bind, io_ret. destruct (c io) as [[a|e] io']; reflexivity.
Qed.

Lemma quiet_constructors_restore params io :
  snd (MACEModel_init params io) = io /\
  snd (EqV2Model_init params io) = io /\
  snd (CHGNETModel_init params io) = io.
Proof.
  unfold MACEModel_init, EqV2Model_init, CHGNETModel_init.
  repeat split;
    match goal with
    | |- context [bind_kwargs ?c ?r ?d ?p] => destruct (bind_kwargs c r d p)
    end; try reflexivity;
    rewrite io_bind_ret_snd; apply suppress_output_restores.
Qed.

Lemma construct_restores config io :
  config_name config <> Some "MatterSim" ->
  snd (construct config io) = io.
Proof.
  intros Hname. unfold construct.
  destruct (quiet_constructors_restore (params_of config) io) as (H1 & H2 & H3).
  destruct (name_is (config_name config) "EqV2"); [exact H2|].
  destruct (name_is (config_name config) "CHGNET"); [exact H3|].
  destruct (name_is (config_name config) "MACE"); [exact H1|].
  destruct (name_is (config_name config) "MatterSim") eqn:Hm; [|reflexivity].
  exfalso. apply Hname. unfold name_is in Hm.
  destruct (config_name config) as [s|]; [|discriminate].
  apply String.eqb_eq in Hm. now subst.
Qed.

(** X13.  Building an ensemble that has no MatterSim entry leaves
    [sys.stdout] and [sys.stderr] bound to what they were bound to before,
    whether [_initialize_models] returns the models or raises, and
    whatever the loaders do to the streams while they run: each of the
    MACE, EqV2 and CHGNET constructors loads under [_suppress_output],
    whose [finally] clause restores both streams. *)
Theorem initialize_models_restores_streams
  (model_configs : list Config) (io : Streams)
  (Hquiet : Forall (fun config => config_name config <> Some "MatterSim")
                   model_configs) :
  snd (_initialize_models model_configs io) = io.
Proof.
  revert io. induction Hquiet as [|config rest Hc _ IH]; intros io; simpl.
  - reflexivity.
  - unfold io_bind at 1.
    pose proof (construct_restores config io Hc) as Hs.
    destruct (construct config io) as [[model|e] io']; simpl in Hs; subst io';
      [|reflexivity].
    rewrite io_bind_ret_snd. apply IH.
Qed.

Lemma construct_name config io model io' :
  construct config io = (Ok model, io') ->
  config_name config = Some (model_name model).
Proof.
  unfold construct, name_is.
  destruct (config_name config) as [s|]; simpl.
  - destruct (String.eqb_spec s "EqV2") as [->|_].
    { unfold EqV2Model_init. destruct (bind_kwargs _ _ _ _); [|discriminate].
      unfold io_bind, io_ret. destruct (_suppress_output _ io) as [[c|e] io2];
        [|discriminate]. now intros [= <- _]. }
    destruct (String.eqb_spec s "CHGNET") as [->|_].
    { unfold CHGNETModel_init. destruct (bind_kwargs _ _ _ _); [|discriminate].
      unfold io_bind, io_ret. destruct (_suppress_output _ io) as [[c|e] io2];
        [|discriminate]. now intros [= <- _]. }
    destruct (String.eqb_spec s "MACE") as [->|_].
    { unfold MACEModel_init. destruct (bind_kwargs _ _ _ _); [|discriminate].
      unfold io_bind, io_ret. destruct (_suppress_output _ io) as [[c|e] io2];
        [|discriminate]. now intros [= <- _]. }
    destruct (String.eqb_spec s "MatterSim") as [->|_].
    { unfold MatterSimModel_init. destruct (bind_kwargs _ _ _ _); [|discriminate].
      unfold io_bind, io_ret.
      destruct (MatterSimCalculator _ _ io) as [[c|e] io2];
        [|discriminate]. now intros [= <- _]. }
    discriminate.
  - discriminate.
Qed.

(** X14.  When [_initialize_models] returns, it returns one adapter per
    configuration entry, in the order of the list, and the adapter at each
    position carries the name its entry asked for. *)
Theorem initialize_models_keeps_order
  (model_configs : list Config) (io io' : Streams) (models : list Model)
  (Hbuilt : _initialize_models model_configs io = (Ok models, io')) :
  map (fun model => Some (model_name model)) models
  = map config_name model_configs.
Proof.
  revert io io' models Hbuilt.
  induction model_configs as [|config rest IH]; intros io io' models; simpl.
  - unfold io_ret. now intros [= <- _].
  - unfold io_bind at 1.
    destruct (construct config io) as [[model|e] io1] eqn:Hc; [|discriminate].
    unfold io_bind at 1.
    destruct (_initialize_models rest io1) as [[ms|e] io2] eqn:Hr;
      [|discriminate].
    unfold io_ret. intros [= <- _]. simpl.
    rewrite (IH _ _ _ Hr), (construct_name _ _ _ _ Hc). reflexivity.
Qed.

Lemma initialize_models_app pre rest io :
  _initialize_models (pre ++ rest) io
  = match _initialize_models pre io with
    | (Ok models, io1) =>
        match _initialize_models rest io1 with
        | (Ok models', io2) => (Ok (models ++ models')%list, io2)
        | (Raise e, io2) => (Raise e, io2)
        end
    | (Raise e, io1) => (Raise e, io1)
    end.
Proof.
  revert io. induction pre as [|config pre IH]; intros io; simpl.
  - unfold io_ret. destruct (_initialize_models rest io) as [[ms|e] io2];
      reflexivity.
  - unfold io_bind, io_ret.
    destruct (construct config io) as [[model|e] io1]; [|reflexivity].
    rewrite IH.
    destruct (_initialize_models pre io1) as [[ms|e] io2]; [|reflexivity].
    destruct (_initialize_models rest io2) as [[ms'|e] io3]; reflexivity.
Qed.

(** X15.  An entry whose name is none of ["EqV2"], ["CHGNET"], ["MACE"],
    ["MatterSim"] (or that has no name) stops [_initialize_models] with a
    [ValueError] naming it, once the entries before it have been built;
    the entries after it play no role, and the models already built are
    not returned. *)
Theorem initialize_models_fails_fast
  (pre post : list Config) (bad : Config) (io io' : Streams)
  (models : list Model)
  (Hpre : _initialize_models pre io = (Ok models, io'))
  (Hbad : forall name, In name supported_names ->
                       config_name bad <> Some name) :
  _initialize_models (pre ++ bad :: post) io
  = (Raise (ValueError ("Unsupported model name: "
                        ++ show_name (config_name bad))), io').
Proof.
  rewrite initialize_models_app, Hpre. simpl. unfold io_bind at 1.
  assert (Hc : construct bad io'
               = (Raise (ValueError ("Unsupported model name: "
                                     ++ show_name (config_name bad))), io')).
  { unfold construct, name_is.
    destruct (config_name bad) as [s|]; [|reflexivity].
    assert (H : forall name, In name supported_names -> String.eqb s name = false).
    { intros name Hin. apply String.eqb_neq. intros ->.
      now apply (Hbad name Hin). }
    rewrite !H by (simpl; auto). reflexivity. }
  rewrite Hc. reflexivity.
Qed.

(** X16.  A parameter key that the constructor behind the model name does
    not declare makes the construction raise a [TypeError] before anything
    is loaded: the streams are untouched and no loader is run. *)
Theorem unknown_parameter_is_refused
  (model_name : string) (params : PyDict) (key : string) (io : Streams)
  (Hname : In model_name supported_names)
  (Hkey : In key (keys params))
  (Hunknown : ~ In key (signature_of model_name)) :
  exists e,
    construct (mkConfig (Some model_name) (Some params)) io = (Raise e, io) /\
    exc_type e = "TypeError".
Proof.
  simpl in Hname.
  destruct Hname as [<-|[<-|[<-|[<-|[]]]]]; simpl in Hunknown.
  - change (construct (mkConfig (Some "EqV2") (Some params)) io)
      with (EqV2Model_init params io).
    unfold EqV2Model_init.
    destruct (bind_kwargs_unexpected "EqV2Model" ["pretrained_path"]
                ["model_version"; "use_cpu"; "seed"] params key Hkey Hunknown)
      as (e & -> & He). now exists e.
  - change (construct (mkConfig (Some "CHGNET") (Some params)) io)
      with (CHGNETModel_init params io).
    unfold CHGNETModel_init.
    destruct (bind_kwargs_unexpected "CHGNETModel" [] [] params key Hkey Hunknown)
      as (e & -> & He). now exists e.
  - change (construct (mkConfig (Some "MACE") (Some params)) io)
      with (MACEModel_init params io).
    unfold MACEModel_init.
    destruct (bind_kwargs_unexpected "MACEModel" []
                ["model"; "dispersion"; "default_dtype"; "device"]
                params key Hkey Hunknown)
      as (e & -> & He). now exists e.
  - change (construct (mkConfig (Some "MatterSim") (Some params)) io)
      with (MatterSimModel_init params io).
    unfold MatterSimModel_init.
    destruct (bind_kwargs_unexpected "MatterSimModel" []
                ["load_path"; "device"] params key Hkey Hunknown)
      as (e & -> & He). now exists e.
Qed.

End ConstructionExtras.

Import Demo Demo2.

Lemma initialize_models_restores_streams_witness :
  Forall (fun config => config_name config <> Some "MatterSim")
         [mkConfig (Some "MACE") None; mkConfig (Some "M3GNet") None] /\
  snd (_initialize_models
         [mkConfig (Some "MACE") None; mkConfig (Some "M3GNet") None] terminal)
  = terminal.
Proof.
  assert (H : Forall (fun config => config_name config <> Some "MatterSim")
                [mkConfig (Some "MACE") None; mkConfig (Some "M3GNet") None]).
  { repeat constructor; discriminate. }
  split; [exact H|].
  exact (initialize_models_restores_streams _ terminal H).
Defined.

Lemma initialize_models_keeps_order_witness :
  _initialize_models model_configs terminal
  = (Ok [MACEModel good_calc; EqV2Model good_calc; CHGNETModel good_chgnet;
         MatterSimModel good_calc], terminal) /\
  map (fun model => Some (model_name model))
      [MACEModel good_calc; EqV2Model good_calc; CHGNETModel good_chgnet;
       MatterSimModel good_calc]
  = map config_name model_configs.
Proof.
  split; [reflexivity|].
  exact (initialize_models_keeps_order model_configs terminal terminal _ eq_refl).
Defined.

Lemma initialize_models_fails_fast_witness :
  _initialize_models [mkConfig (Some "MACE") None] terminal
  = (Ok [MACEModel good_calc], terminal) /\
  (forall name, In name supported_names ->
                config_name (mkConfig (Some "mace") None) <> Some name) /\
  _initialize_models
    [mkConfig (Some "MACE") None; mkConfig (Some "mace") None;
     mkConfig (Some "CHGNET") None] terminal
  = (Raise (ValueError "Unsupported model name: mace"), terminal).
Proof.
  assert (Hbad : forall name, In name supported_names ->
                   config_name (mkConfig (Some "mace") None) <> Some name).
  { intros name Hin. simpl in Hin.
    destruct Hin as [<-|[<-|[<-|[<-|[]]]]]; discriminate. }
  split; [reflexivity|]. split; [exact Hbad|].
  exact (initialize_models_fails_fast
           [mkConfig (Some "MACE") None] [mkConfig (Some "CHGNET") None]
           (mkConfig (Some "mace") None) terminal terminal
           [MACEModel good_calc] eq_refl Hbad).
Defined.

Lemma unknown_parameter_is_refused_witness :
  In "CHGNET" supported_names /\
  In "device" (keys [("device", VStr "cpu")]) /\
  ~ In "device" (signature_of "CHGNET") /\
  exists e,
    construct (mkConfig (Some "CHGNET") (Some [("device", VStr "cpu")])) terminal
    = (Raise e, terminal) /\
    exc_type e = "TypeError".
Proof.
  assert (Hname : In "CHGNET" supported_names) by (simpl; auto).
  assert (Hkey : In "device" (keys [("device", VStr "cpu")])) by (simpl; auto).
  assert (Hunknown : ~ In "device" (signature_of "CHGNET")) by (intros []).
  split; [exact Hname|]. split; [exact Hkey|]. split; [exact Hunknown|].
  exact (unknown_parameter_is_refused "CHGNET" [("device", VStr "cpu")]
           "device" terminal Hname Hkey Hunknown).
Defined.

End ConstructionExtras.

(* ================================================================== *)
(** ** Conversion and formation energies: proofs                       *)
(* ================================================================== *)

Module UtilsExtras.



Section Conversion.
Context {tp : ThirdParty}.

(** X17.  [ase_to_pymatgen] returns a structure exactly when the conversion
    written out in the adapters' [predict] (and in the trajectory loader)
    does, and then the same one: the helper and the inline code give the
    pymatgen constructor the same cell, symbols and positions.  When the
    constructor refuses them, the helper raises a [ValueError] whose text
    is ["Failed to convert ASE Atoms to pymatgen Structure: "] followed by
    the text of the cause, where the inline code lets the cause through. *)
Theorem ase_to_pymatgen_agrees_with_the_adapters (atoms : Atoms) :
  (forall s, ase_to_pymatgen atoms = Ok s <-> lattice_view (SAtoms atoms) = Ok s)
  /\
  (forall e, ase_to_pymatgen atoms = Raise e <->
             exists cause,
               lattice_view (SAtoms atoms) = Raise cause /\
               e = ValueError
                     ("Failed to convert ASE Atoms to pymatgen Structure: "
                      ++ str cause)).
Proof.
  unfold ase_to_pymatgen, lattice_view.
  destruct (Structure_new _ _ _) as [s'|cause]; simpl.
  - split.
    + intros s. tauto.
    + intros e. split; [discriminate|]. intros (c & H & _). discriminate.
  - split.
    + intros s. split; discriminate.
    + intros e. split.
      * intros [= <-]. exists cause. split; reflexivity.
      * intros (c & [= <-] & ->). reflexivity.
Qed.

End Conversion.

Section FormationEnergy.
Context {bi : Builtins}.

Hypothesis mul_total : forall x y, exists z, py_mul x y = Ok z.
Hypothesis add_total : forall x y, exists z, py_add x y = Ok z.
Hypothesis sub_total : forall x y, exists z, py_sub x y = Ok z.





End FormationEnergy.

Section Dataset.
Context {bi : Builtins}.

Lemma correct_entry_spec chemical_potentials entry out :
  correct_entry chemical_potentials entry = Ok out ->
  (exists atoms, dict_get entry "ase_atoms" = Some (DAtoms atoms)) /\
  (exists energy, dict_get entry "true_energy" = Some energy) /\
  (exists v, dict_get out "formation_energy" = Some (DValue v)) /\
  (forall key, key <> "formation_energy" ->
               dict_get out key = dict_get entry key).
Proof.
  unfold correct_entry, entry_item.
  destruct (dict_get entry "ase_atoms") as [a|] eqn:Ha; simpl; [|discriminate].
  destruct (dict_get entry "true_energy") as [t|] eqn:Ht; simpl; [|discriminate].
  destruct a as [atoms|s|x]; simpl; try discriminate.
  destruct (calculate_formation_energy _ _ _) as [f|]; simpl; [|discriminate].
  intros [= <-]. repeat split; eauto.
  - exists f. rewrite dict_get_dict_set, String.eqb_refl. reflexivity.
  - intros key Hkey. rewrite dict_get_dict_set.
    destruct (String.eqb_spec "formation_energy" key); [congruence|reflexivity].
Qed.

(** X19.  When [correct_dataset_to_formation_energy] returns, it returns
    one entry per input entry, in order; each is the input entry with
    ["formation_energy"] bound to a value and every other key bound to
    what it was bound to; and every input entry had an [Atoms] object under
    ["ase_atoms"] and an energy under ["true_energy"]. *)
Theorem corrected_dataset_extends_every_entry
  (dataset corrected_data : list DataEntry) (chemical_potentials : PyDict)
  (Hok : correct_dataset_to_formation_energy dataset chemical_potentials
         = Ok corrected_data) :
  Forall2 (fun entry out =>
             (exists atoms, dict_get entry "ase_atoms" = Some (DAtoms atoms)) /\
             (exists energy, dict_get entry "true_energy" = Some energy) /\
             (exists v, dict_get out "formation_energy" = Some (DValue v)) /\
             (forall key, key <> "formation_energy" ->
                          dict_get out key = dict_get entry key))
          dataset corrected_data.
Proof.
  revert corrected_data Hok.
  induction dataset as [|entry dataset IH]; intros corrected_data; simpl.
  - intros [= <-]. constructor.
  - destruct (correct_entry chemical_potentials entry) as [out|] eqn:He;
      simpl; [|discriminate].
    destruct (correct_dataset_to_formation_energy dataset chemical_potentials)
      as [outs|]; simpl; [|discriminate].
    intros [= <-]. constructor; [|now apply IH].
    exact (correct_entry_spec _ _ _ He).
Qed.

End Dataset.

Import Demo Demo2.

Lemma ase_to_pymatgen_agrees_with_the_adapters_witness :
  lattice_view (SAtoms odd_atoms)
  = Raise (mkExc "StructureError" "species and coords differ in length") /\
  ase_to_pymatgen odd_atoms
  = Raise (ValueError
             "Failed to convert ASE Atoms to pymatgen Structure: species and coords differ in length").
Proof.
  assert (H : lattice_view (SAtoms odd_atoms)
              = Raise (mkExc "StructureError"
                             "species and coords differ in length"))
    by reflexivity.
  split; [exact H|].
  apply (proj2 (proj2 (ase_to_pymatgen_agrees_with_the_adapters odd_atoms) _)).
  eexists. split; [exact H|reflexivity].
Defined.


Lemma corrected_dataset_extends_every_entry_witness :
  exists corrected_data,
    correct_dataset_to_formation_energy (bi := total_bi)
      [[("ase_atoms", DAtoms water); ("true_energy", DValue (VInt 10));
        ("file", DValue (VStr "w.traj"))]]
      [("H", VInt 3); ("O", VInt 1)]
    = Ok corrected_data /\
    List.length corrected_data = 1%nat.
Proof.
  eexists. split; [reflexivity|].
  exact (eq_sym
           (Forall2_length
              (corrected_dataset_extends_every_entry (bi := total_bi)
                 [[("ase_atoms", DAtoms water);
                   ("true_energy", DValue (VInt 10));
                   ("file", DValue (VStr "w.traj"))]]
                 _ [("H", VInt 3); ("O", VInt 1)] eq_refl))).
Defined.

End UtilsExtras.

(* ================================================================== *)
(** ** Input parser: proofs                                            *)
(* ================================================================== *)

Module ParserExtras.
Import ManagerFacts ManagerExtras.





Example poscar_in_a_directory :
  file_extension_of "POSCAR" = "poscar" /\
  file_extension_of "run1/POSCAR" = "run1/poscar" /\
  str_in (file_extension_of "run1/POSCAR") supported_formats = false.
Proof. repeat split; reflexivity. Qed.

Section ParserExtras.
Context {tp : ThirdParty} {fs : FileSystem}.

(** X21.  [get_model_input] knows four lower-case names: ["m3gnet"] gets
    the pymatgen structure and ["mattersim"], ["eqv2"], ["mace"] get the
    [Atoms] object.  Every name under which the Ensemble Manager registers
    an adapter (["EqV2"], ["CHGNET"], ["MACE"], ["MatterSim"]) is refused
    with ["Unsupported model: <name>"]. *)
Theorem get_model_input_names
  (pymatgen_structure : PmgStructure) (ase_atoms : Atoms) :
  (forall model,
      get_model_input pymatgen_structure ase_atoms (model_name model)
      = Raise (ValueError ("Unsupported model: " ++ model_name model)))
  /\
  (forall name model_input,
      get_model_input pymatgen_structure ase_atoms name = Ok model_input <->
      (name = "m3gnet" /\ model_input = SPymatgen pymatgen_structure) \/
      ((name = "mattersim" \/ name = "eqv2" \/ name = "mace") /\
       model_input = SAtoms ase_atoms)).
Proof.
  split.
  - intros model. destruct model; reflexivity.
  - intros name model_input. unfold get_model_input. cbn [dict_get].
    destruct (String.eqb_spec "m3gnet" name) as [<-|H1].
    { split.
      - intros [= <-]. now left.
      - intros [[_ ->]|[[H|[H|H]] _]]; [reflexivity|discriminate..]. }
    destruct (String.eqb_spec "mattersim" name) as [<-|H2].
    { split.
      - intros [= <-]. right. auto.
      - intros [[H _]|[_ ->]]; [discriminate|reflexivity]. }
    destruct (String.eqb_spec "eqv2" name) as [<-|H3].
    { split.
      - intros [= <-]. right. auto.
      - intros [[H _]|[_ ->]]; [discriminate|reflexivity]. }
    destruct (String.eqb_spec "mace" name) as [<-|H4].
    { split.
      - intros [= <-]. right. auto.
      - intros [[H _]|[_ ->]]; [discriminate|reflexivity]. }
    split; [discriminate|].
    intros [[H _]|[[H|[H|H]] _]]; congruence.
Qed.

Lemma parse_file_ok file_path s a :
  _parse_file file_path = Ok (s, a) <->
  path_exists file_path = true /\
  str_in (file_extension_of file_path) supported_formats = true /\
  ase_read file_path = Ok a /\
  get_structure a = Ok s.
Proof.
  unfold _parse_file.
  destruct (path_exists file_path); cbn [negb].
  2:{ split; [discriminate|]. intros [H _]. discriminate. }
  destruct (str_in (file_extension_of file_path) supported_formats); cbn [negb].
  2:{ split; [discriminate|]. intros (_ & H & _). discriminate. }
  destruct (ase_read file_path) as [a'|e]; cbn [bind].
  2:{ split; [discriminate|]. intros (_ & _ & H & _). discriminate. }
  destruct (get_structure a') as [s'|e] eqn:Hs; cbn [bind ret].
  2:{ split; [discriminate|]. intros (_ & _ & [= <-] & H).
      rewrite H in Hs. discriminate. }
  split.
  - intros [= <- <-]. auto.
  - intros (_ & _ & [= <-] & H). rewrite H in Hs. now injection Hs as ->.
Qed.

Lemma parse_files_spec all_files :
  Forall (well_parsed all_files) (parse_files all_files) /\
  (List.length (parse_files all_files) <= List.length all_files)%nat.
Proof.
  assert (H : forall files,
             (forall p, In p files -> In p all_files) ->
             Forall (well_parsed all_files) (parse_files files) /\
             (List.length (parse_files files) <= List.length files)%nat).
  { induction files as [|p files IH]; intros Hsub; simpl.
    - split; [constructor|lia].
    - destruct IH as [IH1 IH2]; [intros q Hq; apply Hsub; now right|].
      destruct (_parse_file p) as [[s a]|e] eqn:Hp.
      + split; [|simpl; lia]. constructor; [|exact IH1].
        apply parse_file_ok in Hp as (H1 & H2 & H3 & H4).
        exists p, s, a. repeat split; auto. apply Hsub. now left.
      + split; [exact IH1|lia]. }
  apply H. auto.
Qed.

(** X22.  For an existing directory [batch_parse] never raises, whatever
    the files hold.  Every entry it returns comes from a file collected by
    the walk that exists, has one of the extensions [cif], [xyz],
    [poscar], [vasp] (whatever list of extensions the caller passed), was
    read by ASE, and whose pymatgen structure was converted from that very
    [Atoms] object; files that fail any of these are left out, so there
    are at most as many entries as collected files. *)
Theorem batch_parse_keeps_only_parsed_files
  (directory_path : string) (file_extensions : option (list string))
  (Hdir : path_exists directory_path = true) :
  let all_files := matching_files directory_path
                     match file_extensions with
                     | None => supported_formats
                     | Some l => l
                     end in
  exists parsed_structures,
    batch_parse directory_path file_extensions = Ok parsed_structures /\
    Forall (well_parsed all_files) parsed_structures /\
    (List.length parsed_structures <= List.length all_files)%nat.
Proof.
  intros all_files. unfold batch_parse. rewrite Hdir. simpl.
  eexists. split; [reflexivity|]. apply parse_files_spec.
Qed.

Lemma parsed_entry_view file_path s a :
  structure_data_of (parsed_entry file_path s a)
  = Some (mkStructureData (Present a) (Present s)).
Proof. reflexivity. Qed.

Lemma parse_files_view all_files :
  exists structures,
    structure_data_list (parse_files all_files) = Some structures /\
    List.length structures = List.length (parse_files all_files) /\
    Forall (fun d => has_atoms d /\
                     exists s, pymatgen_structure d = Present s) structures.
Proof.
  induction all_files as [|p files (ds & Hds & Hlen & Hall)]; simpl.
  - exists []. repeat split; constructor.
  - destruct (_parse_file p) as [[s a]|e]; [|now exists ds].
    exists (mkStructureData (Present a) (Present s) :: ds).
    cbn [structure_data_list]. rewrite parsed_entry_view, Hds.
    repeat split; simpl; auto.
    constructor; [|exact Hall]. split; [now exists a|now exists s].
Qed.

Lemma lookup_with_both_forms d model :
  has_atoms d -> (exists s, pymatgen_structure d = Present s) ->
  exists structure, _get_structure_for_model (SData d) model = Ok structure.
Proof.
  intros [a Ha] [s Hs]. unfold _get_structure_for_model.
  destruct model; simpl; rewrite ?Ha, ?Hs; eauto.
Qed.

(** X23.  What [batch_parse] returns can be handed to [predict_batch] as it
    is: the batch prediction returns one record per parsed file, and every
    configured model finds the representation it requires in every entry,
    so no entry of the result is a missing-representation error. *)
Theorem parsed_files_are_predictable
  (directory_path : string) (file_extensions : option (list string))
  (entries : list DataEntry) (models : list Model)
  (prediction_type : option string)
  (Hparsed : batch_parse directory_path file_extensions = Ok entries) :
  exists structures unified_results,
    structure_data_list entries = Some structures /\
    predict_batch models structures prediction_type = Ok unified_results /\
    List.length unified_results = List.length entries /\
    forall d model,
      In d structures ->
      exists structure, _get_structure_for_model (SData d) model = Ok structure.
Proof.
  unfold batch_parse in Hparsed.
  destruct (path_exists directory_path); simpl in Hparsed; [|discriminate].
  injection Hparsed as <-.
  destruct (parse_files_view
              (matching_files directory_path
                 match file_extensions with
                 | Some l => l
                 | None => supported_formats
                 end)) as (ds & Hds & Hlen & Hall).
  assert (Hatoms : Forall has_atoms ds).
  { eapply Forall_impl; [|exact Hall]. now intros d [H _]. }
  destruct (predict_batch_from_total models prediction_type ds 0%Z Hatoms)
    as (rs & Hrs & Hlen' & _).
  exists ds, rs. repeat split; auto; [congruence|].
  intros d model Hin. rewrite Forall_forall in Hall.
  destruct (Hall d Hin) as [Ha Hs]. now apply lookup_with_both_forms.
Qed.

End ParserExtras.

Import Demo Demo2.

Lemma batch_parse_keeps_only_parsed_files_witness :
  path_exists "/data" = true /\
  batch_parse "/data" (Some ["cif"; "txt"; "xyz"; "poscar"])
  = Ok [parsed_entry "/data/a.cif" si_structure si_atoms] /\
  Forall (well_parsed
            ["/data/a.cif"; "/data/notes.txt"; "/data/bad.xyz"; "/data/POSCAR"])
         [parsed_entry "/data/a.cif" si_structure si_atoms].
Proof.
  assert (Hdir : path_exists "/data" = true) by reflexivity.
  assert (Hok : batch_parse "/data" (Some ["cif"; "txt"; "xyz"; "poscar"])
                = Ok [parsed_entry "/data/a.cif" si_structure si_atoms])
    by reflexivity.
  split; [exact Hdir|]. split; [exact Hok|].
  destruct (batch_parse_keeps_only_parsed_files "/data"
              (Some ["cif"; "txt"; "xyz"; "poscar"]) Hdir)
    as (parsed & Hparsed & Hall & _).
  rewrite Hok in Hparsed. injection Hparsed as <-. exact Hall.
Defined.

Lemma parsed_files_are_predictable_witness :
  batch_parse "/data" None
  = Ok [parsed_entry "/data/a.cif" si_structure si_atoms] /\
  exists structures unified_results,
    structure_data_list
      [parsed_entry "/data/a.cif" si_structure si_atoms] = Some structures /\
    predict_batch demo_models structures (Some "energy") = Ok unified_results /\
    List.length unified_results = 1%nat.
Proof.
  assert (H : batch_parse "/data" None
              = Ok [parsed_entry "/data/a.cif" si_structure si_atoms])
    by reflexivity.
  split; [exact H|].
  destruct (parsed_files_are_predictable "/data" None
              [parsed_entry "/data/a.cif" si_structure si_atoms] demo_models
              (Some "energy") H) as (ds & rs & H1 & H2 & H3 & _).
  exists ds, rs. repeat split; assumption.
Defined.

End ParserExtras.

(* ================================================================== *)
(** ** Sampling of XDATCAR files, the trajectory loader, the script    *)
(* ================================================================== *)

Module PipelineExtras.
Import ManagerFacts ManagerExtras.

Lemma range_loop_nth (stop step : Z) :
  (0 < step)%Z ->
  forall fuel i j,
    (stop - i <= Z.of_nat fuel)%Z ->
    nth_error (range_loop fuel i stop step) j
    = if (i + Z.of_nat j * step <? stop)%Z
      then Some (i + Z.of_nat j * step)%Z else None.
Proof.
  intros Hstep. induction fuel as [|fuel IH]; intros i j Hfuel; simpl.
  - destruct (Z.ltb_spec (i + Z.of_nat j * step) stop); [nia|].
    now destruct j.
  - destruct (Z.ltb_spec i stop) as [Hlt|Hge].
    + destruct j as [|j]; simpl.
      * rewrite Z.add_0_r.
        destruct (Z.ltb_spec i stop); [reflexivity|lia].
      * rewrite IH by lia.
        replace (i + step + Z.of_nat j * step)%Z
          with (i + Z.pos (Pos.of_succ_nat j) * step)%Z by lia.
        reflexivity.
    + destruct (Z.ltb_spec (i + Z.of_nat j * step) stop); [nia|].
      now destruct j.
Qed.

Lemma map_result_Forall2 {A B} (f : A -> Result B) (l : list A) (ys : list B) :
  map_result f l = Ok ys -> Forall2 (fun x y => f x = Ok y) l ys.
Proof.
  revert ys. induction l as [|x l IH]; intros ys; simpl.
  - intros [= <-]. constructor.
  - destruct (f x) as [y|] eqn:Hy; simpl; [|discriminate].
    destruct (map_result f l) as [ys'|]; simpl; [|discriminate].
    intros [= <-]. constructor; auto.
Qed.

Lemma Forall2_nth {A B} (R : A -> B -> Prop) l l' :
  Forall2 R l l' ->
  forall j,
    match nth_error l j, nth_error l' j with
    | Some x, Some y => R x y
    | None, None => True
    | _, _ => False
    end.
Proof.
  induction 1 as [|x y l l' Hxy _ IH]; intros [|j]; simpl; auto.
  apply IH.
Qed.

Section PipelineExtras.
Context {tp : ThirdParty} {fs : FileSystem}.

(** X24.  For a positive [step_interval], the structures sampled from an
    XDATCAR file are those at positions [0], [step], [2*step], ... of the
    file, in order, and [sampled_atoms] holds, position by position, the
    [Atoms] conversion of [sampled_structures].  A zero [step_interval]
    makes the sampling of every file fail (the [range] call raises), so
    the file is dropped; a negative one samples nothing. *)
Theorem xdatcar_sampling (file_path : string) (step_interval : Z) :
  (forall sample,
      (0 < step_interval)%Z ->
      sample_xdatcar file_path step_interval = Ok sample ->
      exists all_structures,
        Xdatcar_structures file_path = Ok all_structures /\
        (forall j,
            nth_error (sampled_structures sample) j
            = if (Z.of_nat j * step_interval
                  <? Z.of_nat (List.length all_structures))%Z
              then nth_error all_structures
                             (Z.to_nat (Z.of_nat j * step_interval))
              else None) /\
        Forall2 (fun s a => get_atoms s = Ok a)
                (sampled_structures sample) (sampled_atoms sample))
  /\
  (step_interval = 0%Z ->
   exists e, sample_xdatcar file_path step_interval = Raise e)
  /\
  (forall sample,
      (step_interval < 0)%Z ->
      sample_xdatcar file_path step_interval = Ok sample ->
      sampled_structures sample = [] /\ sampled_atoms sample = []).
Proof.
  unfold sample_xdatcar. split; [|split].
  - intros sample Hstep.
    destruct (Xdatcar_structures file_path) as [all|]; simpl; [|discriminate].
    unfold py_range.
    destruct (Z.eqb_spec step_interval 0); [lia|].
    destruct (Z.ltb_spec step_interval 0); [lia|]. simpl.
    destruct (map_result (list_item all) _) as [sampled|] eqn:Hs; simpl;
      [|discriminate].
    destruct (map_result get_atoms sampled) as [atoms|] eqn:Ha; simpl;
      [|discriminate].
    intros [= <-]. simpl. exists all. split; [reflexivity|]. split.
    + intros j. apply map_result_Forall2 in Hs.
      pose proof (Forall2_nth _ _ _ Hs j) as Hj.
      rewrite (range_loop_nth _ _ Hstep) in Hj by lia. simpl in Hj.
      destruct (Z.ltb_spec (Z.of_nat j * step_interval)
                           (Z.of_nat (List.length all))).
      * destruct (nth_error sampled j) as [s|]; [|contradiction].
        unfold list_item in Hj.
        destruct (nth_error all _) as [x|]; [|discriminate].
        now injection Hj as ->.
      * now destruct (nth_error sampled j).
    + now apply map_result_Forall2.
  - intros ->.
    destruct (Xdatcar_structures file_path) as [all|e]; simpl; eauto.
  - intros sample Hstep.
    destruct (Xdatcar_structures file_path) as [all|]; simpl; [|discriminate].
    unfold py_range.
    destruct (Z.eqb_spec step_interval 0); [lia|].
    destruct (Z.ltb_spec step_interval 0); [|lia]. simpl.
    now intros [= <-].
Qed.

Lemma sample_xdatcar_ok file_path step_interval sample :
  sample_xdatcar file_path step_interval = Ok sample ->
  sample_file sample = file_path /\
  List.length (sampled_atoms sample) = List.length (sampled_structures sample) /\
  step_interval <> 0%Z /\
  ((step_interval < 0)%Z -> sampled_structures sample = []).
Proof.
  unfold sample_xdatcar.
  destruct (Xdatcar_structures file_path) as [all|]; simpl; [|discriminate].
  unfold py_range. destruct (Z.eqb_spec step_interval 0); [discriminate|].
  destruct (Z.ltb_spec step_interval 0); simpl.
  - intros [= <-]. simpl. repeat split; auto.
  - destruct (map_result (list_item all) _) as [sampled|]; simpl;
      [|discriminate].
    destruct (map_result get_atoms sampled) as [atoms|] eqn:Ha; simpl;
      [|discriminate].
    intros [= <-]. simpl. repeat split; auto; [|lia].
    symmetry. exact (Forall2_length (map_result_Forall2 _ _ _ Ha)).
Qed.

Lemma sample_files_spec all_xdatcar_files step_interval :
  forall files,
    (forall p, In p files -> In p all_xdatcar_files) ->
    Forall (fun sample =>
              In (sample_file sample) all_xdatcar_files /\
              sample_xdatcar (sample_file sample) step_interval = Ok sample)
           (sample_files files step_interval) /\
    (List.length (sample_files files step_interval) <= List.length files)%nat.
Proof.
  induction files as [|p files IH]; intros Hsub; simpl.
  - split; [constructor|lia].
  - destruct IH as [IH1 IH2]; [intros q Hq; apply Hsub; now right|].
    destruct (sample_xdatcar p step_interval) as [sample|e] eqn:Hp.
    + split; [|simpl; lia]. constructor; [|exact IH1].
      destruct (sample_xdatcar_ok _ _ _ Hp) as (-> & _).
      split; [apply Hsub; now left|exact Hp].
    + split; [exact IH1|lia].
Qed.

(** X25.  For an existing directory [parse_xdatcar] never raises.  Every
    element it returns is the sample of a file named [XDATCAR] found by
    the walk, as the sampling of that file made it, and holds as many
    [Atoms] objects as structures; a file whose reading, sampling or
    conversion fails is left out, so there are at most as many elements
    as files.  With [step_interval = 0] the result is the empty list
    whatever the directory holds, and with a negative [step_interval]
    every element holds no structure at all. *)
Theorem parse_xdatcar_keeps_only_sampled_files
  (directory_path : string) (step_interval : Z)
  (Hdir : path_exists directory_path = true) :
  exists sampled_data,
    parse_xdatcar directory_path step_interval = Ok sampled_data /\
    Forall (fun sample =>
              In (sample_file sample) (xdatcar_files directory_path) /\
              sample_xdatcar (sample_file sample) step_interval = Ok sample /\
              List.length (sampled_atoms sample)
              = List.length (sampled_structures sample))
           sampled_data /\
    (List.length sampled_data
     <= List.length (xdatcar_files directory_path))%nat /\
    (step_interval = 0%Z -> sampled_data = []) /\
    ((step_interval < 0)%Z ->
     Forall (fun sample => sampled_structures sample = [] /\
                           sampled_atoms sample = []) sampled_data).
Proof.
  unfold parse_xdatcar. rewrite Hdir. simpl.
  destruct (sample_files_spec (xdatcar_files directory_path) step_interval
              (xdatcar_files directory_path) (fun p H => H)) as [Hall Hlen].
  eexists. split; [reflexivity|]. split; [|split; [exact Hlen|split]].
  - eapply Forall_impl; [|exact Hall]. intros sample [Hin Hok].
    repeat split; auto. now destruct (sample_xdatcar_ok _ _ _ Hok) as (_ & H & _).
  - intros Hzero.
    destruct (sample_files (xdatcar_files directory_path) step_interval)
      as [|sample rest]; [reflexivity|].
    apply Forall_inv in Hall as [_ Hok].
    now destruct (sample_xdatcar_ok _ _ _ Hok) as (_ & _ & Hne & _).
  - intros Hneg. eapply Forall_impl; [|exact Hall]. intros sample [_ Hok].
    destruct (sample_xdatcar_ok _ _ _ Hok) as (_ & Hlen' & _ & Hempty).
    specialize (Hempty Hneg). split; [exact Hempty|].
    rewrite Hempty in Hlen'. now destruct (sampled_atoms sample).
Qed.

Lemma traj_entry_spec frame entry :
  traj_entry frame = Ok entry -> loaded_from (Ok frame) entry.
Proof.
  unfold traj_entry, loaded_from, ase_to_pymatgen.
  destruct (get_potential_energy frame) as [e|] eqn:He; simpl; [|discriminate].
  destruct (frame_get_forces frame) as [f|]; simpl; [|discriminate].
  destruct (get_stress frame) as [st|]; simpl; [|discriminate].
  intros [= <-]. exists frame. rewrite He.
  destruct (Structure_new _ _ _); repeat split; reflexivity.
Qed.

Lemma traj_data_spec traj data :
  traj_data traj = Ok data -> Forall2 loaded_from traj data.
Proof.
  revert data. induction traj as [|image traj IH]; intros data; simpl.
  - intros [= <-]. constructor.
  - destruct image as [frame|]; simpl; [|discriminate].
    destruct (traj_entry frame) as [entry|] eqn:He; simpl; [|discriminate].
    destruct (traj_data traj) as [rest|]; simpl; [|discriminate].
    intros [= <-]. constructor; [|now apply IH].
    now apply traj_entry_spec.
Qed.

Lemma load_spec tf od test_size random_state dataset :
  load_and_split_traj tf od test_size random_state = Ok dataset ->
  exists traj,
    Trajectory tf = Ok traj /\ traj_data traj = Ok (split_test dataset).
Proof.
  unfold load_and_split_traj.
  destruct (if negb (path_exists od) then makedirs od else Ok tt); simpl;
    [|discriminate].
  destruct (Trajectory tf) as [traj|]; simpl; [|discriminate].
  destruct (traj_data traj) as [data|] eqn:Hd; simpl; [|discriminate].
  destruct (train_test_split DataEntry data _ _); simpl; [|discriminate].
  destruct (train_test_split (Result Frame) traj _ _); simpl; [|discriminate].
  intros [= <-]. exists traj. split; [reflexivity|exact Hd].
Qed.

(** X26.  Whatever [test_size] and [random_state] are, the ["test"] part of
    what [load_and_split_traj] returns is the whole trajectory, one entry
    per image in trajectory order, not the test half of the split.  Each
    entry has the keys ["ase_atoms"], ["pymatgen_structure"],
    ["total_energy"], ["force"], ["stress"]: the image's [Atoms] object,
    its pymatgen conversion or [None] when the conversion fails, and the
    stored energy; there is no key ["true_energy"]. *)
Theorem loader_test_set_is_the_whole_trajectory
  (tf od : string) (test_size random_state : PyValue) (dataset : SplitDataset)
  (Hload : load_and_split_traj tf od test_size random_state = Ok dataset) :
  exists traj,
    Trajectory tf = Ok traj /\
    Forall2 loaded_from traj (split_test dataset).
Proof.
  destruct (load_spec _ _ _ _ _ Hload) as (traj & Ht & Hd).
  exists traj. split; [exact Ht|]. now apply traj_data_spec.
Qed.

Lemma loaded_view traj data :
  Forall2 loaded_from traj data ->
  exists structures,
    structure_data_list data = Some structures /\
    List.length structures = List.length data /\
    Forall has_atoms structures.
Proof.
  induction 1 as [|image entry traj data (frame & _ & _ & Ha & Hs & _) _
                    (ds & Hds & Hlen & Hall)].
  - exists []. repeat split; constructor.
  - eexists (_ :: ds). simpl. unfold structure_data_of. rewrite Ha, Hs, Hds.
    split; [reflexivity|]. split; [simpl; now rewrite Hlen|].
    constructor; [|exact Hall]. now exists (frame_atoms frame).
Qed.

(** X27.  The ["test"] entries of [load_and_split_traj] can be handed to
    [predict_batch] as they are: every entry carries an [Atoms] object, so
    the batch prediction does not abort on a label and returns one record
    per image of the trajectory, whatever the models do and even for the
    images whose pymatgen conversion failed. *)
Theorem loaded_trajectory_is_predictable
  (tf od : string) (test_size random_state : PyValue) (dataset : SplitDataset)
  (models : list Model) (prediction_type : option string)
  (Hload : load_and_split_traj tf od test_size random_state = Ok dataset) :
  exists structures unified_results,
    structure_data_list (split_test dataset) = Some structures /\
    Forall has_atoms structures /\
    predict_batch models structures prediction_type = Ok unified_results /\
    List.length unified_results = List.length (split_test dataset).
Proof.
  destruct (load_spec _ _ _ _ _ Hload) as (traj & _ & Hd).
  pose proof (traj_data_spec _ _ Hd) as Hall.
  destruct (loaded_view _ _ Hall) as (ds & Hds & Hlen & Hatoms).
  destruct (predict_batch_from_total models prediction_type ds 0%Z Hatoms)
    as (rs & Hrs & Hlen' & _).
  exists ds, rs. repeat split; auto. congruence.
Qed.

Section Formation.
Context {bi : Builtins}.

(** X28.  [correct_dataset_to_formation_energy] cannot process what
    [load_and_split_traj] returns: the loader stores the energy under
    ["total_energy"], the correction reads ["true_energy"], so on any
    non-empty loaded dataset it raises [KeyError('true_energy')] at the
    first entry, whatever the chemical potentials are. *)
Theorem loaded_dataset_has_no_true_energy
  (tf od : string) (test_size random_state : PyValue) (dataset : SplitDataset)
  (chemical_potentials : PyDict)
  (Hload : load_and_split_traj tf od test_size random_state = Ok dataset)
  (Hnonempty : split_test dataset <> []) :
  correct_dataset_to_formation_energy (split_test dataset) chemical_potentials
  = Raise (KeyError "true_energy").
Proof.
  destruct (load_spec _ _ _ _ _ Hload) as (traj & _ & Hd).
  pose proof (traj_data_spec _ _ Hd) as Hall.
  destruct Hall as [|image entry traj data (frame & _ & _ & Ha & _ & _ & Ht) _];
    [now elim Hnonempty|].
  simpl. unfold correct_entry, entry_item. rewrite Ht.
  unfold atoms_slot in Ha.
  destruct (dict_get entry "ase_atoms") as [v|]; [reflexivity|discriminate].
Qed.

End Formation.

Section Main.
Context {ld : Loaders} {pd : Pandas}.

(** X29.  [main.py] cannot run to its end on a trajectory that has at
    least one image.  Whatever the loaders, the models and pandas do, it
    raises; and when the dataset is loaded, the four models are built, the
    batch is predicted and the data frame is made, what it raises is
    [KeyError('true_energy')], from the list of true energies of step 5:
    the loader's entries have ["total_energy"] instead. *)
Theorem main_stops_at_the_true_energies
  (io : Streams) (image : Result Frame) (rest : list (Result Frame))
  (Htraj : Trajectory traj_file = Ok (image :: rest)) :
  (exists e, fst (main io) = Raise e) /\
  (forall dataset models io' results,
      load_and_split_traj traj_file output_dir (VInt 1) (VInt 42) = Ok dataset ->
      _initialize_models model_configs io = (Ok models, io') ->
      predict_test_data models (split_test dataset) = Ok results ->
      DataFrame_new results = Ok tt ->
      main io = (Raise (KeyError "true_energy"), io')).
Proof.
  assert (Hkey : forall dataset,
             load_and_split_traj traj_file output_dir (VInt 1) (VInt 42)
             = Ok dataset ->
             map_result (fun data => entry_item data "true_energy")
                        (split_test dataset)
             = Raise (KeyError "true_energy")).
  { intros dataset Hload.
    destruct (load_spec _ _ _ _ _ Hload) as (traj & Ht & Hd).
    rewrite Htraj in Ht. injection Ht as <-.
    pose proof (traj_data_spec _ _ Hd) as Hall.
    destruct (split_test dataset) as [|entry data]; [inversion Hall|].
    apply Forall2_cons_iff in Hall
      as [(frame & _ & _ & _ & _ & _ & Hte) _].
    simpl. unfold entry_item at 1. rewrite Hte. reflexivity. }
  unfold main, io_bind, io_lift. split.
  - destruct (load_and_split_traj _ _ _ _) as [dataset|e] eqn:Hload;
      [|now exists e].
    destruct (_initialize_models model_configs io) as [[models|e] io'];
      [|now exists e].
    destruct (predict_test_data models (split_test dataset)) as [results|e];
      [|now exists e].
    destruct (DataFrame_new results) as [[]|e]; [|now exists e].
    rewrite (Hkey dataset eq_refl). now eexists.
  - intros dataset models io' results Hload Hinit Hpred Hdf.
    rewrite Hload, Hinit, Hpred, Hdf, (Hkey dataset Hload). reflexivity.
Qed.

End Main.
End PipelineExtras.

Import Demo Demo2.

Lemma demo_dataset_loaded :
  load_and_split_traj traj_file output_dir (VInt 1) (VInt 42) = Ok demo_dataset.
Proof. reflexivity. Qed.

Lemma loader_test_set_is_the_whole_trajectory_witness :
  load_and_split_traj traj_file output_dir (VInt 1) (VInt 42) = Ok demo_dataset /\
  Forall2 loaded_from [Ok good_frame; Ok odd_frame] (split_test demo_dataset).
Proof.
  split; [exact demo_dataset_loaded|].
  destruct (loader_test_set_is_the_whole_trajectory
              traj_file output_dir (VInt 1) (VInt 42) demo_dataset
              demo_dataset_loaded)
    as (traj & Ht & Hall).
  injection Ht as <-. exact Hall.
Defined.

Lemma loaded_trajectory_is_predictable_witness :
  load_and_split_traj traj_file output_dir (VInt 1) (VInt 42) = Ok demo_dataset /\
  exists structures unified_results,
    structure_data_list (split_test demo_dataset) = Some structures /\
    predict_batch three_models structures (Some "energy") = Ok unified_results /\
    List.length unified_results = 2%nat.
Proof.
  split; [exact demo_dataset_loaded|].
  destruct (loaded_trajectory_is_predictable
              traj_file output_dir (VInt 1) (VInt 42) demo_dataset three_models
              (Some "energy") demo_dataset_loaded)
    as (ds & rs & H1 & _ & H2 & H3).
  exists ds, rs. repeat split; [exact H1|exact H2|exact H3].
Defined.

Lemma loaded_dataset_has_no_true_energy_witness :
  load_and_split_traj traj_file output_dir (VInt 1) (VInt 42) = Ok demo_dataset /\
  split_test demo_dataset <> [] /\
  correct_dataset_to_formation_energy (bi := total_bi)
    (split_test demo_dataset) [("Si", VInt 1)]
  = Raise (KeyError "true_energy").
Proof.
  assert (Hne : split_test demo_dataset <> []) by discriminate.
  split; [exact demo_dataset_loaded|]. split; [exact Hne|].
  exact (loaded_dataset_has_no_true_energy (bi := total_bi)
           traj_file output_dir (VInt 1) (VInt 42) demo_dataset
           [("Si", VInt 1)] demo_dataset_loaded Hne).
Defined.

Lemma main_stops_at_the_true_energies_witness :
  Trajectory traj_file = Ok [Ok good_frame; Ok odd_frame] /\
  exists e, fst (main terminal) = Raise e.
Proof.
  split; [reflexivity|].
  exact (proj1 (main_stops_at_the_true_energies terminal (Ok good_frame)
                  [Ok odd_frame] eq_refl)).
Defined.

Example main_on_the_demo_trajectory :
  main terminal = (Raise (KeyError "true_energy"), terminal).
Proof. reflexivity. Qed.

Lemma parse_xdatcar_keeps_only_sampled_files_witness :
  path_exists "/data" = true /\
  parse_xdatcar "/data" 0 = Ok [] /\
  exists sampled_data,
    parse_xdatcar "/data" 2 = Ok sampled_data /\
    List.length sampled_data = 1%nat.
Proof.
  assert (Hdir : path_exists "/data" = true) by reflexivity.
  split; [exact Hdir|]. split.
  - destruct (parse_xdatcar_keeps_only_sampled_files "/data" 0 Hdir)
      as (sampled_data & Hok & _ & _ & Hzero & _).
    rewrite (Hzero eq_refl) in Hok. exact Hok.
  - eexists. split; reflexivity.
Defined.

Lemma xdatcar_sampling_witness :
  (0 < 2)%Z /\
  sample_xdatcar "/data/XDATCAR" 2
  = Ok (mkSample "/data/XDATCAR"
          [si_structure; si_structure; si_structure]
          [mkAtoms cubic ["Si"] [origin]; mkAtoms cubic ["Si"] [origin];
           mkAtoms cubic ["Si"] [origin]]) /\
  nth_error [si_structure; si_structure; si_structure] 1
  = nth_error [si_structure; xx_structure; si_structure; xx_structure;
               si_structure] 2.
Proof.
  assert (Hstep : (0 < 2)%Z) by lia.
  assert (Hok : sample_xdatcar "/data/XDATCAR" 2
                = Ok (mkSample "/data/XDATCAR"
                        [si_structure; si_structure; si_structure]
                        [mkAtoms cubic ["Si"] [origin];
                         mkAtoms cubic ["Si"] [origin];
                         mkAtoms cubic ["Si"] [origin]])) by reflexivity.
  split; [exact Hstep|]. split; [exact Hok|].
  destruct (proj1 (xdatcar_sampling "/data/XDATCAR" 2) _ Hstep Hok)
    as (all & Hall & Hnth & _).
  injection Hall as <-. exact (Hnth 1%nat).
Defined.

End PipelineExtras.
